(** * run-length-example: the HTTP front of a sequence store

    A shallow embedding of the two revisions of the server that the
    repository carries:

    - [MainGo]  is [src/cmd/server/main.go]: dates in the query string are
      parsed with [time.Parse], the insert grammar captures its groups;
    - [Part002] is [src/unnamed/part_002]: dates in the query string are
      seconds since the epoch, the start is rounded with [ceilInt64], the
      insert grammar only validates and the line is decoded by offset, and
      the query handler looks the key up before it queries.

    What [main] does around the handlers is the same in both revisions:
    the start from the dump file, the timer of the retention policy and
    the shutdown on a signal.  [BaseJs] is the handler of the insert
    buttons of [src/cmd/server/assets/static/js/base.js].

    The sequence store ([github.com/geofduf/run-length/sequence]), the file
    system and the clock are outside the repository: they are parameters of
    the embedding.  [int] is taken to be 64 bits wide. *)

From Stdlib Require Import ZArith String Ascii List Bool Lia DecimalString.
Import ListNotations.

Local Open Scope string_scope.
Local Open Scope Z_scope.

(* ================================================================== *)
(** * The Go runtime: 64-bit integers and panics *)
(* ================================================================== *)

Definition MinInt64 : Z := - 2 ^ 63.
Definition MaxInt64 : Z := 2 ^ 63 - 1.

(** The values an [int64] can hold. *)
Definition int64 (z : Z) : Prop := MinInt64 <= z <= MaxInt64.

(** Two's complement wrap-around of a mathematical integer. *)
Definition wrap64 (z : Z) : Z := (z + 2 ^ 63) mod 2 ^ 64 - 2 ^ 63.

Definition add64 (a b : Z) : Z := wrap64 (a + b).
Definition sub64 (a b : Z) : Z := wrap64 (a - b).
Definition mul64 (a b : Z) : Z := wrap64 (a * b).
(** Go's [/] and [%] truncate toward zero. *)
Definition quo64 (a b : Z) : Z := wrap64 (Z.quot a b).
Definition rem64 (a b : Z) : Z := Z.rem a b.

(** A Go call either returns or panics. *)
Inductive outcome (A : Type) : Type :=
| Returns (a : A)
| Panics (msg : string).
Arguments Returns {A} a.
Arguments Panics {A} msg.

(** Go's [error]: the text of [err.Error()]. *)
Definition error : Type := string.

(* ================================================================== *)
(** * strconv, fmt, bytes *)
(* ================================================================== *)

Definition isDigit (c : ascii) : bool :=
  let n := N_of_ascii c in (48 <=? n)%N && (n <=? 57)%N.

Definition isWord (c : ascii) : bool :=
  let n := N_of_ascii c in
  ((48 <=? n)%N && (n <=? 57)%N) || ((65 <=? n)%N && (n <=? 90)%N)
  || ((97 <=? n)%N && (n <=? 122)%N) || (n =? 95)%N.

Definition digitVal (c : ascii) : Z := Z.of_N (N_of_ascii c) - 48.

(** The value of a run of decimal digits, most significant first; [None]
    at the first byte that is not a digit. *)
Fixpoint digits (acc : Z) (s : string) : option Z :=
  match s with
  | EmptyString => Some acc
  | String c s' => if isDigit c then digits (acc * 10 + digitVal c) s' else None
  end.

(** [strconv.Atoi]: an optional sign, then one decimal digit or more; the
    value has to fit [int].  [None] stands for [err != nil]. *)
Definition Atoi (s : string) : option Z :=
  let '(neg, body) :=
    match s with
    | String "-" r => (true, r)
    | String "+" r => (false, r)
    | _ => (false, s)
    end in
  match body with
  | EmptyString => None
  | _ =>
      match digits 0 body with
      | None => None
      | Some n =>
          let v := if neg then - n else n in
          if (MinInt64 <=? v) && (v <=? MaxInt64) then Some v else None
      end
  end.

(** The verb [%d] of [fmt]. *)
Definition itoa (z : Z) : string := NilZero.string_of_int (Z.to_int z).

(** [bytes.IndexByte]: the index of the first [c] in [s], or -1. *)
Fixpoint IndexByte_from (i : Z) (s : string) (c : ascii) : Z :=
  match s with
  | EmptyString => -1
  | String a s' => if Ascii.eqb a c then i else IndexByte_from (i + 1) s' c
  end.
Definition IndexByte (s : string) (c : ascii) : Z := IndexByte_from 0 s c.

(** [bytes.Split(body, "\n")]: the pieces between the line feeds, one more
    than there are line feeds; the empty body gives one empty piece. *)
Definition LF : ascii := "010"%char.

Fixpoint Split (body : string) : list string :=
  match body with
  | EmptyString => [EmptyString]
  | String c rest =>
      if Ascii.eqb c LF then EmptyString :: Split rest
      else match Split rest with
           | l :: ls => String c l :: ls
           | [] => [String c EmptyString]
           end
  end.

Definition len (s : string) : Z := Z.of_nat (String.length s).

(** A body made of the given lines, a line feed between two of them. *)
Definition unlines (ls : list string) : string :=
  String.concat (String LF EmptyString) ls.

(** [s[i]]: a panic when [i] is out of range. *)
Definition byteAt (s : string) (i : Z) : outcome ascii :=
  if (0 <=? i) && (i <? len s) then
    match String.get (Z.to_nat i) s with
    | Some c => Returns c
    | None => Panics "runtime error: index out of range"
    end
  else Panics "runtime error: index out of range".

(** [s[i:]] and [s[:j]]: a panic when the bound is out of range. *)
Definition slice_from (s : string) (i : Z) : outcome string :=
  if (0 <=? i) && (i <=? len s) then
    Returns (String.substring (Z.to_nat i) (String.length s - Z.to_nat i) s)
  else Panics "runtime error: slice bounds out of range".

Definition slice_to (s : string) (j : Z) : outcome string :=
  if (0 <=? j) && (j <=? len s) then Returns (String.substring 0 (Z.to_nat j) s)
  else Panics "runtime error: slice bounds out of range".

(** [xs[i]] and [xs[i] = v] on a slice: a panic when [i] is out of range. *)
Definition at_ {A} (xs : list A) (i : Z) : outcome A :=
  if (0 <=? i) && (i <? Z.of_nat (List.length xs)) then
    match nth_error xs (Z.to_nat i) with
    | Some v => Returns v
    | None => Panics "runtime error: index out of range"
    end
  else Panics "runtime error: index out of range".

Fixpoint update {A} (xs : list A) (i : nat) (v : A) : list A :=
  match xs, i with
  | [], _ => []
  | _ :: r, O => v :: r
  | a :: r, S j => a :: update r j v
  end.

Definition set_at {A} (xs : list A) (i : Z) (v : A) : outcome (list A) :=
  if (0 <=? i) && (i <? Z.of_nat (List.length xs)) then
    Returns (update xs (Z.to_nat i) v)
  else Panics "runtime error: index out of range".

(* ================================================================== *)
(** * time *)
(* ================================================================== *)

(** A [time.Time] is taken for what the package documents it to be, an
    instant: whole seconds since the Unix epoch and the nanoseconds within
    the second.  The package keeps the seconds since the year 1 in 64
    bits; instants are not bounded here, so the functions below are those
    of the package on every instant less than 2^63 seconds after the year
    1, which is all of them up to the year 292277026596.  The monotonic
    clock reading plays no part in the code. *)
Record Time : Type := mkTime { sec : Z; nsec : Z }.

(** A [time.Duration] is a number of nanoseconds. *)
Definition Second : Z := 1000000000.

(** Seconds from the zero time (year 1) to the Unix epoch. *)
Definition unixToInternal : Z := 62135596800.

(** [time.Unix(s, 0)]. *)
Definition time_Unix (s : Z) : Time := mkTime s 0.

(** [t.Unix()]. *)
Definition Unix (t : Time) : Z := sec t.

(** [t.After(u)], on instants whose seconds since the year 1 fit 64 bits;
    beyond them the seconds that the package keeps wrap around. *)
Definition After (t u : Time) : bool :=
  (sec u <? sec t) || ((sec t =? sec u) && (nsec u <? nsec t)).

(** [t.Truncate(d)]: [t] rounded down to a multiple of [d] since the zero
    time; [t] itself when [d <= 0].  As for [After], this is the function
    of the package on instants whose seconds since the year 1 fit 64
    bits. *)
Definition Truncate (t : Time) (d : Z) : Time :=
  if d <=? 0 then t
  else
    let abs := (sec t + unixToInternal) * Second + nsec t in
    let abs' := abs - abs mod d in
    mkTime (abs' / Second - unixToInternal) (abs' mod Second).

(* ================================================================== *)
(** * The sequence store, the file system, the response writer *)
(* ================================================================== *)

Inductive State : Type := StateInactive | StateActive | StateUnknown.
Inductive StatementType : Type := StatementAdd.

Record Statement : Type := mkStatement {
  Key : string;
  Timestamp : Time;
  Value : State;
  Type_ : StatementType;
  CreateIfNotExists : bool;
  CreateWithTimestamp : Time;
  CreateWithFrequency : Z
}.

(** What [Store.Batch] returns: [HasErrors()] and [ErrorVars()], the latter
    with [None] for a nil error. *)
Record BatchResult : Type := mkBatchResult {
  HasErrors : bool;
  ErrorVars : list (option error)
}.

(** A Go pair [(value, err)]. *)
Inductive result (A : Type) : Type :=
| Ok (a : A)
| Err (e : error).
Arguments Ok {A} a.
Arguments Err {A} e.

(** The operations of [*sequence.Store] and of the query set that the
    server calls.  [Get] keeps the [ok] flag only, as the caller does;
    [Count_len] is [len(qs.Count)], and [Serialize] takes the date mask. *)
Class Store (S Q : Type) : Type := {
  Batch : S -> list Statement -> BatchResult * S;
  Get : S -> string -> bool;
  Query : S -> string -> Time -> Time -> Z -> result Q;
  Dump : S -> result string;
  Count_len : Q -> Z;
  Serialize : Q -> string -> string
}.

(** [os.WriteFile]. *)
Class Files (FS : Type) : Type := {
  WriteFile : FS -> string -> string -> option error * FS
}.

(** What [writeResponse] puts on the wire: the status code and the fields
    of the JSON object. *)
Record Response : Type := mkResponse {
  code : Z;
  status : string;
  message : string;
  data : option string
}.

(** What a request handler reads from [*http.Request]: [Body] is what
    [io.ReadAll(r.Body)] returns. *)
Record Request : Type := mkRequest {
  Method : string;
  Body : result string;
  FormValue : string -> string
}.

(** A POST request with the given body, and a GET request with the given
    values of [key], [start] and [end]. *)
Definition postRequest (body : string) : Request :=
  mkRequest "POST" (Ok body) (fun _ => EmptyString).

Definition getRequest (key start end_ : string) : Request :=
  mkRequest "GET" (Ok EmptyString)
    (fun name =>
       if (name =? "key")%string then key
       else if (name =? "start")%string then start
       else if (name =? "end")%string then end_
       else EmptyString).

(** What the server does to the outside, in the order it does it. *)
Inductive event : Type :=
| Logged (line : string)
| Wrote (resp : Response)
| CalledBatch (statements : list Statement)
| CalledGet (key : string)
| CalledQuery (key : string) (start end_ : Time) (interval : Z)
| CalledDump
| CalledWriteFile (name : string) (buf : string).

Section Effects.
Context {S Q FS : Type} `{Store S Q} `{Files FS}.

Record world : Type := mkWorld { store : S; files : FS }.

(** Server code: it reads and changes the world, emits events, and
    returns or panics. *)
Definition M (A : Type) : Type := world -> outcome A * world * list event.

Definition ret {A} (a : A) : M A := fun w => (Returns a, w, []).

Definition bind {A B} (m : M A) (k : A -> M B) : M B :=
  fun w =>
    match m w with
    | (Returns a, w', t) => let '(o, w'', t') := k a w' in (o, w'', (t ++ t')%list)
    | (Panics msg, w', t) => (Panics msg, w', t)
    end.

Definition lift {A} (o : outcome A) : M A := fun w => (o, w, []).

Definition emit (e : event) : M unit := fun w => (Returns tt, w, [e]).

(** [log.Printf]. *)
Definition logPrintf (line : string) : M unit := emit (Logged line).

(** [log.Panic]: the line is logged, then the goroutine panics. *)
Definition logPanic {A} (line : string) : M A :=
  fun w => (Panics line, w, [Logged line]).

Definition storeBatch (statements : list Statement) : M BatchResult :=
  fun w => let '(r, s') := Batch (store w) statements in
           (Returns r, mkWorld s' (files w), [CalledBatch statements]).

Definition storeGet (key : string) : M bool :=
  fun w => (Returns (Get (store w) key), w, [CalledGet key]).

Definition storeQuery (key : string) (start end_ : Time) (interval : Z)
  : M (result Q) :=
  fun w => (Returns (Query (store w) key start end_ interval), w,
            [CalledQuery key start end_ interval]).

Definition storeDump : M (result string) :=
  fun w => (Returns (Dump (store w)), w, [CalledDump]).

Definition osWriteFile (name buf : string) : M (option error) :=
  fun w => let '(e, fs') := WriteFile (files w) name buf in
           (Returns e, mkWorld (store w) fs', [CalledWriteFile name buf]).
End Effects.

Arguments world : clear implicits.
Arguments M : clear implicits.

Declare Scope go_scope.
Delimit Scope go_scope with go.
Notation "x <- c1 ;; c2" := (bind c1 (fun x => c2))
  (at level 61, c1 at next level, right associativity) : go_scope.
Notation "c1 ;; c2" := (bind c1 (fun _ => c2))
  (at level 61, right associativity) : go_scope.
Local Open Scope go_scope.

(** The responses, the log lines and the store queries among the events. *)
Definition responses (t : list event) : list Response :=
  flat_map (fun e => match e with Wrote r => [r] | _ => [] end) t.

Definition logged (t : list event) : list string :=
  flat_map (fun e => match e with Logged l => [l] | _ => [] end) t.

(** The outcome of a run, the world it leaves and its events. *)
Definition returned {S FS A} (run : outcome A * world S FS * list event)
  : outcome A := fst (fst run).
Definition after {S FS A} (run : outcome A * world S FS * list event)
  : world S FS := snd (fst run).
Definition events {S FS A} (run : outcome A * world S FS * list event)
  : list event := snd run.

(** Events that are log lines only. *)
Definition quiet (t : list event) : Prop :=
  Forall (fun e => exists l, e = Logged l) t.

Definition isQuery (e : event) : bool :=
  match e with CalledQuery _ _ _ _ => true | _ => false end.

Definition isWriteFile (e : event) : bool :=
  match e with CalledWriteFile _ _ => true | _ => false end.

(* ================================================================== *)
(** * regexp *)
(* ================================================================== *)

(** The regular expressions that the patterns of the server are built
    from, over bytes: Go's syntax with the classes [\w] and [\d] of ASCII,
    which no byte of a multi-byte rune belongs to.  Both patterns are
    anchored by [^] and [$], so a line matches when the whole of it is in
    the language. *)
Inductive regexp : Type :=
| Nothing
| Empty
| Class (p : ascii -> bool)
| Cat (r1 r2 : regexp)
| Alt (r1 r2 : regexp)
| Star (r : regexp).

(** [c], [r+], [r?], [(r)] and [(?:r)]: a pair of parentheses, capturing or
    not, does not change what matches. *)
Definition Lit (c : ascii) : regexp := Class (Ascii.eqb c).
Definition Plus (r : regexp) : regexp := Cat r (Star r).
Definition Opt (r : regexp) : regexp := Alt r Empty.
Definition Group (r : regexp) : regexp := r.
Definition NonCapturing (r : regexp) : regexp := r.

Fixpoint nullable (r : regexp) : bool :=
  match r with
  | Nothing => false
  | Empty => true
  | Class _ => false
  | Cat r1 r2 => nullable r1 && nullable r2
  | Alt r1 r2 => nullable r1 || nullable r2
  | Star _ => true
  end.

(** What is left of [r] after the byte [c]. *)
Fixpoint derive (c : ascii) (r : regexp) : regexp :=
  match r with
  | Nothing => Nothing
  | Empty => Nothing
  | Class p => if p c then Empty else Nothing
  | Cat r1 r2 =>
      if nullable r1 then Alt (Cat (derive c r1) r2) (derive c r2)
      else Cat (derive c r1) r2
  | Alt r1 r2 => Alt (derive c r1) (derive c r2)
  | Star r1 => Cat (derive c r1) (Star r1)
  end.

(** [r.Match(s)] for an anchored pattern. *)
Fixpoint Regexp_Match (r : regexp) (s : string) : bool :=
  match s with
  | EmptyString => nullable r
  | String c s' => Regexp_Match (derive c r) s'
  end.

(** The language of a regular expression. *)
Inductive lang : regexp -> string -> Prop :=
| lang_Empty : lang Empty EmptyString
| lang_Class p c : p c = true -> lang (Class p) (String c EmptyString)
| lang_Cat r1 r2 s1 s2 : lang r1 s1 -> lang r2 s2 -> lang (Cat r1 r2) (s1 ++ s2)
| lang_Alt_l r1 r2 s : lang r1 s -> lang (Alt r1 r2) s
| lang_Alt_r r1 r2 s : lang r2 s -> lang (Alt r1 r2) s
| lang_Star_nil r : lang (Star r) EmptyString
| lang_Star_app r s1 s2 :
    lang r s1 -> lang (Star r) s2 -> lang (Star r) (s1 ++ s2).

(* ================================================================== *)
(** * What the two revisions share *)
(* ================================================================== *)

Definition sequenceFrequency : Z := 15.
Definition maxNumberOfPoints : Z := 380.
Definition maskTime : string := "2006-01-02 15:04:05".

Definition statusOK : string := "ok".
Definition statusWarning : string := "warning".
Definition statusError : string := "error".

Definition aggregations : list Z :=
  [15; 30; 60; 120; 300; 600; 900; 1200; 1800; 3600; 7200; 14400; 43200; 86400].

Record queryArgs : Type := mkQueryArgs {
  start : Time;
  end_ : Time;
  interval : Z
}.

(** The longest prefix of [s] whose bytes satisfy [p], and what follows. *)
Fixpoint span (p : ascii -> bool) (s : string) : string * string :=
  match s with
  | EmptyString => (EmptyString, EmptyString)
  | String c s' =>
      if p c then let '(a, b) := span p s' in (String c a, b)
      else (EmptyString, s)
  end.

Definition is012 (c : ascii) : bool :=
  Ascii.eqb c "0" || Ascii.eqb c "1" || Ascii.eqb c "2".

(** The groups of [^(\w+) ([012])(?: (\d+))?$] in a line, the third one
    empty when the timestamp is absent; [None] when the line does not
    match.  The key is the longest run of word bytes at the start of the
    line, since the byte after it has to be a space. *)
Definition submatch (line : string) : option (string * string * string) :=
  let '(key, r1) := span isWord line in
  match key, r1 with
  | String _ _, String " " (String c r2) =>
      if is012 c then
        match r2 with
        | EmptyString => Some (key, String c EmptyString, EmptyString)
        | String " " r3 =>
            match span isDigit r3 with
            | (String d ds, EmptyString) =>
                Some (key, String c EmptyString, String d ds)
            | _ => None
            end
        | _ => None
        end
      else None
  | _, _ => None
  end.

Section Shared.
Context {S Q FS : Type} `{Store S Q} `{Files FS}.

(** [writeResponse]: the header, the status code and the JSON body go to
    the response writer. *)
Definition writeResponse (code : Z) (status message : string)
    (data : option string) : M S FS unit :=
  emit (Wrote (mkResponse code status message data)).

(** The method [dump] of the server, the same in both revisions. *)
Definition dump (f : string) : M S FS unit :=
  r <- storeDump ;;
  match r with
  | Err err => logPrintf ("error dumping store: " ++ err)
  | Ok buf =>
      e <- osWriteFile f buf ;;
      match e with
      | Some err => logPrintf ("error writing file: " ++ err)
      | None =>
          logPrintf ("writing store to file (" ++ itoa (len buf) ++ " bytes)")
      end
  end.
End Shared.

(** The loop of [newQueryArgs] over [aggregations]: the first [v] with
    [scope/v <= maxNumberOfPoints], or the initial 0. *)
Fixpoint firstAggregation (scope : Z) (table : list Z) : Z :=
  match table with
  | [] => 0
  | v :: rest =>
      if quo64 scope v <=? maxNumberOfPoints then v
      else firstAggregation scope rest
  end.

(* ================================================================== *)
(** * src/cmd/server/main.go *)
(* ================================================================== *)

Module MainGo.
Section Server.
Context {S Q FS : Type} `{Store S Q} `{Files FS}.

(** [time.Parse(layout, value)] of the standard library. *)
Variable time_Parse : string -> string -> result Time.

(** [^(\w+) ([012])(?: (\d+))?$]. *)
Definition validStatement : regexp :=
  Cat (Group (Plus (Class isWord)))
    (Cat (Lit " ")
       (Cat (Group (Class is012))
          (Opt (NonCapturing (Cat (Lit " ") (Group (Plus (Class isDigit)))))))).

(** [validStatement.FindSubmatch(line)]: the groups 1 to 3 of the match,
    which the pattern determines. *)
Definition FindSubmatch (line : string) : option (string * string * string) :=
  submatch line.

(** The [switch] on the state digit. *)
Definition stateOf (c : ascii) : M S FS State :=
  if Ascii.eqb c "0" then ret StateInactive
  else if Ascii.eqb c "1" then ret StateActive
  else if Ascii.eqb c "2" then ret StateUnknown
  else logPanic "poor validation panic".

(** The value and sequence timestamps of a statement whose third group
    is [ts]. *)
Definition timestamps (defaultValueTimestamp defaultSequenceTimestamp : Time)
    (ts : string) : M S FS (Time * Time) :=
  if 0 <? len ts then
    match Atoi ts with
    | None => logPanic "poor validation panic"
    | Some x =>
        let valueTimestamp := time_Unix x in
        ret (valueTimestamp,
             Truncate valueTimestamp (mul64 sequenceFrequency Second))
    end
  else ret (defaultValueTimestamp, defaultSequenceTimestamp).

(** The loop over the lines, from line [i] on: the statements, the index
    mapping and the count of skipped lines. *)
Fixpoint parseLines (defaultValueTimestamp defaultSequenceTimestamp : Time)
    (i : Z) (lines : list string)
    (statements : list Statement) (indexMapping : list Z) (skipped : Z)
  : M S FS (list Statement * list Z * Z) :=
  match lines with
  | [] => ret (statements, indexMapping, skipped)
  | line :: rest =>
      match FindSubmatch line with
      | None =>
          logPrintf ("error parsing statement " ++ itoa (i + 1)) ;;
          parseLines defaultValueTimestamp defaultSequenceTimestamp
            (i + 1) rest statements indexMapping (skipped + 1)
      | Some (m1, m2, m3) =>
          c <- lift (byteAt m2 0) ;;
          value <- stateOf c ;;
          tv <- timestamps defaultValueTimestamp defaultSequenceTimestamp m3 ;;
          let '(valueTimestamp, sequenceTimestamp) := tv in
          parseLines defaultValueTimestamp defaultSequenceTimestamp
            (i + 1) rest
            (statements ++
               [mkStatement m1 valueTimestamp value StatementAdd true
                  sequenceTimestamp sequenceFrequency])%list
            (indexMapping ++ [i])%list skipped
      end
  end.

(** The loop over [result.ErrorVars()], from index [i] on. *)
Fixpoint countErrors (indexMapping : list Z) (i : Z)
    (errs : list (option error)) (skipped : Z) : M S FS Z :=
  match errs with
  | [] => ret skipped
  | None :: rest => countErrors indexMapping (i + 1) rest skipped
  | Some err :: rest =>
      l <- lift (at_ indexMapping i) ;;
      logPrintf ("error executing statement " ++ itoa (l + 1) ++ ": " ++ err) ;;
      countErrors indexMapping (i + 1) rest (skipped + 1)
  end.

Definition handlerInsert (now : Time) (r : Request) : M S FS unit :=
  if negb (Method r =? "POST")%string then
    writeResponse 405 statusError "method not allowed" None
  else
    match Body r with
    | Err err =>
        writeResponse 400 statusError "error reading request body" None ;;
        logPrintf ("error reading request body: " ++ err)
    | Ok body =>
        let defaultValueTimestamp := now in
        let defaultSequenceTimestamp :=
          Truncate defaultValueTimestamp (mul64 sequenceFrequency Second) in
        let lines := Split body in
        p <- parseLines defaultValueTimestamp defaultSequenceTimestamp
               0 lines [] [] 0 ;;
        let '(statements, indexMapping, skipped) := p in
        result <- storeBatch statements ;;
        skipped <- (if HasErrors result
                    then countErrors indexMapping 0 (ErrorVars result) skipped
                    else ret skipped) ;;
        let status := if 0 <? skipped then statusWarning else statusOK in
        let n := Z.of_nat (List.length lines) in
        writeResponse 200 status
          ("processed " ++ itoa (n - skipped) ++ "/" ++ itoa n
             ++ " statement(s)") None
    end.

Definition newQueryArgs (start end_ : string) : result queryArgs :=
  match time_Parse maskTime start with
  | Err _ => Err "error parsing start date"
  | Ok x =>
      match time_Parse maskTime end_ with
      | Err _ => Err "error parsing end date"
      | Ok y =>
          if After x y then Err "range is not valid"
          else
            let scope := sub64 (Unix y) (Unix x) in
            let aggregation := firstAggregation scope aggregations in
            if aggregation =? 0 then Err "range is too large"
            else Ok (mkQueryArgs x y (mul64 aggregation Second))
      end
  end.

Definition handlerQuery (r : Request) : M S FS unit :=
  if negb (Method r =? "GET")%string then
    writeResponse 400 statusError "method is not allowed" None
  else
    let key := FormValue r "key" in
    match newQueryArgs (FormValue r "start") (FormValue r "end") with
    | Err err => writeResponse 400 statusError err None
    | Ok args =>
        q <- storeQuery key (start args) (end_ args) (interval args) ;;
        match q with
        | Err err =>
            writeResponse 500 statusError "error executing query" None ;;
            logPrintf ("error executing query: " ++ err)
        | Ok qs =>
            let message :=
              itoa (Count_len qs) ++ " row(s) returned (interval "
                ++ itoa (Z.quot (interval args) Second) ++ "s)" in
            writeResponse 200 statusOK message (Some (Serialize qs maskTime))
        end
    end.
End Server.
End MainGo.

(* ================================================================== *)
(** * src/unnamed/part_002 *)
(* ================================================================== *)

Module Part002.

(** [ceilInt64]; [x + step - r] is evaluated from the left in 64 bits, and
    [%] by zero panics. *)
Definition ceilInt64 (x step : Z) : outcome Z :=
  if step =? 0 then Panics "runtime error: integer divide by zero"
  else
    let r := rem64 x step in
    if negb (r =? 0) then Returns (sub64 (add64 x step) r)
    else Returns x.

Definition newQueryArgs (start end_ : string) : outcome (result queryArgs) :=
  match Atoi start with
  | None => Returns (Err "error parsing start date")
  | Some v =>
      match ceilInt64 v sequenceFrequency with
      | Panics msg => Panics msg
      | Returns c =>
          let x := time_Unix c in
          match Atoi end_ with
          | None => Returns (Err "error parsing end date")
          | Some v =>
              let y := time_Unix v in
              if After x y then Returns (Err "range is not valid")
              else
                let scope := sub64 (Unix y) (Unix x) in
                let aggregation := firstAggregation scope aggregations in
                if aggregation =? 0 then Returns (Err "range is too large")
                else Returns (Ok (mkQueryArgs x y (mul64 aggregation Second)))
          end
      end
  end.

Section Server.
Context {S Q FS : Type} `{Store S Q} `{Files FS}.

(** [^\w+ [012](?: \d+)?$]. *)
Definition validStatement : regexp :=
  Cat (Plus (Class isWord))
    (Cat (Lit " ")
       (Cat (Class is012)
          (Opt (NonCapturing (Cat (Lit " ") (Plus (Class isDigit))))))).

(** [validStatement.Match(line)]. *)
Definition Match (line : string) : bool := Regexp_Match validStatement line.

(** The first loop, from line [i] on: the indices of the lines that
    match go to [mapping[0..n)]. *)
Fixpoint validate (i : Z) (lines : list string) (mapping : list Z) (n : Z)
  : M S FS (list Z * Z) :=
  match lines with
  | [] => ret (mapping, n)
  | line :: rest =>
      if negb (Match line) then
        logPrintf ("error parsing statement " ++ itoa (i + 1)) ;;
        validate (i + 1) rest mapping n
      else
        mapping' <- lift (set_at mapping n i) ;;
        validate (i + 1) rest mapping' (n + 1)
  end.

(** The [switch] on the state digit. *)
Definition stateOf (c : ascii) : M S FS State :=
  if Ascii.eqb c "0" then ret StateInactive
  else if Ascii.eqb c "1" then ret StateActive
  else if Ascii.eqb c "2" then ret StateUnknown
  else logPanic "poor validation panic".

(** The body of the second loop: the statement of one line. *)
Definition decodeLine (defaultValueTimestamp defaultSequenceTimestamp : Time)
    (line : string) : M S FS Statement :=
  let p := IndexByte line " " in
  c <- lift (byteAt line (p + 1)) ;;
  value <- stateOf c ;;
  tv <- (if p + 2 <? len line then
           s <- lift (slice_from line (p + 3)) ;;
           match Atoi s with
           | None => logPanic "poor validation panic"
           | Some x =>
               let valueTimestamp := time_Unix x in
               ret (valueTimestamp,
                    Truncate valueTimestamp (mul64 sequenceFrequency Second))
           end
         else ret (defaultValueTimestamp, defaultSequenceTimestamp)) ;;
  let '(valueTimestamp, sequenceTimestamp) := tv in
  key <- lift (slice_to line p) ;;
  ret (mkStatement key valueTimestamp value StatementAdd true
         sequenceTimestamp sequenceFrequency).

(** The second loop, [count] rounds from [i] on.  The slice
    [statements] is filled from index 0 upwards, which is what appending
    does. *)
Fixpoint decode (defaultValueTimestamp defaultSequenceTimestamp : Time)
    (lines : list string) (mapping : list Z) (count : nat) (i : Z)
    (statements : list Statement) : M S FS (list Statement) :=
  match count with
  | O => ret statements
  | Datatypes.S k =>
      l <- lift (at_ mapping i) ;;
      line <- lift (at_ lines l) ;;
      st <- decodeLine defaultValueTimestamp defaultSequenceTimestamp line ;;
      decode defaultValueTimestamp defaultSequenceTimestamp lines mapping
        k (i + 1) (statements ++ [st])%list
  end.

(** The loop over [result.ErrorVars()], from index [i] on. *)
Fixpoint countErrors (mapping : list Z) (i : Z)
    (errs : list (option error)) (n : Z) : M S FS Z :=
  match errs with
  | [] => ret n
  | None :: rest => countErrors mapping (i + 1) rest n
  | Some err :: rest =>
      l <- lift (at_ mapping i) ;;
      logPrintf ("error executing statement " ++ itoa (l + 1) ++ ": " ++ err) ;;
      countErrors mapping (i + 1) rest (n - 1)
  end.

Definition handlerInsert (now : Time) (r : Request) : M S FS unit :=
  if negb (Method r =? "POST")%string then
    writeResponse 405 statusError "method not allowed" None
  else
    match Body r with
    | Err err =>
        writeResponse 400 statusError "error reading request body" None ;;
        logPrintf ("error reading request body: " ++ err)
    | Ok body =>
        let defaultValueTimestamp := now in
        let defaultSequenceTimestamp :=
          Truncate defaultValueTimestamp (mul64 sequenceFrequency Second) in
        let lines := Split body in
        let mapping := repeat 0 (List.length lines) in
        p <- validate 0 lines mapping 0 ;;
        let '(mapping, n) := p in
        statements <- decode defaultValueTimestamp defaultSequenceTimestamp
                        lines mapping (Z.to_nat n) 0 [] ;;
        result <- storeBatch statements ;;
        n <- (if HasErrors result
              then countErrors mapping 0 (ErrorVars result) n
              else ret n) ;;
        let status :=
          if negb (n =? Z.of_nat (List.length lines)) then statusWarning
          else statusOK in
        writeResponse 200 status
          ("processed " ++ itoa n ++ "/" ++ itoa (Z.of_nat (List.length lines))
             ++ " statement(s)") None
    end.

Definition handlerQuery (r : Request) : M S FS unit :=
  if negb (Method r =? "GET")%string then
    writeResponse 400 statusError "method is not allowed" None
  else
    let key := FormValue r "key" in
    a <- lift (newQueryArgs (FormValue r "start") (FormValue r "end")) ;;
    match a with
    | Err err => writeResponse 400 statusError err None
    | Ok args =>
        ok <- storeGet key ;;
        if negb ok then
          writeResponse 400 statusError "key does not exist" None
        else
          q <- storeQuery key (start args) (end_ args) (interval args) ;;
          match q with
          | Err err =>
              writeResponse 500 statusError "an unexpected error occurred" None ;;
              logPrintf ("error executing query: " ++ err)
          | Ok qs =>
              let message :=
                itoa (Count_len qs) ++ " row(s) returned (interval "
                  ++ itoa (Z.quot (interval args) Second) ++ "s)" in
              writeResponse 200 statusOK message (Some (Serialize qs ""))
          end
    end.
End Server.
End Part002.

(* ================================================================== *)
(** * Stand-ins for the store and the file system *)
(* ================================================================== *)

(** A store for experiments: it holds the keys it has seen, accepts every
    statement of a batch except those whose key is in [refused], and
    serialises unless [sealed].  Queries return the number of buckets of
    the range. *)
Module Fake.

Record store : Type := mkStore {
  keys : list string;
  refused : list string;
  sealed : bool
}.

Definition mem (k : string) (ks : list string) : bool :=
  existsb (String.eqb k) ks.

Definition errorOf (st : store) (s : Statement) : option error :=
  if mem (Key s) (refused st) then Some "refused" else None.

Definition isError (e : option error) : bool :=
  match e with
  | Some _ => true
  | None => false
  end.

Definition batch (st : store) (stmts : list Statement) : BatchResult * store :=
  let errs := map (errorOf st) stmts in
  let accepted :=
    map Key (filter (fun s => negb (mem (Key s) (refused st))) stmts) in
  (mkBatchResult (existsb isError errs) errs,
   mkStore (keys st ++ accepted)%list (refused st) (sealed st)).

#[global] Instance fakeStore : Store store Z := {
  Batch := batch;
  Get st k := mem k (keys st);
  Query st k x y i :=
    if mem k (keys st) then Ok (Z.quot (sec y - sec x) (Z.quot i Second))
    else Err "unknown key";
  Dump st := if sealed st then Err "sealed" else Ok (String.concat "," (keys st));
  Count_len q := q;
  Serialize q mask := "[]"
}.

(** A file system of one directory; writing to a name in [readonly]
    fails. *)
Record disk : Type := mkDisk {
  contents : list (string * string);
  readonly : list string
}.

#[global] Instance fakeFiles : Files disk := {
  WriteFile d name buf :=
    if mem name (readonly d) then (Some "permission denied", d)
    else (None, mkDisk ((name, buf) :: contents d) (readonly d))
}.

Definition empty : world store disk :=
  mkWorld (mkStore [] [] false) (mkDisk [] []).

(** [time.Parse] with the mask of the server, on three instants of the
    day of the README's example: 2023-08-18 00:00:00 UTC is 1692316800
    seconds after the epoch. *)
Definition parseDate (layout value : string) : result Time :=
  if (value =? "2023-08-18 00:00:00")%string then Ok (mkTime 1692316800 0)
  else if (value =? "2023-08-18 00:00:01")%string then Ok (mkTime 1692316801 0)
  else if (value =? "2023-08-18 23:59:59")%string then Ok (mkTime 1692403199 0)
  else Err "parsing time".

End Fake.

(* ================================================================== *)
(** * main: the start, the retention policy, the shutdown *)
(* ================================================================== *)

(** [t.Add(d)], with [time.Time] read as above. *)
Definition time_Add (t : Time) (d : Z) : Time :=
  let abs := sec t * Second + nsec t + d in
  mkTime (abs / Second) (abs mod Second).

(** The operations of [*sequence.Store] that [main] calls beside those of
    the handlers: [sequence.NewStore()], [Load] and [TrimLeft]. *)
Class Lifecycle (S : Type) : Type := {
  NewStore : S;
  Load : S -> string -> option error * S;
  TrimLeft : S -> Time -> S
}.

(** What [main] looks at in the error of [os.Stat]: nil, an error that
    [errors.Is(err, os.ErrNotExist)], or another error. *)
Inductive stat : Type :=
| StatOk
| StatNotExist
| StatOther (err : error).

(** [os.Stat] and [os.ReadFile]. *)
Class ReadFiles (FS : Type) : Type := {
  Stat : FS -> string -> stat;
  ReadFile : FS -> string -> result string
}.

(** How the start of [main] ends: the server goes on with a store, or
    [log.Fatalf] ends the process with [os.Exit(1)]. *)
Inductive startup (S : Type) : Type :=
| Running (s : S)
| Exited (code : Z).
Arguments Running {S} s.
Arguments Exited {S} code.

(** What the goroutine that waits for a signal does to the outside: the
    events of the server, then [httpServer.Shutdown] with the time-out of
    its context, then [close(closed)]. *)
Inductive lifecycle : Type :=
| Did (e : event)
| CalledShutdown (timeout : Z)
| ClosedChannel.

Section Main.
Context {S Q FS : Type} `{Store S Q} `{Files FS} `{Lifecycle S} `{ReadFiles FS}.

(** The store that [main] starts with, and the lines it logs: the code
    between [sequence.NewStore()] and the first goroutine. *)
Definition loadStore (fs : FS) (dumpFile : string) : startup S * list event :=
  let s := NewStore in
  match Stat fs dumpFile with
  | StatNotExist =>
      (Running s, [Logged "file does not exist, starting with empty store"])
  | _ =>
      match ReadFile fs dumpFile with
      | Err err => (Exited 1, [Logged ("error reading file: " ++ err)])
      | Ok f =>
          match Load s f with
          | (Some err, _) => (Exited 1, [Logged ("error loading store: " ++ err)])
          | (None, s') => (Running s', [])
          end
      end
  end.

(** [time.Duration(retentionPolicy) * 86400 * time.Second], from the left
    in 64 bits. *)
Definition retention (retentionPolicy : Z) : Z :=
  mul64 (mul64 retentionPolicy 86400) Second.

(** The argument of [TrimLeft] at a tick of the retention timer:
    [time.Now().Add(-retention).Truncate(15 * time.Second)]. *)
Definition trimCutoff (now : Time) (retentionPolicy : Z) : Time :=
  Truncate (time_Add now (wrap64 (- retention retentionPolicy)))
    (mul64 sequenceFrequency Second).

(** One tick of the retention timer, which runs when
    [retentionPolicy > 0]. *)
Definition trimTick (now : Time) (retentionPolicy : Z) (w : world S FS)
  : world S FS :=
  mkWorld (TrimLeft (store w) (trimCutoff now retentionPolicy)) (files w).

(** The goroutine of [main] that waits for SIGTERM or SIGINT, from the
    signal on. *)
Definition onSignal (dumpFile : string) (w : world S FS)
  : outcome unit * world S FS * list lifecycle :=
  match (logPrintf "graceful shutdown" ;; dump dumpFile) w with
  | (Returns _, w', t) =>
      (Returns tt, w',
       (map Did t ++ [CalledShutdown (mul64 3 Second); ClosedChannel])%list)
  | (Panics msg, w', t) => (Panics msg, w', map Did t)
  end.
End Main.

(* ================================================================== *)
(** * src/cmd/server/assets/static/js/base.js *)
(* ================================================================== *)

Module BaseJs.

(** The class [[a-zA-Z0-9_]]. *)
Definition isKeyByte (c : ascii) : bool :=
  let n := N_of_ascii c in
  ((97 <=? n)%N && (n <=? 122)%N) || ((65 <=? n)%N && (n <=? 90)%N)
  || ((48 <=? n)%N && (n <=? 57)%N) || (n =? 95)%N.

(** [/^[a-zA-Z0-9_]+$/].  The value of the input element is taken as the
    bytes that [fetch] sends for it, its UTF-8 encoding: no byte of a
    character outside ASCII is in the class, so the pattern matches the
    bytes when it matches the characters. *)
Definition validKey : regexp := Plus (Class isKeyByte).

(** What a handler of the page ends with: a message on the page, or a
    request to the server. *)
Inductive action : Type :=
| Refresh (content_request : string)
| Fetch (url method body : string) (content_request : string).

(** [eventHandlerInsert], up to the call of [fetch]; [key] is the value of
    the input element and [target_id] is [e.target.id]. *)
Definition eventHandlerInsert (key target_id : string) : action :=
  if negb (Regexp_Match validKey key) then Refresh "Please enter a valid key..."
  else
    match (if (target_id =? "insert-zero")%string then Some 0
           else if (target_id =? "insert-one")%string then Some 1
           else None) with
    | None => Refresh "something weird happened..."
    | Some x =>
        let body := key ++ " " ++ itoa x in
        let url := "/insert/" in
        Fetch url "POST" body
          ("Key:   " ++ key ++ String LF ("Value: " ++ itoa x ++ String LF
             ("Raw:   POST " ++ url ++ String LF ("Body:  " ++ body))))
    end.

End BaseJs.

(* ================================================================== *)
(** * Stand-ins for the start of the server *)
(* ================================================================== *)

(** The store of [Fake] loads a dump as the one key it holds, refuses the
    dump [corrupt], and trims nothing.  On the disk of [Fake] a name in
    [readonly] without contents cannot be read. *)
Module FakeMain.

#[global] Instance fakeLifecycle : Lifecycle Fake.store := {
  NewStore := Fake.mkStore [] [] false;
  Load st buf :=
    if (buf =? "corrupt")%string then (Some "unexpected end of dump", st)
    else (None, Fake.mkStore [buf] (Fake.refused st) (Fake.sealed st));
  TrimLeft st t := st
}.

Fixpoint lookup (name : string) (contents : list (string * string))
  : option string :=
  match contents with
  | [] => None
  | (n, buf) :: rest => if (n =? name)%string then Some buf else lookup name rest
  end.

#[global] Instance fakeReadFiles : ReadFiles Fake.disk := {
  Stat d name :=
    match lookup name (Fake.contents d) with
    | Some _ => StatOk
    | None =>
        if Fake.mem name (Fake.readonly d) then StatOther "permission denied"
        else StatNotExist
    end;
  ReadFile d name :=
    match lookup name (Fake.contents d) with
    | Some buf => Ok buf
    | None =>
        if Fake.mem name (Fake.readonly d) then Err "permission denied"
        else Err "no such file or directory"
    end
}.

End FakeMain.

(* ================================================================== *)
(** * The words of the statements *)
(* ================================================================== *)

(** The least multiple of [step] that is at least [x]. *)
Definition least_multiple_ge (step x c : Z) : Prop :=
  (step | c) /\ x <= c /\ forall m, (step | m) -> x <= m -> c <= m.

(** Every byte of [s] satisfies [p]. *)
Fixpoint allb (p : ascii -> bool) (s : string) : bool :=
  match s with
  | EmptyString => true
  | String c s' => p c && allb p s'
  end.

(** The grammar of an insert statement, in the words of the pattern: a key
    of one word byte or more, a space, a state digit among 0, 1 and 2,
    and, optionally, a space and a timestamp of one digit or more.  [st]
    and [ts] are the second and third group, [ts] empty when the timestamp
    is absent. *)
Definition statement (line key st ts : string) : Prop :=
  exists c,
    st = String c EmptyString /\ is012 c = true /\
    key <> EmptyString /\ allb isWord key = true /\
    allb isDigit ts = true /\
    line = key ++ String " " (String c
             (if len ts =? 0 then EmptyString else String " " ts)).

(** The number that a run of digits denotes. *)
Definition decimal (s : string) : Z :=
  match digits 0 s with
  | Some n => n
  | None => 0
  end.

(** The line is a statement of the grammar. *)
Definition matched (line : string) : bool :=
  match submatch line with
  | Some _ => true
  | None => false
  end.

(** The timestamp of the line, when the line is a statement and has one,
    fits [int]. *)
Definition fits (line : string) : bool :=
  match submatch line with
  | Some (_, _, ts) =>
      (len ts =? 0) || match Atoi ts with Some _ => true | None => false end
  | None => true
  end.

(** The number of errors that are not nil. *)
Definition failures (errs : list (option error)) : Z :=
  Z.of_nat
    (List.length
       (filter (fun e => match e with Some _ => true | None => false end)
          errs)).

(** What the server relies on from [Store.Batch]: one entry of
    [ErrorVars()] per statement, and [HasErrors()] when one of them is not
    nil. *)
Definition batch_contract {S Q} `{Store S Q} : Prop :=
  forall (st : S) (statements : list Statement),
    List.length (ErrorVars (fst (Batch st statements))) = List.length statements /\
    HasErrors (fst (Batch st statements))
      = negb (failures (ErrorVars (fst (Batch st statements))) =? 0).

(** [v] is the first entry of the aggregation table with
    [scope/v <= maxNumberOfPoints], the division truncating. *)
Definition first_fitting (scope v : Z) : Prop :=
  exists pre post,
    aggregations = (pre ++ v :: post)%list /\
    Forall (fun u => maxNumberOfPoints < Z.quot scope u) pre /\
    Z.quot scope v <= maxNumberOfPoints.

(** No entry of the aggregation table has [scope/v <= maxNumberOfPoints]. *)
Definition none_fitting (scope : Z) : Prop :=
  Forall (fun u => maxNumberOfPoints < Z.quot scope u) aggregations.

(** The state that a state digit stands for. *)
Definition stateValue (st : string) : State :=
  match st with
  | String "0" _ => StateInactive
  | String "1" _ => StateActive
  | _ => StateUnknown
  end.

(** The statement that a line of the grammar stands for at the instant
    [now], when its timestamp, if it has one, fits [int]: the key, the
    timestamp of the line or else [now], the state, and a sequence to
    create at that timestamp rounded down to 15 seconds. *)
Definition statementOf (now : Time) (line : string) : option Statement :=
  match submatch line with
  | None => None
  | Some (key, st, ts) =>
      if len ts =? 0 then
        Some (mkStatement key now (stateValue st) StatementAdd true
                (Truncate now (15 * Second)) 15)
      else
        match Atoi ts with
        | None => None
        | Some x =>
            Some (mkStatement key (time_Unix x) (stateValue st) StatementAdd true
                    (Truncate (time_Unix x) (15 * Second)) 15)
        end
  end.

(** The statements of the lines, in the order of the lines. *)
Definition batchOf (now : Time) (lines : list string) : list Statement :=
  flat_map (fun l => match statementOf now l with
                     | Some s => [s]
                     | None => []
                     end) lines.

(** The indices, counted from [i], of the lines that are statements. *)
Fixpoint matchedIndices (i : Z) (lines : list string) : list Z :=
  match lines with
  | [] => []
  | l :: rest =>
      if matched l then i :: matchedIndices (i + 1) rest
      else matchedIndices (i + 1) rest
  end.

(** One log line for each line that is not a statement, with its number
    counted from 1. *)
Fixpoint parseLogs (i : Z) (lines : list string) : list event :=
  match lines with
  | [] => []
  | l :: rest =>
      if matched l then parseLogs (i + 1) rest
      else Logged ("error parsing statement " ++ itoa (i + 1))
             :: parseLogs (i + 1) rest
  end.

(** One log line for each error of the batch that is not nil, with the
    number of the line of its statement. *)
Fixpoint errorLogs (indices : list Z) (errs : list (option error))
  : list event :=
  match indices, errs with
  | l :: ls, Some err :: es =>
      Logged ("error executing statement " ++ itoa (l + 1) ++ ": " ++ err)
        :: errorLogs ls es
  | _ :: ls, None :: es => errorLogs ls es
  | _, _ => []
  end.

(** What is seen of an insert request whose lines all fit: the lines that
    are no statements are logged, the batch is submitted, its errors are
    logged, and the response counts the statements without error. *)
Definition insertEvents {S Q} `{Store S Q} (now : Time) (body : string) (st : S)
  : list event :=
  let lines := Split body in
  let batch := batchOf now lines in
  let result := fst (Batch st batch) in
  let n := Z.of_nat (List.length lines) in
  let accepted := Z.of_nat (List.length batch) - failures (ErrorVars result) in
  (parseLogs 0 lines
     ++ [CalledBatch batch]
     ++ (if HasErrors result
         then errorLogs (matchedIndices 0 lines) (ErrorVars result) else [])
     ++ [Wrote (mkResponse 200
                  (if accepted =? n then statusOK else statusWarning)
                  ("processed " ++ itoa accepted ++ "/" ++ itoa n
                     ++ " statement(s)") None)])%list.

(** The statements of the lines one after the other, as the second loop of
    [Part002.handlerInsert] decodes them. *)
Fixpoint decodeAll {S Q FS} `{Store S Q} `{Files FS}
    (defaultValueTimestamp defaultSequenceTimestamp : Time)
    (lines : list string) (statements : list Statement)
  : M S FS (list Statement) :=
  match lines with
  | [] => ret statements
  | line :: rest =>
      st <- Part002.decodeLine defaultValueTimestamp defaultSequenceTimestamp
              line ;;
      decodeAll defaultValueTimestamp defaultSequenceTimestamp rest
        (statements ++ [st])%list
  end.

(** A run of a query handler that answers: it returns, leaves the world as
    it found it, and writes one response, which is 200 with data, 400
    without, or 500 without data and with the message [msg500]; a line is
    logged in the last case only, and it carries the error of the store. *)
Definition answers_once {S FS} (msg500 : string) (w : world S FS)
    (run : outcome unit * world S FS * list event) : Prop :=
  returned run = Returns tt /\ after run = w /\
  exists resp,
    responses (events run) = [resp] /\
    ((code resp = 200 /\ status resp = statusOK /\ data resp <> None /\
      logged (events run) = []) \/
     (code resp = 400 /\ status resp = statusError /\ data resp = None /\
      logged (events run) = []) \/
     (code resp = 500 /\ status resp = statusError /\ data resp = None /\
      message resp = msg500 /\
      exists err, logged (events run) = ["error executing query: " ++ err])).

(** The number of line feeds in a body. *)
Fixpoint lineFeeds (body : string) : nat :=
  match body with
  | EmptyString => O
  | String c rest =>
      if Ascii.eqb c LF then Datatypes.S (lineFeeds rest) else lineFeeds rest
  end.

(** The key and the state of each line that is a statement, in the order
    of the lines. *)
Definition keysAndStates (lines : list string) : list (string * State) :=
  flat_map (fun l => match submatch l with
                     | Some (key, st, _) => [(key, stateValue st)]
                     | None => []
                     end) lines.

(** An instant whose seconds since the year 1 fit 64 bits: the instants
    that a [time.Time] holds. *)
Definition in_range (t : Time) : Prop :=
  MinInt64 <= sec t + unixToInternal <= MaxInt64.

(** What every statement of a batch is: it adds a value, and creates the
    sequence when there is none, with one value every 15 seconds, from
    the timestamp of the statement truncated to 15 seconds. *)
Definition creating (s : Statement) : Prop :=
  Type_ s = StatementAdd /\ CreateIfNotExists s = true /\
  CreateWithFrequency s = 15 /\
  CreateWithTimestamp s = Truncate (Timestamp s) (15 * Second).

(** The sequence of the statement is created from a whole multiple of 15
    seconds since the epoch, not after the timestamp of the statement and
    less than 15 seconds before it. *)
Definition on_grain (s : Statement) : Prop :=
  nsec (CreateWithTimestamp s) = 0 /\
  Unix (CreateWithTimestamp s) mod 15 = 0 /\
  Unix (CreateWithTimestamp s) <= Unix (Timestamp s)
    < Unix (CreateWithTimestamp s) + 15.

(* ================================================================== *)
(** * Arithmetic in 64 bits *)
(* ================================================================== *)

Lemma wrap64_small z : int64 z -> wrap64 z = z.
Proof.
  unfold int64, wrap64, MinInt64, MaxInt64. intros Hz.
  rewrite Z.mod_small; lia.
Qed.

Lemma wrap64_int64 z : int64 (wrap64 z).
Proof.
  unfold int64, wrap64, MinInt64, MaxInt64.
  pose proof (Z.mod_pos_bound (z + 2 ^ 63) (2 ^ 64) ltac:(lia)). lia.
Qed.

Lemma wrap64_congr a b : (a - b) mod 2 ^ 64 = 0 -> wrap64 a = wrap64 b.
Proof.
  unfold wrap64. intros Hab. f_equal.
  apply Z.mod_divide in Hab; [|lia]. destruct Hab as [k Hk].
  replace (a + 2 ^ 63) with (b + 2 ^ 63 + k * 2 ^ 64) by lia.
  apply Z.mod_add. lia.
Qed.

Lemma wrap64_eqm z : (wrap64 z - z) mod 2 ^ 64 = 0.
Proof.
  unfold wrap64.
  rewrite (Z.mod_eq (z + 2 ^ 63) (2 ^ 64)) by lia.
  replace (z + 2 ^ 63 - 2 ^ 64 * ((z + 2 ^ 63) / 2 ^ 64) - 2 ^ 63 - z)
    with (- ((z + 2 ^ 63) / 2 ^ 64) * 2 ^ 64) by lia.
  apply Z.mod_mul. lia.
Qed.

Lemma sub64_add64 x s r : sub64 (add64 x s) r = wrap64 (x + s - r).
Proof.
  unfold sub64, add64. apply wrap64_congr.
  replace (wrap64 (x + s) - r - (x + s - r)) with (wrap64 (x + s) - (x + s)) by lia.
  apply wrap64_eqm.
Qed.

Lemma ceilInt64_returns x step :
  step <> 0 ->
  Part002.ceilInt64 x step =
    Returns (if Z.rem x step =? 0 then x else wrap64 (x + step - Z.rem x step)).
Proof.
  intros Hs. unfold Part002.ceilInt64, rem64.
  destruct (Z.eqb_spec step 0) as [|_]; [contradiction|].
  destruct (Z.rem x step =? 0); simpl; [reflexivity|].
  now rewrite sub64_add64.
Qed.

Lemma least_multiple_ge_unique step x c c' :
  least_multiple_ge step x c -> least_multiple_ge step x c' -> c = c'.
Proof.
  intros (D & G & L) (D' & G' & L').
  specialize (L c' D' G'). specialize (L' c D G). lia.
Qed.

Lemma least_multiple_ge_formula step x :
  0 < step ->
  least_multiple_ge step x
    (if x mod step =? 0 then x else x + step - x mod step).
Proof.
  intros Hs. pose proof (Z.mod_pos_bound x step Hs) as Hr.
  pose proof (Z.div_mod x step ltac:(lia)) as Hx.
  destruct (Z.eqb_spec (x mod step) 0) as [E|E].
  - repeat split; [|lia|intros; lia].
    exists (x / step). lia.
  - repeat split; [|lia|].
    + exists (x / step + 1). lia.
    + intros m [k ->] Hm.
      assert (x / step < k) by (apply (Z.mul_lt_mono_pos_r step); lia).
      assert ((x / step + 1) * step <= k * step)
        by (apply Z.mul_le_mono_nonneg_r; lia).
      lia.
Qed.


(* ================================================================== *)
(** * ceilInt64 *)
(* ================================================================== *)

(** C10, as amended.  For a non-negative [x] and a positive [step], when
    the least multiple of [step] that is at least [x] is itself an [int64],
    [ceilInt64 x step] returns it. *)
Theorem ceilInt64_least_multiple (x step m : Z) :
  0 <= x -> 0 < step -> int64 x -> int64 step ->
  least_multiple_ge step x m -> int64 m ->
  Part002.ceilInt64 x step = Returns m.
Proof.
  intros Hx Hs _ _ Hm Hr.
  rewrite ceilInt64_returns by lia.
  rewrite Z.rem_mod_nonneg by lia.
  destruct (least_multiple_ge_formula step x Hs) as (Hd & Hge & Hleast).
  destruct Hm as (Hdm & Hgem & Hleastm).
  destruct (Z.eqb_spec (x mod step) 0) as [E|E].
  - specialize (Hleastm x Hd Hge). f_equal. lia.
  - specialize (Hleastm _ Hd Hge). specialize (Hleast _ Hdm Hgem).
    rewrite wrap64_small; [f_equal; lia|].
    unfold int64 in *. unfold MinInt64 in *. lia.
Qed.

Lemma ceilInt64_least_multiple_witness :
  Part002.ceilInt64 16 15 = Returns 30.
Proof.
  apply ceilInt64_least_multiple; unfold int64, MinInt64, MaxInt64; try lia.
  repeat split; [exists 2; lia | lia | intros m [k ->] Hk; lia].
Defined.

(** C10, as stated, fails where the sum leaves the 64 bits: at the largest
    [int64] and step 15 the result is negative and no multiple of 15. *)
Lemma ceilInt64_wraps_at_MaxInt64 :
  0 <= 9223372036854775807 /\ 0 < 15 /\
  Part002.ceilInt64 9223372036854775807 15 = Returns (-9223372036854775801) /\
  ~ least_multiple_ge 15 9223372036854775807 (-9223372036854775801).
Proof.
  repeat split; try lia; try reflexivity.
  intros (_ & G & _). lia.
Qed.

(** On a negative [x] off the multiples of [step], Go's remainder is
    negative and [ceilInt64] returns the multiple after the least one at
    or above [x]. *)
Lemma ceilInt64_negative (x step m : Z) :
  x < 0 -> 0 < step -> x mod step <> 0 ->
  least_multiple_ge step x m -> int64 (m + step) ->
  Part002.ceilInt64 x step = Returns (m + step).
Proof.
  intros Hx Hs Hr Hm Hi.
  rewrite ceilInt64_returns by lia.
  pose proof (least_multiple_ge_formula step x Hs) as Hf.
  pose proof (least_multiple_ge_unique _ _ _ _ Hm Hf) as E.
  destruct (Z.eqb_spec (x mod step) 0) as [|_]; [contradiction|].
  assert (Hne : Z.rem x step <> 0)
    by (intros E0; apply Hr; apply Z.rem_mod_eq_0; [lia|exact E0]).
  assert (Hrem : Z.rem x step = x mod step - step).
  { pose proof (Z.rem_bound_pos_neg x step Hs ltac:(lia)).
    pose proof (Z.mod_pos_bound x step Hs).
    pose proof (Z.quot_rem x step ltac:(lia)).
    pose proof (Z.div_mod x step ltac:(lia)).
    assert (Hk : x mod step - Z.rem x step = step * (Z.quot x step - x / step))
      by lia.
    set (k := Z.quot x step - x / step) in *.
    assert (Hb : 0 < step * k < step * 2) by lia.
    assert (0 < k) by (apply (Z.mul_lt_mono_pos_l step); lia).
    assert (k < 2) by (apply (Z.mul_lt_mono_pos_l step); lia).
    replace k with 1 in Hk by lia. lia. }
  destruct (Z.eqb_spec (Z.rem x step) 0) as [E0|_].
  - contradiction.
  - f_equal. rewrite Hrem.
    replace (x + step - (x mod step - step)) with (m + step) by lia.
    now apply wrap64_small.
Qed.

Lemma ceilInt64_negative_example :
  least_multiple_ge 15 (-1) 0 /\ Part002.ceilInt64 (-1) 15 = Returns 15.
Proof.
  split; [|reflexivity].
  repeat split; [exists 0; reflexivity|lia|intros m [k ->] Hk; lia].
Qed.

(* ================================================================== *)
(** * The aggregation table *)
(* ================================================================== *)

Lemma quot_bound a b :
  0 < b ->
  (0 <= a -> 0 <= Z.quot a b <= a) /\ (a <= 0 -> a <= Z.quot a b <= 0).
Proof.
  intros Hb. split; intros Ha.
  - rewrite Z.quot_div_nonneg by lia. split; [apply Z.div_pos; lia|].
    apply Z.div_le_upper_bound; nia.
  - replace a with (- (- a)) at 2 3 by lia. rewrite Z.quot_opp_l by lia.
    rewrite Z.quot_div_nonneg by lia.
    assert (0 <= (- a) / b <= - a).
    { split; [apply Z.div_pos; lia|]. apply Z.div_le_upper_bound; nia. }
    lia.
Qed.

Lemma quo64_quot a b : int64 a -> 0 < b -> quo64 a b = Z.quot a b.
Proof.
  intros Ha Hb. unfold quo64. apply wrap64_small.
  destruct (quot_bound a b Hb) as [P N]. unfold int64 in *.
  destruct (Z.le_ge_cases 0 a) as [H0|H0]; [specialize (P H0)|specialize (N H0)];
    unfold MinInt64, MaxInt64 in *; lia.
Qed.

Lemma aggregations_bounds v : In v aggregations -> 15 <= v <= 86400.
Proof.
  unfold aggregations. simpl. intuition lia.
Qed.

Lemma firstAggregation_first scope pre v post :
  int64 scope ->
  Forall (fun u => 0 < u) pre -> 0 < v ->
  Forall (fun u => maxNumberOfPoints < Z.quot scope u) pre ->
  Z.quot scope v <= maxNumberOfPoints ->
  firstAggregation scope (pre ++ v :: post) = v.
Proof.
  intros Hs Hpos Hv Hpre Hfit.
  induction pre as [|u pre IH]; simpl.
  - rewrite quo64_quot by assumption.
    destruct (Z.leb_spec (Z.quot scope v) maxNumberOfPoints); [reflexivity|lia].
  - inversion Hpos; inversion Hpre; subst.
    rewrite quo64_quot by assumption.
    destruct (Z.leb_spec (Z.quot scope u) maxNumberOfPoints); [lia|auto].
Qed.

Lemma firstAggregation_none scope table :
  int64 scope ->
  Forall (fun u => 0 < u) table ->
  Forall (fun u => maxNumberOfPoints < Z.quot scope u) table ->
  firstAggregation scope table = 0.
Proof.
  intros Hs Hpos Hnone.
  induction table as [|u table IH]; simpl; [reflexivity|].
  inversion Hpos; inversion Hnone; subst.
  rewrite quo64_quot by assumption.
  destruct (Z.leb_spec (Z.quot scope u) maxNumberOfPoints); [lia|auto].
Qed.

Lemma aggregations_positive : Forall (fun u => 0 < u) aggregations.
Proof.
  apply Forall_forall. intros v Hv. apply aggregations_bounds in Hv. lia.
Qed.

Lemma first_fitting_selected scope v :
  int64 scope -> first_fitting scope v ->
  firstAggregation scope aggregations = v /\ 15 <= v <= 86400.
Proof.
  intros Hs (pre & post & E & Hpre & Hfit).
  assert (Hin : In v aggregations) by (rewrite E; apply in_elt).
  pose proof (aggregations_bounds v Hin) as Hb.
  pose proof aggregations_positive as Hpos. rewrite E in Hpos |- *.
  apply Forall_app in Hpos as [Hp _].
  split; [|exact Hb].
  apply firstAggregation_first; auto; lia.
Qed.

Lemma mul64_Second v : 15 <= v <= 86400 -> mul64 v Second = v * Second.
Proof.
  intros Hv. unfold mul64, Second. apply wrap64_small.
  unfold int64, MinInt64, MaxInt64. lia.
Qed.

(* ================================================================== *)
(** * newQueryArgs, seconds since the epoch *)
(* ================================================================== *)

Lemma Atoi_int64 s v : Atoi s = Some v -> int64 v.
Proof.
  unfold Atoi.
  destruct (match s with
            | String "-" r => (true, r)
            | String "+" r => (false, r)
            | _ => (false, s)
            end) as [neg body].
  destruct body; [discriminate|].
  destruct (digits 0 (String a body)) as [n|]; [|discriminate].
  destruct (Z.leb_spec MinInt64 (if neg then - n else n)); [|discriminate].
  destruct (Z.leb_spec (if neg then - n else n) MaxInt64); [|discriminate].
  simpl. intros [= <-]. split; assumption.
Qed.

Lemma After_time_Unix a b : After (time_Unix a) (time_Unix b) = (b <? a).
Proof.
  unfold After, time_Unix; simpl.
  rewrite Z.ltb_irrefl, andb_false_r, orb_false_r. reflexivity.
Qed.

(** What [newQueryArgs] does once both numbers are read and the start is
    rounded to [c]. *)
Lemma newQueryArgs_parsed start end_ v w c :
  Atoi start = Some v -> Atoi end_ = Some w ->
  Part002.ceilInt64 v sequenceFrequency = Returns c ->
  Part002.newQueryArgs start end_ =
    Returns
      (if w <? c then Err "range is not valid"
       else
         let aggregation := firstAggregation (sub64 w c) aggregations in
         if aggregation =? 0 then Err "range is too large"
         else Ok (mkQueryArgs (time_Unix c) (time_Unix w)
                    (mul64 aggregation Second))).
Proof.
  intros Hs He Hc. unfold Part002.newQueryArgs.
  rewrite Hs, Hc, He, After_time_Unix.
  destruct (w <? c); [reflexivity|].
  cbv zeta. change (Unix (time_Unix w)) with w. change (Unix (time_Unix c)) with c.
  destruct (firstAggregation (sub64 w c) aggregations =? 0); reflexivity.
Qed.

(** C1, as stated, fails at its own example: a range of 5701 seconds gets
    the interval 15, not 30, because 5701/15 truncates to 380. *)
Lemma newQueryArgs_5701_selects_15 :
  Z.quot (5701 - 0) 15 <= 380 /\
  Part002.newQueryArgs "0" "5701" =
    Returns (Ok (mkQueryArgs (time_Unix 0) (time_Unix 5701) (15 * Second))) /\
  Part002.newQueryArgs "0" "5701" <>
    Returns (Ok (mkQueryArgs (time_Unix 0) (time_Unix 5701) (30 * Second))).
Proof.
  repeat split; [vm_compute; discriminate | discriminate].
Qed.

(* ================================================================== *)
(** * handlerQuery, seconds since the epoch *)
(* ================================================================== *)

Section QueryEpoch.
Context {S Q FS : Type} `{Store S Q} `{Files FS}.


Lemma handlerQuery_accepted (r : Request) (w : world S FS) (args : queryArgs) :
  Method r = "GET" ->
  Part002.newQueryArgs (FormValue r "start") (FormValue r "end")
    = Returns (Ok args) ->
  Part002.handlerQuery r w =
    if Get (store w) (FormValue r "key") then
      match Query (store w) (FormValue r "key")
              (start args) (end_ args) (interval args) with
      | Err err =>
          (Returns tt, w,
           [CalledGet (FormValue r "key");
            CalledQuery (FormValue r "key")
              (start args) (end_ args) (interval args);
            Wrote (mkResponse 500 statusError
                     "an unexpected error occurred" None);
            Logged ("error executing query: " ++ err)])
      | Ok qs =>
          (Returns tt, w,
           [CalledGet (FormValue r "key");
            CalledQuery (FormValue r "key")
              (start args) (end_ args) (interval args);
            Wrote (mkResponse 200 statusOK
                     (itoa (Count_len qs) ++ " row(s) returned (interval "
                        ++ itoa (Z.quot (interval args) Second) ++ "s)")
                     (Some (Serialize qs "")))])
      end
    else
      (Returns tt, w,
       [CalledGet (FormValue r "key");
        Wrote (mkResponse 400 statusError "key does not exist" None)]).
Proof.
  intros Hm Ha. unfold Part002.handlerQuery. rewrite Hm, Ha.
  unfold bind, lift, storeGet, storeQuery, writeResponse, logPrintf, emit.
  simpl.
  destruct (Get (store w) (FormValue r "key")); simpl; [|reflexivity].
  destruct (Query (store w) (FormValue r "key")
              (start args) (end_ args) (interval args)); reflexivity.
Qed.

(** C8, as amended.  When [newQueryArgs] accepts the start and the end
    and the store does not know the key, the handler with the key look-up
    answers 400 "key does not exist", does not call the store's query and
    leaves the world as it was. *)
Theorem handlerQuery_key_does_not_exist
    (r : Request) (w : world S FS) (args : queryArgs) :
  Method r = "GET" ->
  Part002.newQueryArgs (FormValue r "start") (FormValue r "end")
    = Returns (Ok args) ->
  Get (store w) (FormValue r "key") = false ->
  returned (Part002.handlerQuery r w) = Returns tt /\
  responses (events (Part002.handlerQuery r w))
    = [mkResponse 400 statusError "key does not exist" None] /\
  existsb isQuery (events (Part002.handlerQuery r w)) = false /\
  after (Part002.handlerQuery r w) = w.
Proof.
  intros Hm Ha Hk.
  rewrite (handlerQuery_accepted r w _ Hm Ha), Hk.
  repeat split.
Qed.

End QueryEpoch.


Lemma handlerQuery_key_does_not_exist_witness :
  returned (Part002.handlerQuery (getRequest "missing" "0" "100") Fake.empty)
    = Returns tt /\
  responses (events (Part002.handlerQuery (getRequest "missing" "0" "100") Fake.empty))
    = [mkResponse 400 statusError "key does not exist" None] /\
  existsb isQuery
    (events (Part002.handlerQuery (getRequest "missing" "0" "100") Fake.empty))
    = false /\
  after (Part002.handlerQuery (getRequest "missing" "0" "100") Fake.empty)
    = Fake.empty.
Proof.
  apply (handlerQuery_key_does_not_exist
           (getRequest "missing" "0" "100") Fake.empty
           (mkQueryArgs (time_Unix 0) (time_Unix 100) (15 * Second))).
  - reflexivity.
  - reflexivity.
  - reflexivity.
Defined.

(** C8, as stated, fails twice.  With the key look-up in place, a range
    that is valid (0 <= 1000000000) and too large is answered "range is
    too large", whether the key exists or not.  And the handler of
    [src/cmd/server/main.go] has no key look-up: it queries the store for
    a key that the store does not know and answers 500. *)
Lemma missing_key_other_answers :
  (Get (store Fake.empty) "missing" = false /\
   After (time_Unix 0) (time_Unix 1000000000) = false /\
   responses (events (Part002.handlerQuery
                        (getRequest "missing" "0" "1000000000") Fake.empty))
     = [mkResponse 400 statusError "range is too large" None]) /\
  (existsb isQuery
     (events (MainGo.handlerQuery Fake.parseDate
                (getRequest "missing" "2023-08-18 00:00:00" "2023-08-18 23:59:59")
                Fake.empty)) = true /\
   responses
     (events (MainGo.handlerQuery Fake.parseDate
                (getRequest "missing" "2023-08-18 00:00:00" "2023-08-18 23:59:59")
                Fake.empty))
     = [mkResponse 500 statusError "error executing query" None]).
Proof.
  repeat split.
Qed.



(* ================================================================== *)
(** * The query of src/cmd/server/main.go, dates in the mask *)
(* ================================================================== *)

Section QueryDates.
Context {S Q FS : Type} `{Store S Q} `{Files FS}.
Variable time_Parse : string -> string -> result Time.

(** With both dates parsed, [newQueryArgs] compares them as they are:
    the start is not rounded, "range is not valid" is the answer exactly
    when the start is after the end, and the interval is chosen by the
    same loop as in the other revision. *)
Lemma dates_newQueryArgs_parsed start end_ x y :
  time_Parse maskTime start = Ok x ->
  time_Parse maskTime end_ = Ok y ->
  MainGo.newQueryArgs time_Parse start end_ =
    if After x y then Err "range is not valid"
    else if firstAggregation (sub64 (Unix y) (Unix x)) aggregations =? 0
         then Err "range is too large"
         else Ok (mkQueryArgs x y
                    (mul64 (firstAggregation (sub64 (Unix y) (Unix x))
                              aggregations) Second)).
Proof.
  intros Hx Hy. unfold MainGo.newQueryArgs. rewrite Hx, Hy. reflexivity.
Qed.

Lemma dates_newQueryArgs_first_fitting start end_ x y :
  time_Parse maskTime start = Ok x ->
  time_Parse maskTime end_ = Ok y ->
  After x y = false ->
  (forall i, first_fitting (sub64 (Unix y) (Unix x)) i ->
     MainGo.newQueryArgs time_Parse start end_
       = Ok (mkQueryArgs x y (i * Second))) /\
  (none_fitting (sub64 (Unix y) (Unix x)) ->
     MainGo.newQueryArgs time_Parse start end_ = Err "range is too large").
Proof.
  intros Hx Hy Ha. rewrite (dates_newQueryArgs_parsed _ _ _ _ Hx Hy), Ha.
  assert (Hsc : int64 (sub64 (Unix y) (Unix x))) by apply wrap64_int64.
  split.
  - intros i Hi. destruct (first_fitting_selected _ _ Hsc Hi) as [-> Hb].
    destruct (Z.eqb_spec i 0); [lia|]. now rewrite mul64_Second.
  - intros Hnone.
    rewrite firstAggregation_none;
      [reflexivity | assumption | apply aggregations_positive | exact Hnone].
Qed.


(** This handler does not look the key up: once [newQueryArgs] accepts the
    range, the store is queried, whatever the key. *)
Lemma dates_handlerQuery_queries (r : Request) (w : world S FS) args :
  Method r = "GET" ->
  MainGo.newQueryArgs time_Parse (FormValue r "start") (FormValue r "end")
    = Ok args ->
  exists rest,
    events (MainGo.handlerQuery time_Parse r w)
      = CalledQuery (FormValue r "key") (start args) (end_ args) (interval args)
          :: rest.
Proof.
  intros Hm Ha. unfold MainGo.handlerQuery. rewrite Hm, Ha.
  unfold bind, storeQuery, writeResponse, logPrintf, emit. simpl.
  destruct (Query _ _ _ _ _); eexists; reflexivity.
Qed.
End QueryDates.

(* ================================================================== *)
(** * The interval and the validity of a range, in both revisions *)
(* ================================================================== *)

Lemma first_fitting_15 scope : 0 <= scope <= 5714 -> first_fitting scope 15.
Proof.
  intros Hs. exists [], (tl aggregations). repeat split; [constructor|].
  unfold maxNumberOfPoints.
  enough (Z.quot scope 15 < 381) by lia.
  apply Z.quot_lt_upper_bound; lia.
Qed.

Lemma first_fitting_30 scope : 5715 <= scope <= 11429 -> first_fitting scope 30.
Proof.
  intros Hs. exists [15], (tl (tl aggregations)). repeat split.
  - constructor; [|constructor]. unfold maxNumberOfPoints.
    enough (381 <= Z.quot scope 15) by lia.
    apply Z.quot_le_lower_bound; lia.
  - unfold maxNumberOfPoints.
    enough (Z.quot scope 30 < 381) by lia.
    apply Z.quot_lt_upper_bound; lia.
Qed.

Lemma not_After_le x y : After x y = false -> Unix x <= Unix y.
Proof.
  unfold After, Unix. intros Ea. apply orb_false_iff in Ea.
  destruct Ea as [Ea _]. apply Z.ltb_ge in Ea. assumption.
Qed.

(** C1, as amended.  For a range whose start and end are instants that a
    [time.Time] holds and whose start is not after its end, the start
    being the one that [ceilInt64] rounded in [src/unnamed/part_002] and
    the date as parsed in [src/cmd/server/main.go], [newQueryArgs] returns
    the first interval [v] of the table with [scope/v <= 380], where
    [scope] is the end less the start in 64 bits and the division
    truncates, and fails with "range is too large" when no entry fits.  So
    ranges of up to 5714 seconds (5700 and 5701 among them) get the
    interval 15, and ranges of 5715 to 11429 seconds get 30. *)
Theorem newQueryArgs_first_fitting :
  (forall (start end_ : string) (v w c : Z),
     Atoi start = Some v -> Atoi end_ = Some w ->
     Part002.ceilInt64 v sequenceFrequency = Returns c ->
     in_range (time_Unix c) -> in_range (time_Unix w) ->
     c <= w ->
     (forall i, first_fitting (sub64 w c) i ->
        Part002.newQueryArgs start end_ =
          Returns (Ok (mkQueryArgs (time_Unix c) (time_Unix w) (i * Second)))) /\
     (none_fitting (sub64 w c) ->
        Part002.newQueryArgs start end_ = Returns (Err "range is too large")) /\
     (w - c <= 5714 ->
        Part002.newQueryArgs start end_ =
          Returns (Ok (mkQueryArgs (time_Unix c) (time_Unix w) (15 * Second)))) /\
     (5715 <= w - c <= 11429 ->
        Part002.newQueryArgs start end_ =
          Returns (Ok (mkQueryArgs (time_Unix c) (time_Unix w) (30 * Second))))) /\
  (forall (time_Parse : string -> string -> result Time)
          (start end_ : string) (x y : Time),
     time_Parse maskTime start = Ok x -> time_Parse maskTime end_ = Ok y ->
     in_range x -> in_range y ->
     After x y = false ->
     (forall i, first_fitting (sub64 (Unix y) (Unix x)) i ->
        MainGo.newQueryArgs time_Parse start end_
          = Ok (mkQueryArgs x y (i * Second))) /\
     (none_fitting (sub64 (Unix y) (Unix x)) ->
        MainGo.newQueryArgs time_Parse start end_ = Err "range is too large") /\
     (Unix y - Unix x <= 5714 ->
        MainGo.newQueryArgs time_Parse start end_
          = Ok (mkQueryArgs x y (15 * Second))) /\
     (5715 <= Unix y - Unix x <= 11429 ->
        MainGo.newQueryArgs time_Parse start end_
          = Ok (mkQueryArgs x y (30 * Second)))).
Proof.
  split.
  - intros start end_ v w c Hs He Hc _ _ Hle.
    rewrite (newQueryArgs_parsed _ _ _ _ _ Hs He Hc).
    destruct (Z.ltb_spec w c) as [|_]; [lia|].
    assert (Hsc : int64 (sub64 w c)) by apply wrap64_int64.
    assert (Hfirst : forall i, first_fitting (sub64 w c) i ->
       Returns
         (let aggregation := firstAggregation (sub64 w c) aggregations in
          if aggregation =? 0 then Err "range is too large"
          else Ok (mkQueryArgs (time_Unix c) (time_Unix w)
                     (mul64 aggregation Second))) =
       Returns (Ok (mkQueryArgs (time_Unix c) (time_Unix w) (i * Second)))).
    { intros i Hi. destruct (first_fitting_selected _ _ Hsc Hi) as [-> Hb].
      cbv zeta. destruct (Z.eqb_spec i 0); [lia|].
      now rewrite mul64_Second. }
    assert (Hsmall : w - c <= 11429 -> sub64 w c = w - c).
    { intros. apply wrap64_small. unfold int64, MinInt64, MaxInt64. lia. }
    repeat split.
    + exact Hfirst.
    + intros Hnone. cbv zeta.
      rewrite firstAggregation_none;
        [reflexivity | assumption | apply aggregations_positive | exact Hnone].
    + intros Hr. apply Hfirst. rewrite Hsmall by lia.
      apply first_fitting_15. lia.
    + intros Hr. apply Hfirst. rewrite Hsmall by lia.
      apply first_fitting_30. lia.
  - intros time_Parse start end_ x y Hx Hy _ _ Ha.
    destruct (dates_newQueryArgs_first_fitting time_Parse start end_ x y Hx Hy Ha)
      as [Hfirst Hnone].
    pose proof (not_After_le x y Ha) as Hle.
    assert (Hsmall : Unix y - Unix x <= 11429
                     -> sub64 (Unix y) (Unix x) = Unix y - Unix x).
    { intros. apply wrap64_small. unfold int64, MinInt64, MaxInt64. lia. }
    repeat split.
    + exact Hfirst.
    + exact Hnone.
    + intros Hr. apply Hfirst. rewrite Hsmall by lia.
      apply first_fitting_15. lia.
    + intros Hr. apply Hfirst. rewrite Hsmall by lia.
      apply first_fitting_30. lia.
Qed.

Lemma newQueryArgs_first_fitting_witness :
  Part002.newQueryArgs "0" "5715" =
    Returns (Ok (mkQueryArgs (time_Unix 0) (time_Unix 5715) (30 * Second))) /\
  MainGo.newQueryArgs Fake.parseDate "2023-08-18 00:00:00" "2023-08-18 00:00:01"
    = Ok (mkQueryArgs (mkTime 1692316800 0) (mkTime 1692316801 0) (15 * Second)).
Proof.
  split.
  - apply (proj2 (proj2 (proj2
      (proj1 newQueryArgs_first_fitting "0" "5715" 0 5715 0
         eq_refl eq_refl eq_refl
         ltac:(unfold in_range, MinInt64, MaxInt64, unixToInternal;
               cbn [sec time_Unix]; lia)
         ltac:(unfold in_range, MinInt64, MaxInt64, unixToInternal;
               cbn [sec time_Unix]; lia)
         ltac:(lia))))).
    lia.
  - apply (proj1 (proj2 (proj2
      (proj2 newQueryArgs_first_fitting Fake.parseDate
         "2023-08-18 00:00:00" "2023-08-18 00:00:01"
         (mkTime 1692316800 0) (mkTime 1692316801 0)
         eq_refl eq_refl
         ltac:(unfold in_range, MinInt64, MaxInt64, unixToInternal;
               cbn [sec]; lia)
         ltac:(unfold in_range, MinInt64, MaxInt64, unixToInternal;
               cbn [sec]; lia)
         eq_refl)))).
    unfold Unix. cbn [sec]. lia.
Defined.

Section RangeNotValid.
Context {S Q FS : Type} `{Store S Q} `{Files FS}.

End RangeNotValid.


(* ================================================================== *)
(** * dump *)
(* ================================================================== *)

Section Dump.
Context {S Q FS : Type} `{Store S Q} `{Files FS}.

Lemma dump_cases (f : string) (w : world S FS) :
  dump f w =
    match Dump (store w) with
    | Err err =>
        (Returns tt, w, [CalledDump; Logged ("error dumping store: " ++ err)])
    | Ok buf =>
        let '(e, fs') := WriteFile (files w) f buf in
        (Returns tt, mkWorld (store w) fs',
         [CalledDump; CalledWriteFile f buf;
          Logged (match e with
                  | Some err => "error writing file: " ++ err
                  | None =>
                      "writing store to file (" ++ itoa (len buf) ++ " bytes)"
                  end)])
    end.
Proof.
  unfold dump, bind, storeDump, osWriteFile, logPrintf, emit.
  destruct (Dump (store w)) as [buf|err]; simpl; [|reflexivity].
  destruct (WriteFile (files w) f buf) as [[err|] fs']; reflexivity.
Qed.

(** C9.  When the store fails to serialise, [dump] writes no file and
    leaves the world as it was; when the write fails, [dump] logs the
    failure; in both cases it returns.  A file is written only with the
    bytes that the store has just serialised, to the path given, after the
    call to [Dump]. *)
Theorem dump_writes_after_serialization (f : string) (w : world S FS) :
  (forall err, Dump (store w) = Err err ->
     returned (dump f w) = Returns tt /\
     existsb isWriteFile (events (dump f w)) = false /\
     after (dump f w) = w /\
     logged (events (dump f w)) = ["error dumping store: " ++ err]) /\
  (forall buf err fs',
     Dump (store w) = Ok buf -> WriteFile (files w) f buf = (Some err, fs') ->
     returned (dump f w) = Returns tt /\
     logged (events (dump f w)) = ["error writing file: " ++ err]) /\
  (forall name buf,
     In (CalledWriteFile name buf) (events (dump f w)) ->
     name = f /\ Dump (store w) = Ok buf /\
     exists log, events (dump f w) = [CalledDump; CalledWriteFile f buf; log]) /\
  returned (dump f w) = Returns tt.
Proof.
  rewrite dump_cases. split; [|split; [|split]].
  - intros err Hd. rewrite Hd. repeat split.
  - intros buf err fs' Hd Hw. rewrite Hd, Hw. repeat split.
  - intros name buf Hin.
    destruct (Dump (store w)) as [b|e].
    + destruct (WriteFile (files w) f b) as [e fs'].
      destruct Hin as [Hin|[Hin|[Hin|[]]]]; try discriminate.
      injection Hin as <- <-. repeat split. eexists. reflexivity.
    + destruct Hin as [Hin|[Hin|[]]]; discriminate.
  - destruct (Dump (store w)) as [b|e]; [|reflexivity].
    destruct (WriteFile (files w) f b). reflexivity.
Qed.
End Dump.

Lemma dump_writes_after_serialization_witness :
  returned (dump "store.dump"
              (mkWorld (Fake.mkStore ["k1"] [] true) (Fake.mkDisk [] []))) = Returns tt /\
  existsb isWriteFile
    (events (dump "store.dump"
               (mkWorld (Fake.mkStore ["k1"] [] true) (Fake.mkDisk [] [])))) = false /\
  after (dump "store.dump"
           (mkWorld (Fake.mkStore ["k1"] [] true) (Fake.mkDisk [] [])))
    = mkWorld (Fake.mkStore ["k1"] [] true) (Fake.mkDisk [] []) /\
  logged (events (dump "store.dump"
                    (mkWorld (Fake.mkStore ["k1"] [] true) (Fake.mkDisk [] []))))
    = ["error dumping store: sealed"].
Proof.
  apply (proj1 (dump_writes_after_serialization "store.dump"
                  (mkWorld (Fake.mkStore ["k1"] [] true) (Fake.mkDisk [] [])))
               "sealed").
  reflexivity.
Defined.

(* ================================================================== *)
(** * The grammar of a statement *)
(* ================================================================== *)

Lemma append_empty_r s : s ++ EmptyString = s.
Proof.
  induction s as [|c s IH]; simpl; [reflexivity|now rewrite IH].
Qed.

Lemma span_app p s a b :
  span p s = (a, b) ->
  s = a ++ b /\ allb p a = true /\
  match b with EmptyString => True | String c _ => p c = false end.
Proof.
  revert a b. induction s as [|c s IH]; simpl; intros a b.
  - intros [= <- <-]. repeat split.
  - destruct (p c) eqn:Hc.
    + destruct (span p s) as [a' b']. intros [= <- <-].
      destruct (IH a' b' eq_refl) as (-> & Ha & Hb).
      simpl. rewrite Hc. repeat split; assumption.
    + intros [= <- <-]. simpl. repeat split. exact Hc.
Qed.

Lemma span_all p a b :
  allb p a = true ->
  match b with EmptyString => True | String c _ => p c = false end ->
  span p (a ++ b) = (a, b).
Proof.
  intros Ha Hb. induction a as [|c a IH]; simpl in *.
  - destruct b as [|c b]; [reflexivity|]. simpl. now rewrite Hb.
  - apply andb_prop in Ha as [Hc Ha]. rewrite Hc, (IH Ha). reflexivity.
Qed.

(** The lines that [submatch] accepts are those of the grammar, and the
    groups are the parts of the line. *)
Lemma submatch_statement line key st ts :
  submatch line = Some (key, st, ts) <-> statement line key st ts.
Proof.
  unfold submatch, statement. split.
  - destruct (span isWord line) as [k r1] eqn:Hk.
    apply span_app in Hk as (-> & Hw & _).
    destruct k as [|k0 k]; [discriminate|].
    destruct r1 as [|sp r1]; [discriminate|].
    destruct (Ascii.eqb_spec sp " ") as [->|Hsp];
      [|destruct sp as [[] [] [] [] [] [] [] []]; try discriminate;
        contradiction Hsp; reflexivity].
    destruct r1 as [|c r2]; [discriminate|].
    destruct (is012 c) eqn:Hc; [|discriminate].
    destruct r2 as [|sp2 r3].
    + intros [= <- <- <-]. exists c. repeat split; auto; try discriminate.
    + destruct (Ascii.eqb_spec sp2 " ") as [->|Hsp];
        [|destruct sp2 as [[] [] [] [] [] [] [] []]; try discriminate;
          contradiction Hsp; reflexivity].
      destruct (span isDigit r3) as [d r4] eqn:Hd.
      apply span_app in Hd as (-> & Hdg & _).
      destruct d as [|d0 d]; [discriminate|].
      destruct r4; [|discriminate].
      intros [= <- <- <-]. exists c. repeat split; auto; try discriminate.
      rewrite append_empty_r. reflexivity.
  - intros (c & -> & Hc & Hne & Hw & Hts & ->).
    assert (Hsp : isWord " " = false) by reflexivity.
    rewrite (span_all isWord key (String " " (String c
               (if len ts =? 0 then EmptyString else String " " ts))) Hw Hsp).
    destruct key as [|k0 key]; [contradiction|].
    rewrite Hc.
    destruct ts as [|d ts]; [reflexivity|].
    change (len (String d ts) =? 0) with (Z.of_nat (Datatypes.S (String.length ts)) =? 0).
    destruct (Z.eqb_spec (Z.of_nat (Datatypes.S (String.length ts))) 0) as [E|_]; [lia|].
    rewrite <- (append_empty_r (String d ts)) at 1.
    rewrite (span_all isDigit (String d ts) EmptyString Hts I).
    reflexivity.
Qed.

(* ================================================================== *)
(** * Matching by derivatives *)
(* ================================================================== *)

Lemma append_nil_inv (a b : string) :
  a ++ b = EmptyString -> a = EmptyString /\ b = EmptyString.
Proof.
  destruct a; simpl; [auto|discriminate].
Qed.

Lemma nullable_lang r : nullable r = true <-> lang r EmptyString.
Proof.
  split.
  - induction r; simpl; intros Hn; try discriminate.
    + constructor.
    + apply andb_prop in Hn as [H1 H2].
      change EmptyString with (EmptyString ++ EmptyString).
      constructor; auto.
    + apply orb_prop in Hn as [H1|H2];
        [apply lang_Alt_l|apply lang_Alt_r]; auto.
    + constructor.
  - remember EmptyString as s eqn:Es. intros Hl.
    induction Hl; simpl; try discriminate; auto.
    + apply append_nil_inv in Es as [-> ->].
      rewrite IHHl1, IHHl2; auto.
    + rewrite IHHl; auto.
    + rewrite IHHl, orb_true_r; auto.
Qed.

(** A non-empty word of [r*] starts with a non-empty word of [r]. *)
Lemma lang_Star_cons r c s :
  lang (Star r) (String c s) ->
  exists s1 s2, s = s1 ++ s2 /\ lang r (String c s1) /\ lang (Star r) s2.
Proof.
  remember (Star r) as r' eqn:Er. remember (String c s) as s' eqn:Es.
  intros Hl. revert c s Es.
  induction Hl as [| | | | | |r0 s1 s2 Hl1 _ Hl2 IH2];
    intros a t Es; try discriminate.
  injection Er as ->.
  destruct s1 as [|c1 s1].
  - simpl in Es. apply IH2; auto.
  - simpl in Es. injection Es as -> <-.
    exists s1, s2. auto.
Qed.

Lemma derive_lang c r s : lang (derive c r) s <-> lang r (String c s).
Proof.
  revert s. induction r as [| |p|r1 IH1 r2 IH2|r1 IH1 r2 IH2|r IH];
    intros s; simpl.
  - split; intros Hl; inversion Hl.
  - split; intros Hl; inversion Hl.
  - destruct (p c) eqn:Hp; split; intros Hl; inversion Hl; subst.
    + constructor. exact Hp.
    + constructor.
    + congruence.
  - assert (Hcat : lang (Cat (derive c r1) r2) s ->
                   lang (Cat r1 r2) (String c s)).
    { intros Hl. inversion Hl; subst.
      change (String c (s1 ++ s2)) with (String c s1 ++ s2).
      constructor; [apply IH1|]; assumption. }
    assert (Hinv : lang (Cat r1 r2) (String c s) ->
                   lang (Cat (derive c r1) r2) s
                   \/ (nullable r1 = true /\ lang (derive c r2) s)).
    { intros Hl. inversion Hl as [| |? ? s1 s2 H1 H2| | | |]; subst.
      match goal with E : _ ++ _ = String _ _ |- _ => rename E into Happ end.
      destruct s1 as [|c1 s1]; simpl in Happ.
      - right. split; [now apply nullable_lang|]. apply IH2. now subst.
      - injection Happ as -> <-. left. constructor; [apply IH1|]; assumption. }
    destruct (nullable r1) eqn:Hn; split; intros Hl.
    + inversion Hl; subst; [now apply Hcat|].
      change (String c s) with (EmptyString ++ String c s).
      constructor; [now apply nullable_lang|now apply IH2].
    + destruct (Hinv Hl) as [H1|[_ H2]];
        [now apply lang_Alt_l|now apply lang_Alt_r].
    + now apply Hcat.
    + destruct (Hinv Hl) as [H1|[H1 _]]; [assumption|discriminate].
  - split; intros Hl; inversion Hl; subst;
      solve [apply lang_Alt_l; apply IH1; assumption
            |apply lang_Alt_r; apply IH2; assumption].
  - split; intros Hl.
    + inversion Hl; subst.
      change (String c (s1 ++ s2)) with (String c s1 ++ s2).
      constructor; [apply IH|]; assumption.
    + apply lang_Star_cons in Hl as (s1 & s2 & -> & H1 & H2).
      constructor; [apply IH|]; assumption.
Qed.

(** Matching by derivatives decides the language. *)
Lemma Regexp_Match_lang r s : Regexp_Match r s = true <-> lang r s.
Proof.
  revert r. induction s as [|c s IH]; intros r; simpl.
  - apply nullable_lang.
  - rewrite IH. apply derive_lang.
Qed.

Lemma lang_Star_Class p s : lang (Star (Class p)) s <-> allb p s = true.
Proof.
  split.
  - remember (Star (Class p)) as r eqn:Er. intros Hl.
    induction Hl; try discriminate; [reflexivity|].
    injection Er as ->. inversion Hl1; subst. simpl.
    rewrite H0. auto.
  - induction s as [|c s IH]; simpl; intros Ha; [constructor|].
    apply andb_prop in Ha as [Hc Ha].
    change (String c s) with (String c EmptyString ++ s).
    constructor; [now constructor|auto].
Qed.

Lemma lang_Plus_Class p s :
  lang (Plus (Class p)) s <-> s <> EmptyString /\ allb p s = true.
Proof.
  unfold Plus. split.
  - intros Hl. inversion Hl as [| |? ? s1 s2 H1 H2| | | |]; subst.
    inversion H1; subst. apply lang_Star_Class in H2. simpl.
    split; [discriminate|]. rewrite H0. exact H2.
  - intros [Hne Ha]. destruct s as [|c s]; [contradiction|].
    simpl in Ha. apply andb_prop in Ha as [Hc Ha].
    change (String c s) with (String c EmptyString ++ s).
    constructor; [now constructor|now apply lang_Star_Class].
Qed.

Lemma lang_Lit c s : lang (Lit c) s <-> s = String c EmptyString.
Proof.
  unfold Lit. split.
  - intros Hl. inversion Hl; subst.
    apply Ascii.eqb_eq in H0. now subst.
  - intros ->. constructor. apply Ascii.eqb_refl.
Qed.

(** The language of the pattern is the grammar of a statement. *)
Lemma lang_validStatement line :
  lang MainGo.validStatement line <-> exists key st ts, statement line key st ts.
Proof.
  unfold MainGo.validStatement, Group, NonCapturing, Opt, statement. split.
  - intros Hl.
    inversion Hl as [| |? ? key r1 Hkey Hr1| | | |]; subst.
    inversion Hr1 as [| |? ? sp r2 Hsp Hr2| | | |]; subst.
    inversion Hr2 as [| |? ? st r3 Hst Hr3| | | |]; subst.
    apply lang_Plus_Class in Hkey as [Hne Hw].
    apply lang_Lit in Hsp as ->.
    inversion Hst as [|p c Hc| | | | |]; subst.
    inversion Hr3 as [| | |? ? ? Hts|? ? ? Hnone| |]; subst.
    + inversion Hts as [| |? ? sp2 ts Hsp2 Hdig| | | |]; subst.
      apply lang_Lit in Hsp2 as ->.
      apply lang_Plus_Class in Hdig as [Hne2 Hd].
      exists key, (String c EmptyString), ts, c.
      repeat split; auto.
      destruct ts as [|d ts]; [contradiction|]. reflexivity.
    + inversion Hnone; subst.
      exists key, (String c EmptyString), EmptyString, c.
      repeat split; auto.
  - intros (key & st & ts & c & -> & Hc & Hne & Hw & Hd & ->).
    constructor; [apply lang_Plus_Class; auto|].
    change (String " " (String c (if len ts =? 0 then EmptyString
                                  else String " " ts)))
      with (String " " EmptyString ++
            (String c EmptyString ++
             (if len ts =? 0 then EmptyString else String " " ts))).
    constructor; [now apply lang_Lit|].
    constructor; [now constructor|].
    destruct ts as [|d ts].
    + apply lang_Alt_r. constructor.
    + apply lang_Alt_l.
      change (if len (String d ts) =? 0 then EmptyString
              else String " " (String d ts))
        with (String " " EmptyString ++ String d ts).
      constructor; [now apply lang_Lit|].
      apply lang_Plus_Class. split; [discriminate|assumption].
Qed.

(** [Match] says whether [FindSubmatch] finds a match, in both
    revisions: the two patterns differ in their groups only. *)
Lemma Match_matched line : Part002.Match line = matched line.
Proof.
  unfold Part002.Match.
  change Part002.validStatement with MainGo.validStatement.
  unfold matched.
  destruct (submatch line) as [[[key st] ts]|] eqn:Hm.
  - apply Regexp_Match_lang, lang_validStatement.
    exists key, st, ts. now apply submatch_statement.
  - destruct (Regexp_Match MainGo.validStatement line) eqn:Hr; [|reflexivity].
    apply Regexp_Match_lang, lang_validStatement in Hr
      as (key & st & ts & Hst).
    apply submatch_statement in Hst. congruence.
Qed.

(** [FindSubmatch] finds a match on the lines that the pattern matches and
    on no other, and its groups are the only ones that the grammar
    allows for the line. *)
Lemma FindSubmatch_validStatement line :
  (exists groups, MainGo.FindSubmatch line = Some groups)
  <-> Regexp_Match MainGo.validStatement line = true.
Proof.
  unfold MainGo.FindSubmatch. rewrite Regexp_Match_lang, lang_validStatement.
  split.
  - intros [[[key st] ts] Hm]. exists key, st, ts. now apply submatch_statement.
  - intros (key & st & ts & Hst). exists (key, st, ts).
    now apply submatch_statement.
Qed.

Lemma statement_groups line key st ts key' st' ts' :
  statement line key st ts -> statement line key' st' ts' ->
  key = key' /\ st = st' /\ ts = ts'.
Proof.
  intros H1 H2. apply submatch_statement in H1, H2.
  rewrite H1 in H2. injection H2 as -> -> ->. auto.
Qed.

(* ================================================================== *)
(** * Timestamps of a statement *)
(* ================================================================== *)

Lemma grain : mul64 sequenceFrequency Second = 15 * Second.
Proof. reflexivity. Qed.

(** Truncating a whole second to the grain gives the multiple of 15 at or
    below it: the zero time is itself a multiple of 15 seconds away from
    the epoch. *)
Lemma Truncate_time_Unix x :
  Truncate (time_Unix x) (15 * Second) = time_Unix (15 * (x / 15)).
Proof.
  unfold Truncate, time_Unix, Second, unixToInternal. cbn [sec nsec].
  change (15 * 1000000000 <=? 0) with false. cbv iota zeta.
  rewrite Z.add_0_r.
  rewrite Zmult_mod_distr_r.
  replace ((x + 62135596800) mod 15) with (x mod 15).
  2:{ replace (x + 62135596800) with (x + 4142373120 * 15) by lia.
      now rewrite Z.mod_add by lia. }
  replace ((x + 62135596800) * 1000000000 - x mod 15 * 1000000000)
    with ((x + 62135596800 - x mod 15) * 1000000000) by lia.
  rewrite Z.div_mul, Z.mod_mul by lia.
  f_equal. pose proof (Z.div_mod x 15 ltac:(lia)). lia.
Qed.

(** C4, as stated, fails: the statement of the line [k1 1 1692316801]
    keeps 1692316801 as its value timestamp, which is one second off the
    grain; only its sequence timestamp, 1692316800, is on it. *)
Lemma explicit_timestamp_off_grain :
  events (MainGo.handlerInsert (mkTime 1700000007 5)
            (postRequest "k1 1 1692316801") Fake.empty)
    = [CalledBatch
         [mkStatement "k1" (time_Unix 1692316801) StateActive StatementAdd true
            (time_Unix 1692316800) sequenceFrequency];
       Wrote (mkResponse 200 statusOK "processed 1/1 statement(s)" None)] /\
  Unix (time_Unix 1692316801) mod sequenceFrequency <> 0.
Proof.
  split; [reflexivity|]. vm_compute. discriminate.
Qed.

(* ================================================================== *)
(** * handlerInsert when every timestamp fits 64 bits *)
(* ================================================================== *)

(** Two runs that differ in how a counter is written. *)
Ltac same_count :=
  match goal with
  | |- (Returns (_, ?a), _, _) = (Returns (_, ?b), _, _) =>
      replace b with a by (simpl List.length; lia); reflexivity
  | |- (Returns ?a, _, _) = (Returns ?b, _, _) =>
      replace b with a by (simpl filter; simpl List.length; lia); reflexivity
  end.

Section InsertAccounts.
Context {S Q FS : Type} `{Store S Q} `{Files FS}.

Lemma bind_returns {A B} (m : M S FS A) (k : A -> M S FS B) w a w' t :
  m w = (Returns a, w', t) ->
  bind m k w = (let '(o, w'', t') := k a w' in (o, w'', (t ++ t')%list)).
Proof.
  intros Hm. unfold bind. rewrite Hm. reflexivity.
Qed.

Lemma responses_app t t' : responses (t ++ t') = (responses t ++ responses t')%list.
Proof.
  unfold responses. apply flat_map_app.
Qed.


Lemma quiet_responses t : quiet t -> responses t = [].
Proof.
  induction 1 as [|e t [l ->] _ IH]; [reflexivity|exact IH].
Qed.

Lemma stateOf_012 c (w : world S FS) :
  is012 c = true ->
  exists v, MainGo.stateOf c w = (Returns v, w, []).
Proof.
  unfold is012, MainGo.stateOf. intros Hc.
  destruct (Ascii.eqb c "0"); [eexists; reflexivity|].
  destruct (Ascii.eqb c "1"); [eexists; reflexivity|].
  destruct (Ascii.eqb c "2"); [eexists; reflexivity|discriminate].
Qed.

Lemma timestamps_fits dv ds ts (w : world S FS) :
  (len ts =? 0) || match Atoi ts with Some _ => true | None => false end = true ->
  exists tv, MainGo.timestamps dv ds ts w = (Returns tv, w, []).
Proof.
  unfold MainGo.timestamps. intros Hf.
  destruct (Z.ltb_spec 0 (len ts)) as [Hl|Hl]; [|eexists; reflexivity].
  destruct (Z.eqb_spec (len ts) 0) as [E|_]; [lia|].
  destruct (Atoi ts); [eexists; reflexivity|discriminate].
Qed.

Lemma parseLines_fits dv ds lines :
  Forall (fun l => fits l = true) lines ->
  forall i statements indexMapping skipped (w : world S FS),
  exists statements' indexMapping' logs,
    MainGo.parseLines dv ds i lines statements indexMapping skipped w
      = (Returns ((statements ++ statements')%list,
                  (indexMapping ++ indexMapping')%list,
                  skipped + (Z.of_nat (List.length lines)
                             - Z.of_nat (List.length statements'))),
         w, logs) /\
    List.length statements' = List.length (filter matched lines) /\
    List.length indexMapping' = List.length statements' /\
    quiet logs.
Proof.
  induction 1 as [|line lines Hfit _ IH]; intros i statements indexMapping skipped w.
  - exists [], [], []. simpl. rewrite !app_nil_r, Z.add_0_r.
    repeat split. constructor.
  - simpl MainGo.parseLines. unfold MainGo.FindSubmatch.
    unfold fits in Hfit. simpl filter. unfold matched at 1.
    destruct (submatch line) as [[[m1 m2] m3]|] eqn:Hm.
    + apply submatch_statement in Hm as Hst.
      destruct Hst as (c & -> & Hc & _).
      destruct (stateOf_012 c w Hc) as [v Hv].
      destruct (timestamps_fits dv ds m3 w Hfit) as [[vt st] Htv].
      destruct (IH (i + 1)
                  (statements ++ [mkStatement m1 vt v StatementAdd true st
                                    sequenceFrequency])%list
                  (indexMapping ++ [i])%list skipped w)
        as (ss & ms & logs & E & Hl & Hlm & Hq).
      exists (mkStatement m1 vt v StatementAdd true st sequenceFrequency :: ss),
             (i :: ms), logs.
      rewrite (bind_returns _ _ w c w [] eq_refl).
      rewrite (bind_returns _ _ w v w [] Hv).
      rewrite (bind_returns _ _ w (vt, st) w [] Htv).
      rewrite E. simpl app. rewrite <- !app_assoc. simpl app.
      repeat split; auto.
      * same_count.
      * simpl. now rewrite Hl.
      * simpl. now rewrite Hlm.
    + destruct (IH (i + 1) statements indexMapping (skipped + 1) w)
        as (ss & ms & logs & E & Hl & Hlm & Hq).
      exists ss, ms, (Logged ("error parsing statement " ++ itoa (i + 1)) :: logs).
      rewrite (bind_returns _ _ w tt w
                 [Logged ("error parsing statement " ++ itoa (i + 1))] eq_refl).
      rewrite E. simpl app.
      repeat split; auto.
      * same_count.
      * constructor; [eexists; reflexivity|exact Hq].
Qed.

Lemma at_in_range {A} (xs : list A) i :
  0 <= i < Z.of_nat (List.length xs) -> exists v, at_ xs i = Returns v.
Proof.
  intros Hi. unfold at_.
  destruct (Z.leb_spec 0 i); [|lia].
  destruct (Z.ltb_spec i (Z.of_nat (List.length xs))); [|lia]. simpl.
  destruct (nth_error xs (Z.to_nat i)) eqn:E; [eexists; reflexivity|].
  apply nth_error_None in E. lia.
Qed.

Lemma countErrors_in_range indexMapping errs :
  forall i skipped (w : world S FS),
  0 <= i ->
  i + Z.of_nat (List.length errs) <= Z.of_nat (List.length indexMapping) ->
  exists logs,
    MainGo.countErrors indexMapping i errs skipped w
      = (Returns (skipped + failures errs), w, logs) /\ quiet logs.
Proof.
  unfold failures.
  induction errs as [|[err|] errs IH]; intros i skipped w Hi Hlen.
  - exists []. simpl. rewrite Z.add_0_r. split; [reflexivity|constructor].
  - simpl List.length in Hlen.
    destruct (at_in_range indexMapping i ltac:(lia)) as [l Hl].
    destruct (IH (i + 1) (skipped + 1) w ltac:(lia) ltac:(lia)) as (logs & E & Hq).
    eexists. simpl MainGo.countErrors.
    rewrite (bind_returns _ _ w l w [] (f_equal (fun o => (o, w, [])) Hl)).
    rewrite (bind_returns _ _ w tt w _ eq_refl).
    rewrite E. simpl app. split.
    + same_count.
    + constructor; [eexists; reflexivity|exact Hq].
  - simpl List.length in Hlen.
    destruct (IH (i + 1) skipped w ltac:(lia) ltac:(lia)) as (logs & E & Hq).
    exists logs. simpl. split; [exact E|exact Hq].
Qed.

(** What C2 and C3 say holds on every body whose timestamps fit 64 bits,
    against a store that keeps the contract of [Batch]: the handler
    returns, sends the statements of the lines that match in one batch,
    and answers with the number of statements that the store accepted
    over the number of lines, "ok" when the two are equal and "warning"
    otherwise. *)
Lemma handlerInsert_accounts (now : Time) (body : string) (w : world S FS) :
  batch_contract ->
  Forall (fun l => fits l = true) (Split body) ->
  exists statements,
    let result := fst (Batch (store w) statements) in
    let n := Z.of_nat (List.length (Split body)) in
    let accepted :=
      Z.of_nat (List.length statements) - failures (ErrorVars result) in
    List.length statements = List.length (filter matched (Split body)) /\
    0 <= accepted <= n /\
    returned (MainGo.handlerInsert now (postRequest body) w) = Returns tt /\
    In (CalledBatch statements)
       (events (MainGo.handlerInsert now (postRequest body) w)) /\
    after (MainGo.handlerInsert now (postRequest body) w)
      = mkWorld (snd (Batch (store w) statements)) (files w) /\
    responses (events (MainGo.handlerInsert now (postRequest body) w))
      = [mkResponse 200
           (if accepted =? n then statusOK else statusWarning)
           ("processed " ++ itoa accepted ++ "/" ++ itoa n ++ " statement(s)")
           None].
Proof.
  intros Hcontract Hfits.
  destruct (parseLines_fits now
              (Truncate now (mul64 sequenceFrequency Second))
              (Split body) Hfits 0 [] [] 0 w)
    as (statements & indexMapping & logs & Hparse & Hlen & Hmap & Hq).
  simpl app in Hparse. rewrite Z.add_0_l in Hparse.
  exists statements. cbv zeta.
  destruct (Hcontract (store w) statements) as [Hvars Hhas].
  set (n := Z.of_nat (List.length (Split body))) in *.
  assert (Hle : Z.of_nat (List.length statements) <= n).
  { rewrite Hlen. unfold n. apply inj_le. apply filter_length_le. }
  assert (Hfail : 0 <= failures (ErrorVars (fst (Batch (store w) statements)))
                  <= Z.of_nat (List.length statements)).
  { unfold failures. rewrite <- Hvars. split; [lia|].
    apply inj_le, filter_length_le. }
  destruct (Batch (store w) statements) as [result s'] eqn:Hbatch.
  cbn [fst snd] in *.
  set (w' := mkWorld s' (files w)).
  assert (Hb : storeBatch statements w
               = (Returns result, w', [CalledBatch statements])).
  { unfold storeBatch. rewrite Hbatch. reflexivity. }
  assert (Hcount : exists logs',
            (if HasErrors result
             then MainGo.countErrors indexMapping 0 (ErrorVars result)
                    (n - Z.of_nat (List.length statements))
             else ret (n - Z.of_nat (List.length statements))) w'
            = (Returns (n - Z.of_nat (List.length statements)
                        + failures (ErrorVars result)), w', logs')
            /\ quiet logs').
  { rewrite Hhas.
    destruct (Z.eqb_spec (failures (ErrorVars result)) 0) as [E|E];
      simpl negb; cbv iota.
    - exists []. rewrite E, Z.add_0_r. split; [reflexivity|constructor].
    - apply countErrors_in_range; lia. }
  destruct Hcount as (logs' & Hcount & Hq').
  set (skipped := n - Z.of_nat (List.length statements)
                  + failures (ErrorVars result)) in *.
  assert (Hrun : MainGo.handlerInsert now (postRequest body) w
            = (Returns tt, w',
               (logs ++ [CalledBatch statements] ++ logs' ++
                [Wrote (mkResponse 200
                          (if 0 <? skipped then statusWarning else statusOK)
                          ("processed " ++ itoa (n - skipped) ++ "/" ++ itoa n
                             ++ " statement(s)") None)])%list)).
  { unfold MainGo.handlerInsert, postRequest. cbn [Method Body].
    change (negb ("POST" =? "POST")%string) with false. cbv iota zeta.
    rewrite (bind_returns _ _ w _ w logs Hparse).
    rewrite (bind_returns _ _ w _ w' _ Hb).
    fold n. rewrite (bind_returns _ _ w' _ w' logs' Hcount).
    reflexivity. }
  rewrite Hrun. cbn [returned after events fst snd].
  replace (n - skipped)
    with (Z.of_nat (List.length statements) - failures (ErrorVars result))
    by (unfold skipped; lia).
  repeat split; try lia.
  - apply in_or_app. right. left. reflexivity.
  - rewrite !responses_app, (quiet_responses _ Hq), (quiet_responses _ Hq').
    simpl.
    destruct (Z.ltb_spec 0 skipped);
      destruct (Z.eqb_spec (Z.of_nat (List.length statements)
                            - failures (ErrorVars result)) n);
      try (unfold skipped in *; lia); reflexivity.
Qed.
End InsertAccounts.

Lemma handlerInsert_example :
  batch_contract (S := Fake.store) /\
  responses (events (MainGo.handlerInsert (mkTime 1700000007 5)
                       (postRequest (unlines ["k1 1"; "k2 0"; "badline"; "k3 1"]))
                       Fake.empty))
    = [mkResponse 200 statusWarning "processed 3/4 statement(s)" None] /\
  responses (events (Part002.handlerInsert (mkTime 1700000007 5)
                       (postRequest (unlines ["k1 1"; "k2 0"; "badline"; "k3 1"]))
                       Fake.empty))
    = [mkResponse 200 statusWarning "processed 3/4 statement(s)" None].
Proof.
  split; [|split; reflexivity].
  intros st statements. simpl. unfold Fake.batch, failures. simpl.
  rewrite length_map. split; [reflexivity|].
  induction statements as [|s ss IH]; [reflexivity|].
  simpl. unfold Fake.errorOf at 1 3.
  destruct (Fake.mem (Key s) (Fake.refused st)); simpl.
  - destruct (Z.eqb_spec (Z.of_nat (Datatypes.S (List.length
        (filter (fun e : option error =>
                   match e with Some _ => true | None => false end)
           (map (Fake.errorOf st) ss))))) 0); [lia|reflexivity].
  - exact IH.
Qed.

(* ================================================================== *)
(** * The two decoders of a statement agree *)
(* ================================================================== *)

Lemma length_append a b :
  String.length (a ++ b) = (String.length a + String.length b)%nat.
Proof.
  induction a as [|c a IH]; simpl; [reflexivity|now rewrite IH].
Qed.

Lemma get_append_r a b n :
  String.get (String.length a + n) (a ++ b) = String.get n b.
Proof.
  induction a as [|c a IH]; simpl; [reflexivity|exact IH].
Qed.

Lemma substring_append_r a b n m :
  substring (String.length a + n) m (a ++ b) = substring n m b.
Proof.
  induction a as [|c a IH]; simpl; [reflexivity|exact IH].
Qed.

Lemma substring_whole s : substring 0 (String.length s) s = s.
Proof.
  induction s as [|c s IH]; simpl; [reflexivity|now rewrite IH].
Qed.

Lemma substring_append_l a b : substring 0 (String.length a) (a ++ b) = a.
Proof.
  induction a as [|c a IH]; simpl; [destruct b; reflexivity|now rewrite IH].
Qed.

Lemma IndexByte_from_word i key rest :
  allb isWord key = true ->
  IndexByte_from i (key ++ String " " rest) " " = i + len key.
Proof.
  revert i. induction key as [|c key IH]; intros i Hw.
  - simpl. unfold len. simpl. lia.
  - simpl in Hw. apply andb_prop in Hw as [Hc Hw].
    simpl. destruct (Ascii.eqb_spec c " ") as [->|_]; [discriminate|].
    rewrite (IH (i + 1) Hw). unfold len. simpl String.length. lia.
Qed.

Section Decoders.
Context {S Q FS : Type} `{Store S Q} `{Files FS}.

(** On every line of the grammar, the decoding by offset of
    [src/unnamed/part_002] builds the statement that the groups of
    [src/cmd/server/main.go] give, and panics where and only where it
    does: the switch on the state digit never, the conversion of the
    timestamp when it does not fit [int]. *)
Lemma decodeLine_groups dv ds line key st ts (w : world S FS) :
  statement line key st ts ->
  Part002.decodeLine dv ds line w =
    (c <- lift (byteAt st 0) ;;
     value <- MainGo.stateOf c ;;
     tv <- MainGo.timestamps dv ds ts ;;
     ret (mkStatement key (fst tv) value StatementAdd true (snd tv)
            sequenceFrequency)) w.
Proof.
  intros (c & -> & Hc & Hne & Hw & Hd & ->).
  unfold Part002.decodeLine, IndexByte.
  rewrite IndexByte_from_word by assumption. rewrite Z.add_0_l.
  set (tail := if len ts =? 0 then EmptyString else String " " ts).
  assert (Hlen : len (key ++ String " " (String c tail))
                 = len key + 2 + (if len ts =? 0 then 0 else 1 + len ts)).
  { unfold tail, len. rewrite length_append. simpl String.length.
    destruct (Z.of_nat (String.length ts) =? 0); simpl String.length; lia. }
  assert (Hget : byteAt (key ++ String " " (String c tail)) (len key + 1)
                 = Returns c).
  { unfold byteAt. rewrite Hlen.
    destruct (Z.leb_spec 0 (len key + 1)); [|unfold len in *; lia].
    destruct (Z.ltb_spec (len key + 1)
                (len key + 2 + (if len ts =? 0 then 0 else 1 + len ts)));
      [|unfold len in *; destruct (Z.of_nat (String.length ts) =? 0); lia].
    simpl andb. cbv iota.
    replace (Z.to_nat (len key + 1)) with (String.length key + 1)%nat
      by (unfold len; lia).
    rewrite get_append_r. reflexivity. }
  assert (Hkey : slice_to (key ++ String " " (String c tail)) (len key)
                 = Returns key).
  { unfold slice_to. rewrite Hlen.
    destruct (Z.leb_spec 0 (len key)); [|unfold len in *; lia].
    destruct (Z.leb_spec (len key)
                (len key + 2 + (if len ts =? 0 then 0 else 1 + len ts)));
      [|unfold len in *; destruct (Z.of_nat (String.length ts) =? 0); lia].
    simpl andb. cbv iota. unfold len. rewrite Nat2Z.id.
    now rewrite substring_append_l. }
  rewrite (bind_returns _ _ w c w [] (f_equal (fun o => (o, w, [])) Hget)).
  rewrite (bind_returns (lift (byteAt (String c EmptyString) 0)) _ w c w []
             eq_refl).
  destruct (MainGo.stateOf c w) as [[[v|msg] w1] t1] eqn:Hv.
  2:{ unfold bind. unfold Part002.stateOf, MainGo.stateOf in *. rewrite Hv.
      reflexivity. }
  assert (Hv' : Part002.stateOf c w = (Returns v, w1, t1)) by exact Hv.
  rewrite (bind_returns _ _ w v w1 t1 Hv).
  rewrite (bind_returns _ _ w v w1 t1 Hv').
  f_equal. rewrite Hlen. unfold MainGo.timestamps.
  destruct (Z.eqb_spec (len ts) 0) as [E|E].
  - destruct (Z.ltb_spec (len key + 2) (len key + 2 + 0)); [lia|].
    destruct (Z.ltb_spec 0 (len ts)); [lia|].
    rewrite (bind_returns _ _ w1 (dv, ds) w1 [] eq_refl).
    rewrite (bind_returns (ret (dv, ds)) _ w1 (dv, ds) w1 [] eq_refl).
    rewrite (bind_returns _ _ w1 key w1 []
               (f_equal (fun o => (o, w1, [])) Hkey)).
    reflexivity.
  - assert (0 < len ts) by (unfold len in *; lia).
    destruct (Z.ltb_spec (len key + 2) (len key + 2 + (1 + len ts))); [|lia].
    destruct (Z.ltb_spec 0 (len ts)); [|lia].
    assert (Hts : slice_from (key ++ String " " (String c tail)) (len key + 3)
                  = Returns ts).
    { unfold slice_from. rewrite Hlen.
      destruct (Z.eqb_spec (len ts) 0); [contradiction|].
      destruct (Z.leb_spec 0 (len key + 3)); [|unfold len in *; lia].
      destruct (Z.leb_spec (len key + 3) (len key + 2 + (1 + len ts))); [|lia].
      simpl andb. cbv iota.
      replace (Z.to_nat (len key + 3)) with (String.length key + 3)%nat
        by (unfold len; lia).
      rewrite substring_append_r, length_append. unfold tail.
      destruct (Z.eqb_spec (len ts) 0); [contradiction|].
      simpl String.length.
      replace (String.length key + Datatypes.S (Datatypes.S (Datatypes.S
                 (String.length ts))) - (String.length key + 3))%nat
        with (String.length ts) by lia.
      simpl substring. now rewrite substring_whole. }
    match goal with
    | |- context [bind (bind ?a ?b) _ w1] =>
        assert (Hinner : bind a b w1 =
                  match Atoi ts with
                  | None => (Panics "poor validation panic", w1,
                             [Logged "poor validation panic"])
                  | Some x =>
                      (Returns (time_Unix x,
                                Truncate (time_Unix x)
                                  (mul64 sequenceFrequency Second)), w1, [])
                  end)
    end.
    { rewrite (bind_returns _ _ w1 ts w1 []
                 (f_equal (fun o => (o, w1, [])) Hts)).
      destruct (Atoi ts); reflexivity. }
    destruct (Atoi ts) as [x|].
    + rewrite (bind_returns _ _ w1 _ w1 [] Hinner).
      rewrite (bind_returns (ret _) _ w1 _ w1 [] eq_refl).
      rewrite (bind_returns _ _ w1 key w1 []
                 (f_equal (fun o => (o, w1, [])) Hkey)).
      reflexivity.
    + unfold bind at 1. rewrite Hinner. reflexivity.
Qed.
End Decoders.

(* ================================================================== *)
(** * handlerInsert of src/unnamed/part_002 when every timestamp fits *)
(* ================================================================== *)

Lemma at_nth {A} (xs : list A) i v :
  0 <= i -> nth_error xs (Z.to_nat i) = Some v -> at_ xs i = Returns v.
Proof.
  intros Hi Hn. unfold at_.
  assert (Z.to_nat i < List.length xs)%nat
    by (apply nth_error_Some; congruence).
  destruct (Z.leb_spec 0 i); [|lia].
  destruct (Z.ltb_spec i (Z.of_nat (List.length xs))); [|lia].
  simpl. now rewrite Hn.
Qed.

Lemma update_length {A} (xs : list A) i v :
  List.length (update xs i v) = List.length xs.
Proof.
  revert i. induction xs as [|a xs IH]; intros [|i]; simpl; auto.
Qed.

Lemma update_nth_same {A} (xs : list A) i v :
  (i < List.length xs)%nat -> nth_error (update xs i v) i = Some v.
Proof.
  revert i. induction xs as [|a xs IH]; intros [|i] Hi; simpl in *;
    try lia; [reflexivity|apply IH; lia].
Qed.

Lemma update_nth_other {A} (xs : list A) i j v :
  i <> j -> nth_error (update xs i v) j = nth_error xs j.
Proof.
  revert i j. induction xs as [|a xs IH]; intros [|i] [|j] Hij; simpl;
    try reflexivity; try contradiction.
  apply IH. congruence.
Qed.

Section InsertAccountsByOffset.
Context {S Q FS : Type} `{Store S Q} `{Files FS}.

Lemma decodeLine_fits dv ds line (w : world S FS) :
  matched line = true -> fits line = true ->
  exists st, Part002.decodeLine dv ds line w = (Returns st, w, []).
Proof.
  unfold matched, fits.
  destruct (submatch line) as [[[key st] ts]|] eqn:Hm; [|discriminate].
  intros _ Hf. apply submatch_statement in Hm.
  rewrite (decodeLine_groups dv ds line key st ts w Hm).
  destruct Hm as (c & -> & Hc & _).
  destruct (stateOf_012 c w Hc) as [v Hv].
  destruct (timestamps_fits dv ds ts w Hf) as [tv Htv].
  rewrite (bind_returns _ _ w c w [] eq_refl).
  rewrite (bind_returns _ _ w v w [] Hv).
  rewrite (bind_returns _ _ w tv w [] Htv).
  eexists. reflexivity.
Qed.

(** The first loop: the lines from [i] on that match have their indices
    in [mapping[n..n')], in order, [n'] being the count returned; the
    entries below [n] are left alone. *)
Lemma validate_mapping lines :
  forall i mapping n (w : world S FS),
  0 <= i -> 0 <= n ->
  n + Z.of_nat (List.length lines) <= Z.of_nat (List.length mapping) ->
  exists mapping' logs,
    Part002.validate i lines mapping n w
      = (Returns (mapping',
                  n + Z.of_nat (List.length (filter matched lines))), w, logs) /\
    quiet logs /\
    List.length mapping' = List.length mapping /\
    (forall j, (j < Z.to_nat n)%nat ->
               nth_error mapping' j = nth_error mapping j) /\
    (forall j, n <= j < n + Z.of_nat (List.length (filter matched lines)) ->
       exists l line,
         nth_error mapping' (Z.to_nat j) = Some l /\ i <= l /\
         nth_error lines (Z.to_nat (l - i)) = Some line /\
         matched line = true).
Proof.
  induction lines as [|line lines IH]; intros i mapping n w Hi Hn Hlen.
  - exists mapping, []. simpl. rewrite Z.add_0_r.
    repeat split; [constructor|]. intros j Hj. lia.
  - simpl List.length in Hlen. simpl Part002.validate. simpl filter.
    rewrite Match_matched.
    destruct (matched line) eqn:Hm; cbn [negb].
    + assert (Hset : set_at mapping n i
                     = Returns (update mapping (Z.to_nat n) i)).
      { unfold set_at. destruct (Z.leb_spec 0 n); [|lia].
        destruct (Z.ltb_spec n (Z.of_nat (List.length mapping))); [|lia].
        reflexivity. }
      destruct (IH (i + 1) (update mapping (Z.to_nat n) i) (n + 1) w
                  ltac:(lia) ltac:(lia)
                  ltac:(rewrite update_length; lia))
        as (mapping' & logs & E & Hq & Hl & Hlow & Hhigh).
      exists mapping', logs.
      rewrite (bind_returns _ _ w _ w []
                 (f_equal (fun o => (o, w, [])) Hset)).
      rewrite E. simpl app. simpl List.length.
      rewrite update_length in Hl.
      repeat split; auto.
      * same_count.
      * intros j Hj. rewrite Hlow by lia.
        apply update_nth_other. lia.
      * intros j Hj. destruct (Z.eq_dec j n) as [->|Hne].
        -- exists i, line. rewrite Hlow by lia.
           rewrite update_nth_same by lia.
           rewrite Z.sub_diag. repeat split; auto. lia.
        -- destruct (Hhigh j ltac:(lia)) as (l & ln & Hnth & Hle & Hln & Hmt).
           exists l, ln. repeat split; auto; [lia|].
           replace (Z.to_nat (l - i)) with (Datatypes.S (Z.to_nat (l - (i + 1))))
             by lia.
           exact Hln.
    + destruct (IH (i + 1) mapping n w ltac:(lia) ltac:(lia) ltac:(lia))
        as (mapping' & logs & E & Hq & Hl & Hlow & Hhigh).
      exists mapping', (Logged ("error parsing statement " ++ itoa (i + 1)) :: logs).
      rewrite (bind_returns _ _ w tt w
                 [Logged ("error parsing statement " ++ itoa (i + 1))] eq_refl).
      rewrite E. simpl app.
      repeat split; auto.
      * constructor; [eexists; reflexivity|exact Hq].
      * intros j Hj.
        destruct (Hhigh j Hj) as (l & ln & Hnth & Hle & Hln & Hmt).
        exists l, ln. repeat split; auto; [lia|].
        replace (Z.to_nat (l - i)) with (Datatypes.S (Z.to_nat (l - (i + 1))))
          by lia.
        exact Hln.
Qed.

(** The second loop, on a mapping whose entries [i..i+count) point to
    lines that match and fit. *)
Lemma decode_fits dv ds lines mapping count :
  forall i statements (w : world S FS),
  0 <= i ->
  (forall j, i <= j < i + Z.of_nat count ->
     exists l line,
       nth_error mapping (Z.to_nat j) = Some l /\ 0 <= l /\
       nth_error lines (Z.to_nat l) = Some line /\
       matched line = true /\ fits line = true) ->
  exists statements',
    Part002.decode dv ds lines mapping count i statements w
      = (Returns (statements ++ statements')%list, w, []) /\
    List.length statements' = count.
Proof.
  induction count as [|count IH]; intros i statements w Hi Hgood.
  - exists []. simpl. rewrite app_nil_r. split; reflexivity.
  - destruct (Hgood i ltac:(lia)) as (l & line & Hnth & Hl & Hline & Hm & Hf).
    destruct (decodeLine_fits dv ds line w Hm Hf) as [st Hst].
    destruct (IH (i + 1) (statements ++ [st])%list w ltac:(lia)) as (ss & E & Hlen).
    { intros j Hj. apply Hgood. lia. }
    exists (st :: ss). simpl Part002.decode.
    rewrite (bind_returns _ _ w l w []
               (f_equal (fun o => (o, w, [])) (at_nth _ _ _ Hi Hnth))).
    rewrite (bind_returns _ _ w line w []
               (f_equal (fun o => (o, w, [])) (at_nth _ _ _ Hl Hline))).
    rewrite (bind_returns _ _ w st w [] Hst).
    rewrite E. simpl app. rewrite <- app_assoc. simpl.
    split; [reflexivity|now rewrite Hlen].
Qed.

Lemma countErrors_by_offset mapping errs :
  forall i n (w : world S FS),
  0 <= i ->
  i + Z.of_nat (List.length errs) <= Z.of_nat (List.length mapping) ->
  exists logs,
    Part002.countErrors mapping i errs n w
      = (Returns (n - failures errs), w, logs) /\ quiet logs.
Proof.
  unfold failures.
  induction errs as [|[err|] errs IH]; intros i n w Hi Hlen.
  - exists []. simpl. rewrite Z.sub_0_r. split; [reflexivity|constructor].
  - simpl List.length in Hlen.
    destruct (at_in_range mapping i ltac:(lia)) as [l Hl].
    destruct (IH (i + 1) (n - 1) w ltac:(lia) ltac:(lia)) as (logs & E & Hq).
    eexists. simpl Part002.countErrors.
    rewrite (bind_returns _ _ w l w [] (f_equal (fun o => (o, w, [])) Hl)).
    rewrite (bind_returns _ _ w tt w _ eq_refl).
    rewrite E. simpl app. split.
    + same_count.
    + constructor; [eexists; reflexivity|exact Hq].
  - simpl List.length in Hlen.
    destruct (IH (i + 1) n w ltac:(lia) ltac:(lia)) as (logs & E & Hq).
    exists logs. simpl. split; [exact E|exact Hq].
Qed.

(** The decoding by offset answers as the decoding by groups does: on
    every body whose timestamps fit 64 bits, with a store that keeps the
    contract of [Batch], the number of accepted statements over the number
    of lines, "ok" when the two are equal, "warning" otherwise. *)
Lemma handlerInsert_by_offset_accounts
    (now : Time) (body : string) (w : world S FS) :
  batch_contract ->
  Forall (fun l => fits l = true) (Split body) ->
  exists statements,
    let result := fst (Batch (store w) statements) in
    let n := Z.of_nat (List.length (Split body)) in
    let accepted :=
      Z.of_nat (List.length statements) - failures (ErrorVars result) in
    List.length statements = List.length (filter matched (Split body)) /\
    0 <= accepted <= n /\
    returned (Part002.handlerInsert now (postRequest body) w) = Returns tt /\
    In (CalledBatch statements)
       (events (Part002.handlerInsert now (postRequest body) w)) /\
    after (Part002.handlerInsert now (postRequest body) w)
      = mkWorld (snd (Batch (store w) statements)) (files w) /\
    responses (events (Part002.handlerInsert now (postRequest body) w))
      = [mkResponse 200
           (if accepted =? n then statusOK else statusWarning)
           ("processed " ++ itoa accepted ++ "/" ++ itoa n ++ " statement(s)")
           None].
Proof.
  intros Hcontract Hfits.
  set (lines := Split body) in *.
  set (n := Z.of_nat (List.length lines)).
  set (k := List.length (filter matched lines)).
  assert (Hk : Z.of_nat k <= n)
    by (unfold k, n; apply inj_le, filter_length_le).
  destruct (validate_mapping lines 0 (repeat 0 (List.length lines)) 0 w
              ltac:(lia) ltac:(lia) ltac:(rewrite repeat_length; lia))
    as (mapping & logs & Hval & Hq & Hlen & _ & Hhigh).
  rewrite Z.add_0_l in Hval. fold k in Hval, Hhigh.
  rewrite repeat_length in Hlen.
  destruct (decode_fits now (Truncate now (mul64 sequenceFrequency Second))
              lines mapping k 0 [] w ltac:(lia))
    as (statements & Hdec & Hlens).
  { intros j Hj. destruct (Hhigh j ltac:(lia)) as (l & line & Hn & Hl & Hline & Hm).
    rewrite Z.sub_0_r in Hline.
    exists l, line. repeat split; auto.
    apply nth_error_In in Hline.
    rewrite Forall_forall in Hfits. now apply Hfits. }
  simpl app in Hdec.
  exists statements. cbv zeta.
  destruct (Hcontract (store w) statements) as [Hvars Hhas].
  assert (Hfail : 0 <= failures (ErrorVars (fst (Batch (store w) statements)))
                  <= Z.of_nat (List.length statements)).
  { unfold failures. rewrite <- Hvars. split; [lia|].
    apply inj_le, filter_length_le. }
  destruct (Batch (store w) statements) as [result s'] eqn:Hbatch.
  cbn [fst snd] in *.
  set (w' := mkWorld s' (files w)).
  assert (Hb : storeBatch statements w
               = (Returns result, w', [CalledBatch statements])).
  { unfold storeBatch. rewrite Hbatch. reflexivity. }
  assert (Hcount : exists logs',
            (if HasErrors result
             then Part002.countErrors mapping 0 (ErrorVars result) (Z.of_nat k)
             else ret (Z.of_nat k)) w'
            = (Returns (Z.of_nat k - failures (ErrorVars result)), w', logs')
            /\ quiet logs').
  { rewrite Hhas.
    destruct (Z.eqb_spec (failures (ErrorVars result)) 0) as [E|E];
      simpl negb; cbv iota.
    - exists []. rewrite E, Z.sub_0_r. split; [reflexivity|constructor].
    - apply countErrors_by_offset; lia. }
  destruct Hcount as (logs' & Hcount & Hq').
  set (accepted := Z.of_nat k - failures (ErrorVars result)) in *.
  assert (Hrun : Part002.handlerInsert now (postRequest body) w
            = (Returns tt, w',
               (logs ++ [CalledBatch statements] ++ logs' ++
                [Wrote (mkResponse 200
                          (if negb (accepted =? n) then statusWarning
                           else statusOK)
                          ("processed " ++ itoa accepted ++ "/" ++ itoa n
                             ++ " statement(s)") None)])%list)).
  { unfold Part002.handlerInsert, postRequest. cbn [Method Body].
    change (negb ("POST" =? "POST")%string) with false. cbv iota zeta.
    fold lines.
    rewrite (bind_returns _ _ w _ w logs Hval).
    rewrite Nat2Z.id.
    rewrite (bind_returns _ _ w _ w [] Hdec).
    rewrite (bind_returns _ _ w _ w' _ Hb).
    rewrite (bind_returns _ _ w' _ w' logs' Hcount).
    reflexivity. }
  rewrite Hrun. cbn [returned after events fst snd].
  rewrite Hlens. fold accepted.
  repeat split; try (unfold accepted; lia).
  - apply in_or_app. right. left. reflexivity.
  - rewrite !responses_app, (quiet_responses _ Hq), (quiet_responses _ Hq').
    simpl. destruct (accepted =? n); reflexivity.
Qed.
End InsertAccountsByOffset.

(* ================================================================== *)
(** * Where the panic is reached *)
(* ================================================================== *)

Lemma digits_all acc s :
  allb isDigit s = true -> 0 <= acc ->
  exists n, digits acc s = Some n /\ acc <= n.
Proof.
  revert acc. induction s as [|c s IH]; intros acc Hd Hacc; simpl in *.
  - exists acc. split; [reflexivity|lia].
  - apply andb_prop in Hd as [Hc Hd]. rewrite Hc.
    assert (0 <= digitVal c <= 9).
    { unfold isDigit in Hc. unfold digitVal.
      apply andb_prop in Hc as [Hlo Hhi].
      apply N.leb_le in Hlo, Hhi. lia. }
    destruct (IH (acc * 10 + digitVal c) Hd ltac:(lia)) as (n & Hn & Hle).
    exists n. split; [exact Hn|lia].
Qed.

(** On a timestamp of the grammar, [Atoi] fails exactly when the number
    is beyond the largest [int]. *)
Lemma Atoi_timestamp ts :
  allb isDigit ts = true -> 0 < len ts ->
  Atoi ts = if decimal ts <=? MaxInt64 then Some (decimal ts) else None.
Proof.
  intros Hd Hl. unfold Atoi, decimal.
  destruct ts as [|c ts]; [unfold len in Hl; simpl in Hl; lia|].
  destruct (digits_all 0 (String c ts) Hd ltac:(lia)) as (n & Hn & Hle).
  assert (Hsign : match String c ts with
                  | String "-" r => (true, r)
                  | String "+" r => (false, r)
                  | _ => (false, String c ts)
                  end = (false, String c ts)).
  { simpl in Hd. apply andb_prop in Hd as [Hc _].
    destruct c as [[] [] [] [] [] [] [] []]; try reflexivity; discriminate. }
  rewrite Hsign, Hn.
  destruct (Z.leb_spec MinInt64 n); [|unfold MinInt64 in *; lia].
  reflexivity.
Qed.

Section PanicReached.
Context {S Q FS : Type} `{Store S Q} `{Files FS}.

(** A line of the grammar makes the decoding panic exactly when it has a
    timestamp beyond the largest [int]; the switch on the state digit
    always finds its case. *)
Lemma statement_decoded dv ds line key st ts (w : world S FS) :
  statement line key st ts ->
  (exists s, Part002.decodeLine dv ds line w = (Returns s, w, []))
  \/ (MaxInt64 < decimal ts /\
      Part002.decodeLine dv ds line w
        = (Panics "poor validation panic", w, [Logged "poor validation panic"])).
Proof.
  intros Hst. rewrite (decodeLine_groups dv ds line key st ts w Hst).
  destruct Hst as (c & -> & Hc & _ & _ & Hd & _).
  destruct (stateOf_012 c w Hc) as [v Hv].
  rewrite (bind_returns _ _ w c w [] eq_refl).
  rewrite (bind_returns _ _ w v w [] Hv).
  unfold MainGo.timestamps.
  destruct (Z.ltb_spec 0 (len ts)) as [Hl|Hl].
  - rewrite (Atoi_timestamp ts Hd Hl).
    destruct (Z.leb_spec (decimal ts) MaxInt64).
    + left. eexists. reflexivity.
    + right. split; [assumption|reflexivity].
  - left. eexists. reflexivity.
Qed.
End PanicReached.

(* ================================================================== *)
(** * handlerInsert at a timestamp that does not fit 64 bits *)
(* ================================================================== *)

Section InsertPanics.
Context {S Q FS : Type} `{Store S Q} `{Files FS}.

(** C5 at its failing input.  The line [k1 1 99999999999999999999] is a
    statement of the grammar, its timestamp is beyond [int], [Atoi]
    fails on it, and both revisions of the handler end in the panic
    "poor validation panic". *)
Theorem overlong_timestamp_panics (now : Time) (w : world S FS) :
  statement "k1 1 99999999999999999999" "k1" "1" "99999999999999999999" /\
  Atoi "99999999999999999999" = None /\
  MainGo.handlerInsert now (postRequest "k1 1 99999999999999999999") w
    = (Panics "poor validation panic", w, [Logged "poor validation panic"]) /\
  Part002.handlerInsert now (postRequest "k1 1 99999999999999999999") w
    = (Panics "poor validation panic", w, [Logged "poor validation panic"]).
Proof.
  split; [apply submatch_statement; reflexivity|].
  repeat split.
Qed.

(** C2 at its failing input.  On the body of the example with an overlong
    timestamp on its last line the handler panics after it has logged the
    bad line: it writes no response, neither "ok" nor "warning", and the
    store sees no batch. *)
Theorem overlong_timestamp_no_response (now : Time) (w : world S FS) :
  MainGo.handlerInsert now
    (postRequest (unlines ["k1 1"; "k2 0"; "badline"; "k3 1 99999999999999999999"])) w
    = (Panics "poor validation panic", w,
       [Logged "error parsing statement 3"; Logged "poor validation panic"]) /\
  responses
    (events (MainGo.handlerInsert now
               (postRequest (unlines ["k1 1"; "k2 0"; "badline";
                                    "k3 1 99999999999999999999"])) w)) = [] /\
  responses
    (events (Part002.handlerInsert now
               (postRequest (unlines ["k1 1"; "k2 0"; "badline";
                                    "k3 1 99999999999999999999"])) w)) = [].
Proof.
  repeat split.
Qed.

(** C3 at its failing input.  The body [k1 1 99999999999999999999] followed
    by a line feed has two lines.  The handler panics on the first one: no
    statement is accepted, none is counted as skipped or failed in a
    response, and the batch is not sent. *)
Theorem overlong_timestamp_no_count (now : Time) (w : world S FS) :
  List.length (Split (unlines ["k1 1 99999999999999999999"; ""])) = 2%nat /\
  MainGo.handlerInsert now
    (postRequest (unlines ["k1 1 99999999999999999999"; ""])) w
    = (Panics "poor validation panic", w, [Logged "poor validation panic"]) /\
  Part002.handlerInsert now
    (postRequest (unlines ["k1 1 99999999999999999999"; ""])) w
    = (Panics "poor validation panic", w,
       [Logged "error parsing statement 2"; Logged "poor validation panic"]).
Proof.
  repeat split.
Qed.
End InsertPanics.

(* ================================================================== *)
(** * ceilInt64 on both sides of zero *)
(* ================================================================== *)

Lemma rem_negative x step :
  x < 0 -> 0 < step ->
  Z.rem x step = if x mod step =? 0 then 0 else x mod step - step.
Proof.
  intros Hx Hs.
  replace x with (- (- x)) at 1 by lia.
  rewrite Z.rem_opp_l by lia.
  rewrite Z.rem_mod_nonneg by lia.
  destruct (Z.eqb_spec (x mod step) 0) as [E|E].
  - rewrite Z_mod_zero_opp_full by assumption. reflexivity.
  - rewrite Z_mod_nz_opp_full by assumption. lia.
Qed.

Lemma multiple_mod step k : 0 < step -> (step * k) mod step = 0.
Proof. intros. rewrite Z.mul_comm. apply Z_mod_mult. Qed.

(** X1.  For a positive [step] and an [x] with [x + 2 * step] within 64
    bits, [ceilInt64 x step] returns a multiple of [step] that is at least
    [x] and less than [x + 2 * step]: [x] itself when [x] is a multiple,
    the next multiple when [x] is positive, and, when [x] is negative and
    no multiple, the multiple after the next one. *)
Theorem ceilInt64_on_grain (x step : Z) :
  0 < step -> MinInt64 <= x -> x + 2 * step <= MaxInt64 ->
  exists c,
    Part002.ceilInt64 x step = Returns c /\
    c mod step = 0 /\ x <= c < x + 2 * step /\
    (x mod step = 0 -> c = x) /\
    (0 <= x -> c < x + step) /\
    (x < 0 -> x mod step <> 0 -> x + step < c).
Proof.
  intros Hs Hlo Hhi.
  rewrite ceilInt64_returns by lia.
  pose proof (Z.mod_pos_bound x step Hs) as Hm.
  pose proof (Z.div_mod x step ltac:(lia)) as Hd.
  destruct (Z_lt_le_dec x 0) as [Hneg|Hpos].
  - rewrite rem_negative by lia.
    destruct (Z.eqb_spec (x mod step) 0) as [E|E].
    + change (0 =? 0) with true. cbv iota.
      exists x. repeat split; lia.
    + destruct (Z.eqb_spec (x mod step - step) 0) as [E'|E']; [lia|].
      exists (x + step - (x mod step - step)).
      rewrite wrap64_small
        by (unfold int64, MinInt64, MaxInt64 in *; lia).
      repeat split; try lia.
      replace (x + step - (x mod step - step)) with (step * (x / step + 2)) by lia.
      apply multiple_mod; lia.
  - rewrite Z.rem_mod_nonneg by lia.
    destruct (Z.eqb_spec (x mod step) 0) as [E|E].
    + exists x. repeat split; lia.
    + exists (x + step - x mod step).
      rewrite wrap64_small
        by (unfold int64, MinInt64, MaxInt64 in *; lia).
      repeat split; try lia.
      replace (x + step - x mod step) with (step * (x / step + 1)) by lia.
      apply multiple_mod; lia.
Qed.

Lemma ceilInt64_on_grain_witness :
  exists c,
    Part002.ceilInt64 (-16) 15 = Returns c /\
    c mod 15 = 0 /\ -16 <= c < -16 + 2 * 15 /\
    ((-16) mod 15 = 0 -> c = -16) /\
    (0 <= -16 -> c < -16 + 15) /\
    (-16 < 0 -> (-16) mod 15 <> 0 -> -16 + 15 < c).
Proof.
  apply (ceilInt64_on_grain (-16) 15); unfold MinInt64, MaxInt64; lia.
Defined.

(* ================================================================== *)
(** * What newQueryArgs returns *)
(* ================================================================== *)

Lemma firstAggregation_cases scope table :
  int64 scope -> Forall (fun u => 0 < u) table ->
  (firstAggregation scope table = 0 /\
   Forall (fun u => maxNumberOfPoints < Z.quot scope u) table)
  \/ (exists pre post,
        table = (pre ++ firstAggregation scope table :: post)%list /\
        Forall (fun u => maxNumberOfPoints < Z.quot scope u) pre /\
        Z.quot scope (firstAggregation scope table) <= maxNumberOfPoints).
Proof.
  intros Hs Hpos. induction table as [|v rest IH]; simpl.
  - left. split; [reflexivity | constructor].
  - inversion Hpos as [|? ? Hv Hrest]; subst.
    rewrite quo64_quot by assumption.
    destruct (Z.leb_spec (Z.quot scope v) maxNumberOfPoints) as [Hle|Hgt].
    + right. exists [], rest. repeat split; [constructor | assumption].
    + destruct (IH Hrest) as [[E F]|(pre & post & E & F & G)].
      * left. split; [assumption | constructor; assumption].
      * right. exists (v :: pre), post. repeat split.
        -- simpl. f_equal. assumption.
        -- constructor; assumption.
        -- assumption.
Qed.

Lemma firstAggregation_aggregations scope :
  int64 scope ->
  (firstAggregation scope aggregations = 0 /\ none_fitting scope)
  \/ (first_fitting scope (firstAggregation scope aggregations) /\
      In (firstAggregation scope aggregations) aggregations).
Proof.
  intros Hs.
  destruct (firstAggregation_cases scope aggregations Hs aggregations_positive)
    as [[E F]|(pre & post & E & F & G)].
  - left. split; assumption.
  - right. split.
    + exists pre, post. repeat split; assumption.
    + rewrite E at 2. apply in_or_app. right. left. reflexivity.
Qed.

Lemma ceilInt64_frequency v :
  exists c, Part002.ceilInt64 v sequenceFrequency = Returns c.
Proof.
  rewrite ceilInt64_returns by (unfold sequenceFrequency; lia).
  eexists. reflexivity.
Qed.

Lemma newQueryArgs_cases start_ end' :
  (Atoi start_ = None /\
   Part002.newQueryArgs start_ end' = Returns (Err "error parsing start date"))
  \/ (exists v, Atoi start_ = Some v /\ Atoi end' = None /\
        Part002.newQueryArgs start_ end' = Returns (Err "error parsing end date"))
  \/ (exists v w c,
        Atoi start_ = Some v /\ Atoi end' = Some w /\
        Part002.ceilInt64 v sequenceFrequency = Returns c /\
        Part002.newQueryArgs start_ end' =
          Returns
            (if w <? c then Err "range is not valid"
             else if firstAggregation (sub64 w c) aggregations =? 0
                  then Err "range is too large"
                  else Ok (mkQueryArgs (time_Unix c) (time_Unix w)
                             (mul64 (firstAggregation (sub64 w c) aggregations)
                                Second)))).
Proof.
  destruct (Atoi start_) as [v|] eqn:Ev.
  - destruct (Atoi end') as [w|] eqn:Ew.
    + right. right. destruct (ceilInt64_frequency v) as [c Hc].
      exists v, w, c. repeat split; try assumption.
      apply (newQueryArgs_parsed start_ end' v w c); assumption.
    + right. left. exists v. repeat split.
      unfold Part002.newQueryArgs. rewrite Ev.
      destruct (ceilInt64_frequency v) as [c Hc]. rewrite Hc, Ew. reflexivity.
  - left. split; [reflexivity|].
    unfold Part002.newQueryArgs. rewrite Ev. reflexivity.
Qed.

Lemma newQueryArgs_returns start_ end' :
  exists r, Part002.newQueryArgs start_ end' = Returns r.
Proof.
  destruct (newQueryArgs_cases start_ end')
    as [[_ E]|[(v & _ & _ & E)|(v & w & c & _ & _ & _ & E)]];
    rewrite E; eexists; reflexivity.
Qed.

(** X2.  [newQueryArgs] never panics, whatever the two strings are.  It
    fails with "error parsing start date" exactly when the start is no
    integer of 64 bits, with "error parsing end date" exactly when the
    start is one and the end is not, and every other failure is "range is
    not valid" or "range is too large". *)
Theorem newQueryArgs_errors (start_ end' : string) :
  exists r,
    Part002.newQueryArgs start_ end' = Returns r /\
    (r = Err "error parsing start date" <-> Atoi start_ = None) /\
    (r = Err "error parsing end date"
       <-> Atoi start_ <> None /\ Atoi end' = None) /\
    (forall err, r = Err err ->
       err = "error parsing start date" \/ err = "error parsing end date" \/
       err = "range is not valid" \/ err = "range is too large").
Proof.
  destruct (newQueryArgs_cases start_ end')
    as [[Ev E]|[(v & Ev & Ew & E)|(v & w & c & Ev & Ew & Hc & E)]];
    rewrite E; eexists; (split; [reflexivity|]).
  - split; [tauto|]. split.
    + split; [discriminate | intros [? _]; congruence].
    + intros err [=]; subst; tauto.
  - split; [split; congruence|]. split.
    + split; [intros _; split; congruence | reflexivity].
    + intros err [=]; subst; tauto.
  - assert (Hs : Atoi start_ <> None) by congruence.
    destruct (w <? c);
      [|destruct (firstAggregation (sub64 w c) aggregations =? 0)].
    all: split; [split; congruence|].
    all: split; [split; [discriminate | intros [_ ?]; congruence]|].
    all: intros err [=]; subst; tauto.
Qed.

(** X3.  The arguments that [newQueryArgs] accepts, when they are
    instants that a [time.Time] holds: the start is the start of the
    request as [ceilInt64] rounds it, the end is the end of the request
    and is not before the start, the interval is an entry of the
    aggregation table, in seconds, and the first one that keeps the range
    within 380 intervals; unless the range exceeds 64 bits, the range
    holds 380 intervals at most. *)
Theorem newQueryArgs_accepted (start_ end' : string) (args : queryArgs) :
  Part002.newQueryArgs start_ end' = Returns (Ok args) ->
  in_range (start args) -> in_range (end_ args) ->
  exists v w c i,
    Atoi start_ = Some v /\ Atoi end' = Some w /\
    Part002.ceilInt64 v sequenceFrequency = Returns c /\
    start args = time_Unix c /\ end_ args = time_Unix w /\ c <= w /\
    In i aggregations /\ interval args = i * Second /\
    first_fitting (sub64 w c) i /\
    (w - c <= MaxInt64 -> (w - c) / i <= maxNumberOfPoints).
Proof.
  intros Hr _ _.
  destruct (newQueryArgs_cases start_ end')
    as [[Ev E]|[(v & Ev & Ew & E)|(v & w & c & Ev & Ew & Hc & E)]];
    rewrite E in Hr; try discriminate.
  destruct (Z.ltb_spec w c) as [Hlt|Hle]; [discriminate|].
  destruct (firstAggregation_aggregations (sub64 w c) (wrap64_int64 _))
    as [[E0 _]|[Hff Hin]].
  - rewrite E0 in Hr. discriminate.
  - destruct (Z.eqb_spec (firstAggregation (sub64 w c) aggregations) 0)
      as [E0|E0]; [discriminate|].
    injection Hr as <-. cbn [start end_ interval].
    set (i := firstAggregation (sub64 w c) aggregations) in *.
    exists v, w, c, i.
    pose proof (aggregations_bounds _ Hin) as Hb.
    repeat split; try assumption; try reflexivity.
    + apply mul64_Second. assumption.
    + intros Hfit. destruct Hff as (pre & post & _ & _ & Hq).
      unfold sub64 in Hq. rewrite wrap64_small in Hq
        by (unfold int64, MinInt64, MaxInt64 in *; lia).
      rewrite Z.quot_div_nonneg in Hq by lia. assumption.
Qed.

Lemma newQueryArgs_accepted_witness :
  exists v w c i,
    Atoi "16" = Some v /\ Atoi "100" = Some w /\
    Part002.ceilInt64 v sequenceFrequency = Returns c /\
    start (mkQueryArgs (time_Unix 30) (time_Unix 100) (15 * Second)) = time_Unix c /\
    end_ (mkQueryArgs (time_Unix 30) (time_Unix 100) (15 * Second)) = time_Unix w /\
    c <= w /\
    In i aggregations /\
    interval (mkQueryArgs (time_Unix 30) (time_Unix 100) (15 * Second)) = i * Second /\
    first_fitting (sub64 w c) i /\
    (w - c <= MaxInt64 -> (w - c) / i <= maxNumberOfPoints).
Proof.
  apply (newQueryArgs_accepted "16" "100");
    [reflexivity | |];
    unfold in_range, MinInt64, MaxInt64, unixToInternal; cbn [sec start end_ time_Unix];
    lia.
Defined.

Lemma none_fitting_threshold scope :
  0 <= scope -> (none_fitting scope <-> 381 * 86400 <= scope).
Proof.
  intros Hs. unfold none_fitting, maxNumberOfPoints. split.
  - intros Hn. rewrite Forall_forall in Hn.
    specialize (Hn 86400 ltac:(unfold aggregations; simpl; tauto)).
    rewrite Z.quot_div_nonneg in Hn by lia.
    destruct (Z_lt_le_dec scope (381 * 86400)) as [Hlt|]; [|assumption].
    assert (scope / 86400 < 381) by (apply Z.div_lt_upper_bound; lia).
    lia.
  - intros Hge. rewrite Forall_forall. intros u Hu.
    apply aggregations_bounds in Hu.
    rewrite Z.quot_div_nonneg by lia.
    enough (381 <= scope / u) by lia.
    apply Z.div_le_lower_bound; [lia|].
    apply Z.le_trans with (381 * 86400); [|assumption].
    rewrite (Z.mul_comm u 381). apply Z.mul_le_mono_nonneg_l; lia.
Qed.

Lemma firstAggregation_zero scope :
  int64 scope -> (firstAggregation scope aggregations = 0 <-> none_fitting scope).
Proof.
  intros Hs. split.
  - intros E.
    destruct (firstAggregation_aggregations scope Hs) as [[_ Hn]|[_ Hin]].
    + assumption.
    + rewrite E in Hin. apply aggregations_bounds in Hin. lia.
  - intros Hn. apply firstAggregation_none;
      [assumption | apply aggregations_positive | assumption].
Qed.

(** X4.  With both numbers readable, an end that a [time.Time] holds and
    that is not before the start as [ceilInt64] rounds it, and the range
    in 64 bits, the query fails with "range is too large" exactly when the
    range is of 381 days or more, 32918400 seconds. *)
Theorem newQueryArgs_too_large (start_ end' : string) (v w c : Z) :
  Atoi start_ = Some v -> Atoi end' = Some w ->
  Part002.ceilInt64 v sequenceFrequency = Returns c ->
  in_range (time_Unix w) ->
  c <= w -> w - c <= MaxInt64 ->
  (Part002.newQueryArgs start_ end' = Returns (Err "range is too large")
   <-> 32918400 <= w - c).
Proof.
  intros Ev Ew Hc _ Hle Hfit.
  rewrite (newQueryArgs_parsed start_ end' v w c Ev Ew Hc).
  destruct (Z.ltb_spec w c) as [Hlt|_]; [lia|].
  cbv zeta.
  assert (Hs : sub64 w c = w - c).
  { unfold sub64. apply wrap64_small.
    unfold int64, MinInt64, MaxInt64 in *. lia. }
  rewrite Hs.
  assert (Hi : int64 (w - c))
    by (unfold int64, MinInt64, MaxInt64 in *; lia).
  pose proof (firstAggregation_zero (w - c) Hi) as Hz.
  pose proof (none_fitting_threshold (w - c) ltac:(lia)) as Ht.
  change (381 * 86400) with 32918400 in Ht.
  destruct (Z.eqb_spec (firstAggregation (w - c) aggregations) 0) as [E|E].
  - split; [intros _; tauto | reflexivity].
  - split; [discriminate | intros; tauto].
Qed.

Lemma newQueryArgs_too_large_witness :
  Part002.newQueryArgs "0" "32918400" = Returns (Err "range is too large")
  <-> 32918400 <= 32918400 - 0.
Proof.
  apply (newQueryArgs_too_large "0" "32918400" 0 32918400 0);
    try reflexivity;
    unfold in_range, MinInt64, MaxInt64, unixToInternal; cbn [sec time_Unix];
    lia.
Defined.

(** X5.  With both numbers readable and an end that a [time.Time] holds
    and that is more than [MaxInt64] seconds after the start as
    [ceilInt64] rounds it, the difference wraps around to a negative
    number and the query is accepted with the finest interval, 15
    seconds: "range is too large" is not raised. *)
Theorem newQueryArgs_range_wraps (start_ end' : string) (v w c : Z) :
  Atoi start_ = Some v -> Atoi end' = Some w ->
  Part002.ceilInt64 v sequenceFrequency = Returns c ->
  in_range (time_Unix w) ->
  MaxInt64 < w - c ->
  Part002.newQueryArgs start_ end' =
    Returns (Ok (mkQueryArgs (time_Unix c) (time_Unix w) (15 * Second))).
Proof.
  intros Ev Ew Hc _ Hover.
  rewrite (newQueryArgs_parsed start_ end' v w c Ev Ew Hc).
  pose proof (Atoi_int64 _ _ Ev) as Hv. pose proof (Atoi_int64 _ _ Ew) as Hw.
  assert (Hci : int64 c).
  { rewrite ceilInt64_returns in Hc by (unfold sequenceFrequency; lia).
    injection Hc as <-.
    destruct (Z.rem v sequenceFrequency =? 0);
      [assumption | apply wrap64_int64]. }
  destruct (Z.ltb_spec w c) as [Hlt|_];
    [unfold MaxInt64 in *; lia|].
  cbv zeta.
  assert (Hs : sub64 w c = w - c - 2 ^ 64).
  { unfold sub64. rewrite <- (wrap64_small (w - c - 2 ^ 64)).
    - apply wrap64_congr.
      replace (w - c - (w - c - 2 ^ 64)) with (1 * 2 ^ 64) by lia.
      apply Z_mod_mult.
    - unfold int64, MinInt64, MaxInt64 in *. lia. }
  rewrite Hs.
  assert (Hq : firstAggregation (w - c - 2 ^ 64) aggregations = 15).
  { unfold aggregations. cbn [firstAggregation].
    rewrite quo64_quot
      by (unfold int64, MinInt64, MaxInt64 in *; lia).
    pose proof (quot_bound (w - c - 2 ^ 64) 15 ltac:(lia)) as [_ Hb].
    specialize (Hb ltac:(unfold int64, MinInt64, MaxInt64 in *; lia)).
    destruct (Z.leb_spec (Z.quot (w - c - 2 ^ 64) 15) maxNumberOfPoints);
      [reflexivity | unfold maxNumberOfPoints in *; lia]. }
  rewrite Hq. reflexivity.
Qed.

Lemma newQueryArgs_range_wraps_witness :
  Part002.newQueryArgs "-9223372036854775808" "4611686018427387904" =
    Returns (Ok (mkQueryArgs (time_Unix (-9223372036854775785))
                   (time_Unix 4611686018427387904) (15 * Second))).
Proof.
  apply (newQueryArgs_range_wraps "-9223372036854775808" "4611686018427387904"
           (-9223372036854775808) 4611686018427387904 (-9223372036854775785));
    try reflexivity.
  unfold in_range, MinInt64, MaxInt64, unixToInternal. cbn [sec time_Unix]. lia.
Defined.

(* ================================================================== *)
(** * A query is answered once *)
(* ================================================================== *)

Ltac answer n :=
  unfold answers_once, returned, after, events; cbn;
  split; [reflexivity|]; split; [reflexivity|];
  eexists; split; [reflexivity|]; cbn;
  match n with
  | 200 => left; repeat split; discriminate
  | 400 => right; left; repeat split
  | 500 => right; right; repeat split; eexists; reflexivity
  end.

Section QueryAnswers.
Context {S Q FS : Type} `{Store S Q} `{Files FS}.

(** X6.  Whatever the request and the store are, the query handler of
    either revision returns without a panic, changes neither the store nor
    the files, and writes exactly one response: 200 and "ok" with data, or
    400 and "error" without data, or 500 and "error" without data.  The
    error of a failed store query goes to the log only; the response of
    code 500 carries a fixed message. *)
Theorem handlerQuery_answers_once
    (time_Parse : string -> string -> result Time)
    (r : Request) (w : world S FS) :
  answers_once "an unexpected error occurred" w (Part002.handlerQuery r w) /\
  answers_once "error executing query" w (MainGo.handlerQuery time_Parse r w).
Proof.
  split.
  - unfold Part002.handlerQuery.
    destruct (Method r =? "GET")%string; cbn [negb]; [|answer 400].
    destruct (newQueryArgs_returns (FormValue r "start") (FormValue r "end"))
      as (a & E).
    unfold bind at 1. unfold lift. rewrite E.
    destruct a as [args|err]; [|answer 400].
    unfold bind, storeGet, storeQuery, writeResponse, logPrintf, emit.
    destruct (Get (store w) (FormValue r "key")); cbn [negb]; [|answer 400].
    destruct (Query (store w) (FormValue r "key")
                (start args) (end_ args) (interval args));
      [answer 200 | answer 500].
  - unfold MainGo.handlerQuery.
    destruct (Method r =? "GET")%string; cbn [negb]; [|answer 400].
    destruct (MainGo.newQueryArgs time_Parse
                (FormValue r "start") (FormValue r "end")) as [args|err];
      [|answer 400].
    unfold bind, storeQuery, writeResponse, logPrintf, emit.
    destruct (Query (store w) (FormValue r "key")
                (start args) (end_ args) (interval args));
      [answer 200 | answer 500].
Qed.
End QueryAnswers.

(* ================================================================== *)
(** * The start of the server *)
(* ================================================================== *)

Section Start.
Context {S Q FS : Type} `{Store S Q} `{Files FS} `{Lifecycle S} `{ReadFiles FS}.

(** X7.  How [main] comes to its store.  With a dump file that does not
    exist the server starts with the empty store and says so in the log.
    Otherwise it starts only with the store that [Load] made of the whole
    file, and logs nothing; a file that cannot be read, an error of
    [os.Stat] other than a missing file included, or that cannot be
    loaded, ends the process with code 1 after one log line that carries
    the error. *)
Theorem loadStore_cases (fs : FS) (dumpFile : string) :
  (Stat fs dumpFile = StatNotExist ->
   loadStore fs dumpFile =
     (Running NewStore,
      [Logged "file does not exist, starting with empty store"])) /\
  (forall s, fst (loadStore fs dumpFile) = Running s ->
     (Stat fs dumpFile = StatNotExist /\ s = NewStore) \/
     (Stat fs dumpFile <> StatNotExist /\ snd (loadStore fs dumpFile) = [] /\
      exists f, ReadFile fs dumpFile = Ok f /\ Load NewStore f = (None, s))) /\
  (forall c, fst (loadStore fs dumpFile) = Exited c ->
     c = 1 /\ Stat fs dumpFile <> StatNotExist /\
     ((exists err,
         ReadFile fs dumpFile = Err err /\
         snd (loadStore fs dumpFile) = [Logged ("error reading file: " ++ err)])
      \/ (exists f err s',
            ReadFile fs dumpFile = Ok f /\ Load NewStore f = (Some err, s') /\
            snd (loadStore fs dumpFile)
              = [Logged ("error loading store: " ++ err)]))).
Proof.
  unfold loadStore.
  destruct (Stat fs dumpFile) as [| |e] eqn:Es.
  2:{ split; [reflexivity|]. split.
      - intros s [= <-]. left. split; reflexivity.
      - intros c [=]. }
  all: split; [discriminate|].
  all: destruct (ReadFile fs dumpFile) as [f|err] eqn:Er.
  all: try destruct (Load NewStore f) as [[err|] s'] eqn:El.
  all: cbn [fst snd]; split; [intros s0 [=] | intros c [=]]; subst.
  all: try (right; split; [discriminate|]; split; [reflexivity|];
            exists f; split; [reflexivity | assumption]).
  all: split; [reflexivity|]; split; [discriminate|].
  all: try (left; exists err; split; reflexivity).
  all: right; exists f, err, s'; repeat split; assumption.
Qed.

(** X8.  A dump followed by a start.  When the store serialises, the file
    is written, and the file system then gives back what was written, the
    next start of the server calls [Load] on the very bytes of the dump:
    it runs with the store that [Load] makes of them, and logs nothing. *)
Theorem dump_then_start
    (dumpFile : string) (w : world S FS) (buf : string) (fs' : FS) (s : S) :
  Dump (store w) = Ok buf ->
  WriteFile (files w) dumpFile buf = (None, fs') ->
  Stat fs' dumpFile = StatOk ->
  ReadFile fs' dumpFile = Ok buf ->
  Load NewStore buf = (None, s) ->
  files (after (dump dumpFile w)) = fs' /\
  store (after (dump dumpFile w)) = store w /\
  loadStore (files (after (dump dumpFile w))) dumpFile = (Running s, []).
Proof.
  intros Hd Hw Hs Hr Hl.
  rewrite dump_cases, Hd, Hw. unfold after. cbn [fst snd files store].
  split; [reflexivity|]. split; [reflexivity|].
  unfold loadStore. rewrite Hs, Hr, Hl. reflexivity.
Qed.
End Start.

Lemma dump_then_start_witness :
  files (after (dump "store.dump"
                  (mkWorld (Fake.mkStore ["k1"] [] false) (Fake.mkDisk [] []))))
    = Fake.mkDisk [("store.dump", "k1")] [] /\
  store (after (dump "store.dump"
                  (mkWorld (Fake.mkStore ["k1"] [] false) (Fake.mkDisk [] []))))
    = Fake.mkStore ["k1"] [] false /\
  loadStore
    (files (after (dump "store.dump"
                     (mkWorld (Fake.mkStore ["k1"] [] false) (Fake.mkDisk [] [])))))
    "store.dump"
    = (Running (Fake.mkStore ["k1"] [] false), []).
Proof.
  apply (dump_then_start "store.dump"
           (mkWorld (Fake.mkStore ["k1"] [] false) (Fake.mkDisk [] []))
           "k1" (Fake.mkDisk [("store.dump", "k1")] [])
           (Fake.mkStore ["k1"] [] false)); reflexivity.
Defined.

Lemma loadStore_cases_witness :
  loadStore (Fake.mkDisk [] []) "store.dump"
    = (Running (Fake.mkStore [] [] false),
       [Logged "file does not exist, starting with empty store"]) /\
  loadStore (Fake.mkDisk [("store.dump", "corrupt")] []) "store.dump"
    = (Exited 1, [Logged "error loading store: unexpected end of dump"]) /\
  loadStore (Fake.mkDisk [] ["store.dump"]) "store.dump"
    = (Exited 1, [Logged "error reading file: permission denied"]).
Proof.
  split; [|split; reflexivity].
  exact (proj1 (loadStore_cases (S := Fake.store) (Fake.mkDisk [] [])
                  "store.dump") eq_refl).
Defined.

(* ================================================================== *)
(** * The retention policy *)
(* ================================================================== *)

(** Truncating an instant to the grain gives the multiple of 15 seconds at
    or below it. *)
Lemma Truncate_grain t :
  0 <= nsec t < Second ->
  Truncate t (15 * Second) = time_Unix (15 * (sec t / 15)).
Proof.
  destruct t as [s n]. unfold Truncate, time_Unix, Second, unixToInternal.
  cbn [sec nsec]. intros Hn.
  change (15 * 1000000000 <=? 0) with false. cbv iota zeta.
  pose proof (Z.div_mod s 15 ltac:(lia)) as Hd.
  pose proof (Z.mod_pos_bound s 15 ltac:(lia)) as Hm.
  assert (E : ((s + 62135596800) * 1000000000 + n) mod (15 * 1000000000)
              = s mod 15 * 1000000000 + n).
  { replace ((s + 62135596800) * 1000000000 + n)
      with (s mod 15 * 1000000000 + n
            + (s / 15 + 4142373120) * (15 * 1000000000)) by lia.
    rewrite Z.mod_add by lia. apply Z.mod_small. lia. }
  rewrite E.
  replace ((s + 62135596800) * 1000000000 + n - (s mod 15 * 1000000000 + n))
    with ((s + 62135596800 - s mod 15) * 1000000000) by lia.
  rewrite Z.div_mul, Z.mod_mul by lia.
  f_equal. lia.
Qed.

Lemma time_Add_seconds t k :
  0 <= nsec t < Second ->
  time_Add t (k * Second) = mkTime (sec t + k) (nsec t).
Proof.
  destruct t as [s n]. unfold time_Add, Second. cbn [sec nsec]. intros Hn.
  replace (s * 1000000000 + n + k * 1000000000)
    with (n + (s + k) * 1000000000) by lia.
  rewrite Z.div_add, Z.mod_add by lia.
  rewrite Z.div_small, Z.mod_small by lia. f_equal.
Qed.

Lemma time_Add_nsec t d :
  0 <= nsec (time_Add t d) < Second.
Proof.
  unfold time_Add. cbn [nsec]. apply Z.mod_pos_bound. reflexivity.
Qed.

Section Retention.
Context {S Q FS : Type} `{Store S Q} `{Files FS} `{Lifecycle S}.

(** X9.  With a retention policy of 1 to 106751 days, a tick of the
    retention timer calls [TrimLeft], and nothing else, with the instant
    that many days before the instant of the tick, rounded down to a
    multiple of 15 seconds: it is a whole multiple of 15 seconds since the
    epoch, not after the instant sought, and less than 15 seconds before
    it. *)
Theorem trimCutoff_days (now : Time) (retentionPolicy : Z) (w : world S FS) :
  0 < retentionPolicy <= 106751 -> 0 <= nsec now < Second ->
  retention retentionPolicy = retentionPolicy * 86400 * Second /\
  trimCutoff now retentionPolicy
    = time_Unix (15 * ((sec now - retentionPolicy * 86400) / 15)) /\
  trimTick now retentionPolicy w
    = mkWorld
        (TrimLeft (store w)
           (time_Unix (15 * ((sec now - retentionPolicy * 86400) / 15))))
        (files w) /\
  Unix (trimCutoff now retentionPolicy) mod 15 = 0 /\
  Unix (trimCutoff now retentionPolicy) <= sec now - retentionPolicy * 86400
    < Unix (trimCutoff now retentionPolicy) + 15.
Proof.
  intros Hr Hn.
  assert (E : retention retentionPolicy = retentionPolicy * 86400 * Second).
  { unfold retention, mul64, Second.
    rewrite (wrap64_small (retentionPolicy * 86400))
      by (unfold int64, MinInt64, MaxInt64; lia).
    apply wrap64_small. unfold int64, MinInt64, MaxInt64. lia. }
  split; [assumption|].
  assert (C : trimCutoff now retentionPolicy
              = time_Unix (15 * ((sec now - retentionPolicy * 86400) / 15))).
  { unfold trimCutoff. rewrite E, grain.
    rewrite wrap64_small
      by (unfold int64, MinInt64, MaxInt64, Second; lia).
    replace (- (retentionPolicy * 86400 * Second))
      with ((- (retentionPolicy * 86400)) * Second) by lia.
    rewrite time_Add_seconds by assumption.
    rewrite Truncate_grain by (cbn [nsec]; assumption).
    cbn [sec].
    replace (sec now + - (retentionPolicy * 86400))
      with (sec now - retentionPolicy * 86400) by lia.
    reflexivity. }
  split; [assumption|].
  split; [unfold trimTick; rewrite C; reflexivity|].
  rewrite C. unfold Unix, time_Unix. cbn [sec].
  pose proof (Z.div_mod (sec now - retentionPolicy * 86400) 15 ltac:(lia)).
  pose proof (Z.mod_pos_bound (sec now - retentionPolicy * 86400) 15 ltac:(lia)).
  split; [apply multiple_mod; lia | lia].
Qed.
End Retention.

Lemma trimCutoff_days_witness :
  retention 365 = 365 * 86400 * Second /\
  trimCutoff (mkTime 1700000007 5) 365
    = time_Unix (15 * ((1700000007 - 365 * 86400) / 15)) /\
  trimTick (mkTime 1700000007 5) 365 Fake.empty
    = mkWorld
        (TrimLeft (store Fake.empty)
           (time_Unix (15 * ((1700000007 - 365 * 86400) / 15))))
        (files Fake.empty) /\
  Unix (trimCutoff (mkTime 1700000007 5) 365) mod 15 = 0 /\
  Unix (trimCutoff (mkTime 1700000007 5) 365) <= 1700000007 - 365 * 86400
    < Unix (trimCutoff (mkTime 1700000007 5) 365) + 15.
Proof.
  apply (trimCutoff_days (mkTime 1700000007 5) 365 Fake.empty);
    unfold Second; cbn [nsec]; lia.
Defined.

(** X10.  With a retention policy of 106752 to 213503 days the duration
    exceeds 64 bits and wraps around to a negative number of nanoseconds:
    the instant handed to [TrimLeft] at a tick is then after the instant
    of the tick, by more than 23 hours. *)
Theorem trimCutoff_wraps (now : Time) (retentionPolicy : Z) :
  106752 <= retentionPolicy <= 213503 -> 0 <= nsec now < Second ->
  retention retentionPolicy = retentionPolicy * 86400 * Second - 2 ^ 64 /\
  retention retentionPolicy < 0 /\
  After (trimCutoff now retentionPolicy) now = true /\
  sec now + 23 * 3600 < Unix (trimCutoff now retentionPolicy).
Proof.
  intros Hr Hn.
  assert (E : retention retentionPolicy
              = retentionPolicy * 86400 * Second - 2 ^ 64).
  { unfold retention, mul64, Second.
    rewrite (wrap64_small (retentionPolicy * 86400))
      by (unfold int64, MinInt64, MaxInt64; lia).
    rewrite <- (wrap64_small (retentionPolicy * 86400 * 1000000000 - 2 ^ 64))
      by (unfold int64, MinInt64, MaxInt64; lia).
    apply wrap64_congr.
    replace (retentionPolicy * 86400 * 1000000000
             - (retentionPolicy * 86400 * 1000000000 - 2 ^ 64))
      with (1 * 2 ^ 64) by lia.
    apply Z_mod_mult. }
  split; [assumption|].
  split; [rewrite E; unfold Second; lia|].
  assert (C : sec now + 23 * 3600 < Unix (trimCutoff now retentionPolicy)).
  { unfold trimCutoff. rewrite E, grain.
    rewrite wrap64_small
      by (unfold int64, MinInt64, MaxInt64, Second; lia).
    rewrite Truncate_grain by apply time_Add_nsec.
    unfold Unix, time_Unix, time_Add. cbn [sec].
    set (d := - (retentionPolicy * 86400 * Second - 2 ^ 64)).
    assert (Hd : 84873 * Second <= d) by (subst d; unfold Second; lia).
    assert (Hs : sec now + 84873 <= (sec now * Second + nsec now + d) / Second).
    { apply Z.div_le_lower_bound; unfold Second in *; lia. }
    pose proof (Z.div_mod ((sec now * Second + nsec now + d) / Second) 15
                  ltac:(lia)).
    pose proof (Z.mod_pos_bound ((sec now * Second + nsec now + d) / Second) 15
                  ltac:(lia)).
    lia. }
  split; [|assumption].
  unfold After. unfold Unix in C.
  destruct (Z.ltb_spec (sec now) (sec (trimCutoff now retentionPolicy)));
    [reflexivity | lia].
Qed.

Lemma trimCutoff_wraps_witness :
  retention 106752 = 106752 * 86400 * Second - 2 ^ 64 /\
  retention 106752 < 0 /\
  After (trimCutoff (mkTime 1700000007 5) 106752) (mkTime 1700000007 5) = true /\
  1700000007 + 23 * 3600 < Unix (trimCutoff (mkTime 1700000007 5) 106752).
Proof.
  apply (trimCutoff_wraps (mkTime 1700000007 5) 106752);
    unfold Second; cbn [nsec]; lia.
Defined.

(* ================================================================== *)
(** * The shutdown *)
(* ================================================================== *)

Section Shutdown.
Context {S Q FS : Type} `{Store S Q} `{Files FS}.

(** X11.  On SIGTERM or SIGINT the server logs "graceful shutdown", dumps
    the store once, and only then stops the HTTP server, with a time-out
    of 3 seconds, and closes the channel that [main] waits for.  The dump
    comes first and the stop follows whether the store serialised and the
    file was written or not. *)
Theorem onSignal_dumps_then_stops (dumpFile : string) (w : world S FS) :
  onSignal dumpFile w =
    (Returns tt, after (dump dumpFile w),
     (Did (Logged "graceful shutdown") :: map Did (events (dump dumpFile w))
        ++ [CalledShutdown (3 * Second); ClosedChannel])%list) /\
  (exists rest,
     events (dump dumpFile w) = CalledDump :: rest /\
     Forall (fun e => e <> CalledDump) rest).
Proof.
  split.
  - unfold onSignal, bind, logPrintf, emit.
    rewrite dump_cases.
    destruct (Dump (store w)) as [buf|err]; [|reflexivity].
    destruct (WriteFile (files w) dumpFile buf) as [e fs']. reflexivity.
  - rewrite dump_cases.
    destruct (Dump (store w)) as [buf|err].
    + destruct (WriteFile (files w) dumpFile buf) as [e fs'].
      eexists. split; [reflexivity|].
      repeat constructor; discriminate.
    + eexists. split; [reflexivity|]. repeat constructor; discriminate.
Qed.
End Shutdown.

(* ================================================================== *)
(** * handlerInsert, event by event *)
(* ================================================================== *)

Lemma filter_matched_indices lines :
  forall i, List.length (matchedIndices i lines) = List.length (filter matched lines).
Proof.
  induction lines as [|l rest IH]; intros i; simpl; [reflexivity|].
  destruct (matched l); simpl; rewrite IH; reflexivity.
Qed.

Lemma statementOf_matched now line s :
  statementOf now line = Some s -> matched line = true.
Proof.
  unfold statementOf, matched. destruct (submatch line); [reflexivity|discriminate].
Qed.

Lemma statementOf_fits now line :
  matched line = true ->
  (fits line = true <-> exists s, statementOf now line = Some s).
Proof.
  unfold statementOf, matched, fits.
  destruct (submatch line) as [[[key st] ts]|]; [intros _|discriminate].
  destruct (len ts =? 0); cbn [orb].
  - split; [eexists; reflexivity | reflexivity].
  - destruct (Atoi ts).
    + split; [eexists; reflexivity | reflexivity].
    + split; [discriminate | intros [s [=]]].
Qed.

Lemma batchOf_filter now lines :
  batchOf now (filter matched lines) = batchOf now lines.
Proof.
  unfold batchOf. induction lines as [|l rest IH]; [reflexivity|].
  simpl. destruct (matched l) eqn:Em; simpl.
  - rewrite IH. reflexivity.
  - rewrite IH. destruct (statementOf now l) eqn:Es; [|reflexivity].
    apply statementOf_matched in Es. congruence.
Qed.

Lemma batchOf_length now lines :
  Forall (fun l => fits l = true) lines ->
  List.length (batchOf now lines) = List.length (filter matched lines).
Proof.
  unfold batchOf. induction 1 as [|l rest Hl _ IH]; [reflexivity|].
  simpl. rewrite length_app, IH.
  destruct (matched l) eqn:Em.
  - apply (statementOf_fits now) in Hl; [|assumption].
    destruct Hl as [s ->]. reflexivity.
  - destruct (statementOf now l) eqn:Es; [|reflexivity].
    apply statementOf_matched in Es. congruence.
Qed.

Lemma errorLogs_app indices tail errs :
  (List.length errs <= List.length indices)%nat ->
  errorLogs (indices ++ tail) errs = errorLogs indices errs.
Proof.
  revert errs. induction indices as [|l ls IH]; intros errs Hl.
  - destruct errs; [|simpl in Hl; lia]. simpl. destruct tail; reflexivity.
  - destruct errs as [|[err|] es]; simpl; try reflexivity;
      simpl in Hl; rewrite IH by lia; reflexivity.
Qed.

Lemma errorLogs_quiet indices errs : quiet (errorLogs indices errs).
Proof.
  revert errs. induction indices as [|l ls IH]; intros errs.
  - destruct errs as [|[|] ?]; constructor.
  - destruct errs as [|[err|] es]; simpl; try constructor; try apply IH.
    eexists. reflexivity.
Qed.

Lemma parseLogs_quiet lines : forall i, quiet (parseLogs i lines).
Proof.
  induction lines as [|l rest IH]; intros i; simpl; [constructor|].
  destruct (matched l); [apply IH|].
  constructor; [eexists; reflexivity | apply IH].
Qed.

Lemma at_middle {A} (pre : list A) v tail :
  at_ (pre ++ v :: tail) (Z.of_nat (List.length pre)) = Returns v.
Proof.
  apply at_nth; [lia|]. rewrite Nat2Z.id.
  rewrite nth_error_app2 by lia. rewrite Nat.sub_diag. reflexivity.
Qed.

Lemma update_middle {A} (pre : list A) v v' tail :
  update (pre ++ v :: tail) (List.length pre) v' = (pre ++ v' :: tail)%list.
Proof.
  induction pre as [|a pre IH]; simpl; [reflexivity|]. rewrite IH. reflexivity.
Qed.

Lemma length_snoc {A} (pre : list A) v :
  Z.of_nat (List.length (pre ++ [v])) = Z.of_nat (List.length pre) + 1.
Proof. rewrite length_app. simpl. lia. Qed.

Lemma matched_indices_lines lines :
  forall i, 0 <= i ->
  Forall2 (fun l line =>
             i <= l /\ nth_error lines (Z.to_nat (l - i)) = Some line)
    (matchedIndices i lines) (filter matched lines).
Proof.
  induction lines as [|a rest IH]; intros i Hi; simpl; [constructor|].
  assert (Hrest : Forall2 (fun l line =>
             i <= l /\ nth_error (a :: rest) (Z.to_nat (l - i)) = Some line)
            (matchedIndices (i + 1) rest) (filter matched rest)).
  { eapply Forall2_impl; [|apply (IH (i + 1)); lia].
    intros l line [Hl Hn]. split; [lia|].
    replace (Z.to_nat (l - i)) with (Datatypes.S (Z.to_nat (l - (i + 1)))) by lia.
    exact Hn. }
  destruct (matched a); [|assumption].
  constructor; [|assumption].
  split; [lia|]. rewrite Z.sub_diag. reflexivity.
Qed.

Section InsertEvents.
Context {S Q FS : Type} `{Store S Q} `{Files FS}.

Lemma bind_pure {A B} (m : M S FS A) (k : A -> M S FS B) w a :
  m w = (Returns a, w, []) -> bind m k w = k a w.
Proof.
  intros E. unfold bind. rewrite E.
  destruct (k a w) as [[o w'] t]. reflexivity.
Qed.

Lemma bind_panics {A B} (m : M S FS A) (k : A -> M S FS B) w msg w' t :
  m w = (Panics msg, w', t) -> bind m k w = (Panics msg, w', t).
Proof. intros E. unfold bind. rewrite E. reflexivity. Qed.

(** What the groups of a line give: the state of the second one, and the
    timestamps of the third one, which are those of [statementOf]. *)
Lemma groups_decoded now line m1 m2 m3 :
  submatch line = Some (m1, m2, m3) ->
  exists c,
    byteAt m2 0 = Returns c /\
    (forall w : world S FS,
       MainGo.stateOf c w = (Returns (stateValue m2), w, [])) /\
    (forall w : world S FS,
       MainGo.timestamps now (Truncate now (mul64 sequenceFrequency Second)) m3 w
       = match statementOf now line with
         | Some s => (Returns (Timestamp s, CreateWithTimestamp s), w, [])
         | None => (Panics "poor validation panic", w,
                    [Logged "poor validation panic"])
         end) /\
    (forall s, statementOf now line = Some s ->
       s = mkStatement m1 (Timestamp s) (stateValue m2) StatementAdd true
             (CreateWithTimestamp s) sequenceFrequency).
Proof.
  intros Hsub. pose proof Hsub as Hst.
  apply submatch_statement in Hst.
  destruct Hst as (c & -> & Hc & _ & _ & _ & _).
  exists c. split; [reflexivity|]. split; [|split].
  - intros w. unfold MainGo.stateOf, is012 in *.
    destruct (Ascii.eqb_spec c "0") as [->|_]; [reflexivity|].
    destruct (Ascii.eqb_spec c "1") as [->|_]; [reflexivity|].
    destruct (Ascii.eqb_spec c "2") as [->|_]; [reflexivity|discriminate].
  - intros w. unfold MainGo.timestamps, statementOf. rewrite Hsub, grain.
    assert (0 <= len m3) by (unfold len; lia).
    destruct (Z.ltb_spec 0 (len m3)); destruct (Z.eqb_spec (len m3) 0);
      try lia; [|reflexivity].
    destruct (Atoi m3); reflexivity.
  - intros s. unfold statementOf. rewrite Hsub.
    destruct (len m3 =? 0); [intros [= <-]; reflexivity|].
    destruct (Atoi m3); [intros [= <-]; reflexivity | discriminate].
Qed.

(** The first loop of [MainGo.handlerInsert] on lines that fit. *)
Lemma parseLines_exact now lines :
  Forall (fun l => fits l = true) lines ->
  forall i statements indexMapping skipped (w : world S FS),
    MainGo.parseLines now (Truncate now (mul64 sequenceFrequency Second))
      i lines statements indexMapping skipped w
    = (Returns ((statements ++ batchOf now lines)%list,
                (indexMapping ++ matchedIndices i lines)%list,
                skipped + (Z.of_nat (List.length lines)
                           - Z.of_nat (List.length (filter matched lines)))),
       w, parseLogs i lines).
Proof.
  induction 1 as [|line rest Hl _ IH]; intros i statements indexMapping skipped w.
  - simpl. unfold ret. rewrite !app_nil_r. same_count.
  - cbn [MainGo.parseLines]. unfold MainGo.FindSubmatch.
    unfold batchOf. cbn [flat_map matchedIndices parseLogs filter].
    fold (batchOf now rest).
    destruct (submatch line) as [[[m1 m2] m3]|] eqn:Hsub.
    + destruct (groups_decoded now line m1 m2 m3 Hsub)
        as (c & Hc & Hstate & Htime & Hshape).
      assert (Hm : matched line = true) by (unfold matched; rewrite Hsub; reflexivity).
      apply (statementOf_fits now) in Hl; [|assumption].
      destruct Hl as [s Hs]. rewrite Hs in Htime. rewrite Hs, Hm.
      rewrite Hc.
      rewrite (bind_pure _ _ w c eq_refl).
      rewrite (bind_pure _ _ w _ (Hstate w)).
      rewrite (bind_pure _ _ w _ (Htime w)).
      cbv iota beta. rewrite <- (Hshape s Hs).
      rewrite IH. rewrite <- !app_assoc. cbn [app].
      same_count.
    + assert (Hm : matched line = false) by (unfold matched; rewrite Hsub; reflexivity).
      unfold statementOf. rewrite Hsub, Hm.
      unfold bind at 1. unfold logPrintf, emit.
      rewrite IH. cbn [app].
      same_count.
Qed.

(** The first loop of [MainGo.handlerInsert] on lines of which one does
    not fit. *)
Lemma parseLines_unfit now lines :
  Exists (fun l => fits l = false) lines ->
  forall i statements indexMapping skipped (w : world S FS),
  exists logs,
    MainGo.parseLines now (Truncate now (mul64 sequenceFrequency Second))
      i lines statements indexMapping skipped w
    = (Panics "poor validation panic", w, logs) /\ quiet logs.
Proof.
  induction lines as [|line rest IH]; intros Hex i statements indexMapping skipped w.
  - inversion Hex.
  - cbn [MainGo.parseLines]. unfold MainGo.FindSubmatch.
    destruct (submatch line) as [[[m1 m2] m3]|] eqn:Hsub.
    + destruct (groups_decoded now line m1 m2 m3 Hsub)
        as (c & Hc & Hstate & Htime & Hshape).
      assert (Hm : matched line = true) by (unfold matched; rewrite Hsub; reflexivity).
      rewrite Hc.
      rewrite (bind_pure _ _ w c eq_refl).
      rewrite (bind_pure _ _ w _ (Hstate w)).
      destruct (statementOf now line) as [s|] eqn:Hs.
      * rewrite (bind_pure _ _ w _ (Htime w)). cbv iota beta.
        apply IH. inversion Hex as [? ? Hbad|? ? Hrest]; subst; [|assumption].
        assert (fits line = true)
          by (apply (statementOf_fits now); [assumption | eauto]).
        congruence.
      * rewrite (bind_panics _ _ w _ _ _ (Htime w)).
        eexists. split; [reflexivity|].
        constructor; [eexists; reflexivity | constructor].
    + assert (Hrest : Exists (fun l => fits l = false) rest).
      { inversion Hex as [? ? Hbad|? ? Hrest]; subst; [|assumption].
        unfold fits in Hbad. rewrite Hsub in Hbad. discriminate. }
      destruct (IH Hrest (i + 1) statements indexMapping (skipped + 1) w)
        as (logs & E & Hq).
      unfold bind at 1. unfold logPrintf, emit. rewrite E.
      eexists. split; [reflexivity|].
      constructor; [eexists; reflexivity | assumption].
Qed.

(** The loops over the errors of the batch. *)
Lemma countErrors_exact errs :
  forall pre indices tail skipped (w : world S FS),
  (List.length errs <= List.length indices)%nat ->
  MainGo.countErrors (pre ++ indices ++ tail) (Z.of_nat (List.length pre))
    errs skipped w
  = (Returns (skipped + failures errs), w, errorLogs indices errs).
Proof.
  induction errs as [|e es IH]; intros pre indices tail skipped w Hl.
  - simpl. unfold ret, failures. simpl. rewrite Z.add_0_r.
    destruct indices; reflexivity.
  - destruct indices as [|l ls]; [simpl in Hl; lia|]. simpl in Hl.
    assert (Hnext : forall k (w' : world S FS),
              MainGo.countErrors (pre ++ (l :: ls) ++ tail)
                (Z.of_nat (List.length pre) + 1) es k w'
              = MainGo.countErrors ((pre ++ [l]) ++ ls ++ tail)
                  (Z.of_nat (List.length (pre ++ [l]))) es k w').
    { intros k w'. rewrite length_snoc, <- app_assoc. reflexivity. }
    destruct e as [err|]; cbn [MainGo.countErrors errorLogs].
    + rewrite (bind_pure _ _ w l)
        by (unfold lift; rewrite <- app_comm_cons, at_middle; reflexivity).
      unfold bind at 1. unfold logPrintf, emit.
      rewrite Hnext, IH by lia.
      unfold failures. same_count.
    + rewrite Hnext, IH by lia. reflexivity.
Qed.

Lemma countErrors_by_offset_exact errs :
  forall pre indices tail n (w : world S FS),
  (List.length errs <= List.length indices)%nat ->
  Part002.countErrors (pre ++ indices ++ tail) (Z.of_nat (List.length pre))
    errs n w
  = (Returns (n - failures errs), w, errorLogs indices errs).
Proof.
  induction errs as [|e es IH]; intros pre indices tail n w Hl.
  - simpl. unfold ret, failures. simpl. rewrite Z.sub_0_r.
    destruct indices; reflexivity.
  - destruct indices as [|l ls]; [simpl in Hl; lia|]. simpl in Hl.
    assert (Hnext : forall k (w' : world S FS),
              Part002.countErrors (pre ++ (l :: ls) ++ tail)
                (Z.of_nat (List.length pre) + 1) es k w'
              = Part002.countErrors ((pre ++ [l]) ++ ls ++ tail)
                  (Z.of_nat (List.length (pre ++ [l]))) es k w').
    { intros k w'. rewrite length_snoc, <- app_assoc. reflexivity. }
    destruct e as [err|]; cbn [Part002.countErrors errorLogs].
    + rewrite (bind_pure _ _ w l)
        by (unfold lift; rewrite <- app_comm_cons, at_middle; reflexivity).
      unfold bind at 1. unfold logPrintf, emit.
      rewrite Hnext, IH by lia.
      unfold failures. same_count.
    + rewrite Hnext, IH by lia. reflexivity.
Qed.

(** The first loop of [Part002.handlerInsert]. *)
Lemma validate_exact lines :
  forall i pre tail (w : world S FS),
  (List.length lines <= List.length tail)%nat ->
  Part002.validate i lines (pre ++ tail) (Z.of_nat (List.length pre)) w
  = (Returns ((pre ++ matchedIndices i lines
                 ++ skipn (List.length (matchedIndices i lines)) tail)%list,
              Z.of_nat (List.length pre)
                + Z.of_nat (List.length (matchedIndices i lines))),
     w, parseLogs i lines).
Proof.
  induction lines as [|line rest IH]; intros i pre tail w Hl.
  - simpl. unfold ret. rewrite Z.add_0_r. reflexivity.
  - cbn [Part002.validate matchedIndices parseLogs].
    rewrite Match_matched. simpl in Hl.
    destruct (matched line); cbn [negb].
    + destruct tail as [|t tail']; [simpl in Hl; lia|]. simpl in Hl.
      assert (Hset : set_at (pre ++ t :: tail') (Z.of_nat (List.length pre)) i
                     = Returns ((pre ++ [i]) ++ tail')%list).
      { unfold set_at. rewrite length_app. cbn [List.length].
        destruct (Z.leb_spec 0 (Z.of_nat (List.length pre))); [|lia].
        destruct (Z.ltb_spec (Z.of_nat (List.length pre))
                    (Z.of_nat (List.length pre + Datatypes.S (List.length tail'))));
          [|lia].
        cbn [andb]. rewrite Nat2Z.id, update_middle, <- app_assoc. reflexivity. }
      rewrite (bind_pure _ _ w _ (f_equal (fun o => (o, w, [])) Hset)).
      rewrite <- (length_snoc pre i). rewrite IH by lia.
      rewrite length_snoc, <- app_assoc. cbn [app List.length skipn].
      same_count.
    + unfold bind at 1. unfold logPrintf, emit.
      rewrite IH by lia. reflexivity.
Qed.

(** The second loop of [Part002.handlerInsert] decodes the lines that its
    mapping points to. *)
Lemma decode_lines now ds lines indices :
  forall pre tail decoded statements (w : world S FS),
  Forall2 (fun l line => 0 <= l /\ nth_error lines (Z.to_nat l) = Some line)
    indices decoded ->
  Part002.decode now ds lines (pre ++ indices ++ tail)
    (List.length indices) (Z.of_nat (List.length pre)) statements w
  = decodeAll now ds decoded statements w.
Proof.
  induction indices as [|l ls IH]; intros pre tail decoded statements w Hd.
  - inversion Hd; subst. reflexivity.
  - inversion Hd as [|? line ? rest [Hl Hline] Hrest]; subst.
    cbn [Part002.decode decodeAll List.length].
    rewrite (bind_pure _ _ w l)
      by (unfold lift; rewrite <- app_comm_cons, at_middle; reflexivity).
    rewrite (bind_pure _ _ w line)
      by (unfold lift; rewrite (at_nth lines l line Hl Hline); reflexivity).
    unfold bind.
    destruct (Part002.decodeLine now ds line w) as [[[st|msg] w'] t];
      [|reflexivity].
    rewrite <- (length_snoc pre l).
    replace (pre ++ (l :: ls) ++ tail)%list with ((pre ++ [l]) ++ ls ++ tail)%list
      by (rewrite <- app_assoc; reflexivity).
    rewrite (IH (pre ++ [l])%list tail rest _ w' Hrest). reflexivity.
Qed.

(** One line of the grammar, decoded by offset. *)
Lemma decodeLine_exact now line (w : world S FS) :
  matched line = true ->
  Part002.decodeLine now (Truncate now (mul64 sequenceFrequency Second)) line w
  = match statementOf now line with
    | Some s => (Returns s, w, [])
    | None => (Panics "poor validation panic", w, [Logged "poor validation panic"])
    end.
Proof.
  unfold matched. destruct (submatch line) as [[[m1 m2] m3]|] eqn:Hsub;
    [intros _ | discriminate].
  rewrite (decodeLine_groups now _ line m1 m2 m3 w)
    by (apply submatch_statement; assumption).
  destruct (groups_decoded now line m1 m2 m3 Hsub)
    as (c & Hc & Hstate & Htime & Hshape).
  rewrite Hc.
  rewrite (bind_pure _ _ w c eq_refl).
  rewrite (bind_pure _ _ w _ (Hstate w)).
  destruct (statementOf now line) as [s|] eqn:Hs.
  - rewrite (bind_pure _ _ w _ (Htime w)). cbn [fst snd].
    rewrite <- (Hshape s eq_refl). reflexivity.
  - rewrite (bind_panics _ _ w _ _ _ (Htime w)). reflexivity.
Qed.

Lemma decodeAll_fits now lines :
  Forall (fun l => matched l = true) lines ->
  Forall (fun l => fits l = true) lines ->
  forall statements (w : world S FS),
    decodeAll now (Truncate now (mul64 sequenceFrequency Second)) lines statements w
    = (Returns (statements ++ batchOf now lines)%list, w, []).
Proof.
  induction 1 as [|line rest Hm _ IH]; intros Hf statements w.
  - simpl. unfold ret. rewrite app_nil_r. reflexivity.
  - inversion Hf as [|? ? Hl Hrest]; subst.
    cbn [decodeAll]. unfold batchOf. cbn [flat_map]. fold (batchOf now rest).
    pose proof (decodeLine_exact now line w Hm) as E.
    apply (statementOf_fits now) in Hl; [|assumption].
    destruct Hl as [s Hs]. rewrite Hs in E. rewrite Hs.
    rewrite (bind_pure _ _ w _ E), (IH Hrest), <- app_assoc. reflexivity.
Qed.

Lemma decodeAll_unfit now lines :
  Forall (fun l => matched l = true) lines ->
  Exists (fun l => fits l = false) lines ->
  forall statements (w : world S FS),
    decodeAll now (Truncate now (mul64 sequenceFrequency Second)) lines statements w
    = (Panics "poor validation panic", w, [Logged "poor validation panic"]).
Proof.
  induction 1 as [|line rest Hm _ IH]; intros Hex statements w.
  - inversion Hex.
  - cbn [decodeAll].
    pose proof (decodeLine_exact now line w Hm) as E.
    destruct (statementOf now line) as [s|] eqn:Hs.
    + rewrite (bind_pure _ _ w _ E). apply IH.
      inversion Hex as [? ? Hbad|? ? Hrest]; subst; [|assumption].
      assert (fits line = true)
        by (apply (statementOf_fits now); [assumption | eauto]).
      congruence.
    + apply bind_panics. assumption.
Qed.
End InsertEvents.

Section InsertRuns.
Context {S Q FS : Type} `{Store S Q} `{Files FS}.

Lemma filter_Forall {A} (p : A -> bool) (P : A -> Prop) xs :
  Forall P xs -> Forall P (filter p xs).
Proof.
  induction 1 as [|x xs Hx _ IH]; simpl; [constructor|].
  destruct (p x); [constructor|]; assumption.
Qed.

Lemma filter_all {A} (p : A -> bool) xs :
  Forall (fun x => p x = true) (filter p xs).
Proof.
  induction xs as [|x xs IH]; simpl; [constructor|].
  destruct (p x) eqn:E; [constructor|]; assumption.
Qed.

Lemma filter_Exists {A} (p : A -> bool) (P : A -> Prop) xs :
  Exists P xs -> (forall x, P x -> p x = true) -> Exists P (filter p xs).
Proof.
  intros Hex Hp. induction Hex as [x xs Hx|x xs _ IH]; simpl.
  - rewrite (Hp x Hx). left. assumption.
  - destruct (p x); [right|]; assumption.
Qed.

Lemma unfit_matched line : fits line = false -> matched line = true.
Proof.
  unfold fits, matched. destruct (submatch line); [reflexivity|discriminate].
Qed.

(** The run of [MainGo.handlerInsert] on a body whose lines fit. *)
Lemma handlerInsert_run (now : Time) (body : string) (w : world S FS) :
  batch_contract ->
  Forall (fun l => fits l = true) (Split body) ->
  MainGo.handlerInsert now (postRequest body) w
  = (Returns tt,
     mkWorld (snd (Batch (store w) (batchOf now (Split body)))) (files w),
     insertEvents now body (store w)).
Proof.
  intros Hcontract Hfits. unfold insertEvents.
  set (lines := Split body) in *.
  set (batch := batchOf now lines).
  set (n := Z.of_nat (List.length lines)).
  pose proof (parseLines_exact now lines Hfits 0 [] [] 0 w) as Hparse.
  cbn [app] in Hparse. rewrite Z.add_0_l in Hparse. fold batch n in Hparse.
  pose proof (batchOf_length now lines Hfits) as Hlen. fold batch in Hlen.
  rewrite <- Hlen in Hparse.
  assert (Hle : Z.of_nat (List.length batch) <= n).
  { rewrite Hlen. unfold n. apply inj_le, filter_length_le. }
  destruct (Hcontract (store w) batch) as [Hvars Hhas].
  destruct (Batch (store w) batch) as [result s'] eqn:Hbatch.
  cbn [fst snd] in *.
  set (w' := mkWorld s' (files w)).
  assert (Hb : storeBatch batch w = (Returns result, w', [CalledBatch batch])).
  { unfold storeBatch. rewrite Hbatch. reflexivity. }
  set (skipped := n - Z.of_nat (List.length batch)) in *.
  assert (Hcount :
            (if HasErrors result
             then MainGo.countErrors (matchedIndices 0 lines) 0
                    (ErrorVars result) skipped
             else ret skipped) w'
            = (Returns (skipped + failures (ErrorVars result)), w',
               if HasErrors result
               then errorLogs (matchedIndices 0 lines) (ErrorVars result)
               else [])).
  { rewrite Hhas.
    destruct (Z.eqb_spec (failures (ErrorVars result)) 0) as [E|E];
      cbn [negb].
    - rewrite E, Z.add_0_r. reflexivity.
    - pose proof (countErrors_exact (ErrorVars result) []
                    (matchedIndices 0 lines) [] skipped w') as Hc.
      cbn [app List.length] in Hc. rewrite app_nil_r in Hc.
      apply Hc. rewrite Hvars, Hlen, filter_matched_indices. lia. }
  unfold MainGo.handlerInsert, postRequest. cbn [Method Body].
  change (negb ("POST" =? "POST")%string) with false. cbv iota zeta.
  fold lines.
  rewrite (bind_returns _ _ w _ w _ Hparse).
  rewrite (bind_returns _ _ w _ w' _ Hb).
  fold n. rewrite (bind_returns _ _ w' _ w' _ Hcount).
  unfold writeResponse, emit.
  replace (n - (skipped + failures (ErrorVars result)))
    with (Z.of_nat (List.length batch) - failures (ErrorVars result))
    by (unfold skipped; lia).
  assert (Hf : 0 <= failures (ErrorVars result)) by (unfold failures; lia).
  replace (if 0 <? skipped + failures (ErrorVars result)
           then statusWarning else statusOK)
    with (if Z.of_nat (List.length batch) - failures (ErrorVars result) =? n
          then statusOK else statusWarning).
  2:{ destruct (Z.ltb_spec 0 (skipped + failures (ErrorVars result)));
      destruct (Z.eqb_spec (Z.of_nat (List.length batch)
                            - failures (ErrorVars result)) n);
      try (unfold skipped in *; lia); reflexivity. }
  reflexivity.
Qed.

(** The run of [Part002.handlerInsert] on a body whose lines fit. *)
Lemma handlerInsert_by_offset_run (now : Time) (body : string) (w : world S FS) :
  batch_contract ->
  Forall (fun l => fits l = true) (Split body) ->
  Part002.handlerInsert now (postRequest body) w
  = (Returns tt,
     mkWorld (snd (Batch (store w) (batchOf now (Split body)))) (files w),
     insertEvents now body (store w)).
Proof.
  intros Hcontract Hfits. unfold insertEvents.
  set (lines := Split body) in *.
  set (batch := batchOf now lines).
  set (n := Z.of_nat (List.length lines)).
  set (indices := matchedIndices 0 lines).
  set (tail := skipn (List.length indices) (repeat 0 (List.length lines))).
  pose proof (validate_exact lines 0 [] (repeat 0 (List.length lines)) w
                ltac:(rewrite repeat_length; lia)) as Hval.
  cbn [app List.length] in Hval. rewrite Z.add_0_l in Hval.
  fold indices tail in Hval.
  pose proof (batchOf_length now lines Hfits) as Hlen. fold batch in Hlen.
  assert (Hidx : List.length indices = List.length batch).
  { unfold indices. rewrite filter_matched_indices, Hlen. reflexivity. }
  assert (Hdec : Part002.decode now
                   (Truncate now (mul64 sequenceFrequency Second))
                   lines (indices ++ tail) (List.length indices) 0 [] w
                 = (Returns batch, w, [])).
  { pose proof (decode_lines now
                  (Truncate now (mul64 sequenceFrequency Second))
                  lines indices [] tail (filter matched lines) [] w) as Hd.
    cbn [app List.length Z.of_nat] in Hd. rewrite Hd.
    - rewrite decodeAll_fits.
      + rewrite batchOf_filter. reflexivity.
      + apply filter_all.
      + apply filter_Forall. assumption.
    - eapply Forall2_impl; [|apply (matched_indices_lines lines 0); lia].
      intros l line [Hl Hn]. rewrite Z.sub_0_r in Hn. split; assumption. }
  assert (Hle : Z.of_nat (List.length batch) <= n).
  { rewrite Hlen. unfold n. apply inj_le, filter_length_le. }
  destruct (Hcontract (store w) batch) as [Hvars Hhas].
  destruct (Batch (store w) batch) as [result s'] eqn:Hbatch.
  cbn [fst snd] in *.
  set (w' := mkWorld s' (files w)).
  assert (Hb : storeBatch batch w = (Returns result, w', [CalledBatch batch])).
  { unfold storeBatch. rewrite Hbatch. reflexivity. }
  assert (Hcount :
            (if HasErrors result
             then Part002.countErrors (indices ++ tail) 0 (ErrorVars result)
                    (Z.of_nat (List.length indices))
             else ret (Z.of_nat (List.length indices))) w'
            = (Returns (Z.of_nat (List.length indices)
                        - failures (ErrorVars result)), w',
               if HasErrors result
               then errorLogs indices (ErrorVars result)
               else [])).
  { rewrite Hhas.
    destruct (Z.eqb_spec (failures (ErrorVars result)) 0) as [E|E];
      cbn [negb].
    - rewrite E, Z.sub_0_r. reflexivity.
    - pose proof (countErrors_by_offset_exact (ErrorVars result) []
                    indices tail (Z.of_nat (List.length indices)) w') as Hc.
      cbn [app List.length] in Hc.
      apply Hc. rewrite Hvars, Hidx. lia. }
  unfold Part002.handlerInsert, postRequest. cbn [Method Body].
  change (negb ("POST" =? "POST")%string) with false. cbv iota zeta.
  fold lines.
  rewrite (bind_returns _ _ w _ w _ Hval).
  rewrite Nat2Z.id.
  rewrite (bind_returns _ _ w _ w _ Hdec).
  rewrite (bind_returns _ _ w _ w' _ Hb).
  rewrite (bind_returns _ _ w' _ w' _ Hcount).
  unfold writeResponse, emit. fold n. rewrite Hidx.
  destruct (Z.of_nat (List.length batch) - failures (ErrorVars result) =? n);
    reflexivity.
Qed.

(** The run of either revision on a body of which a line does not fit. *)
Lemma handlerInsert_unfit (now : Time) (body : string) (w : world S FS) :
  Exists (fun l => fits l = false) (Split body) ->
  exists logs logs',
    MainGo.handlerInsert now (postRequest body) w
      = (Panics "poor validation panic", w, logs) /\
    Part002.handlerInsert now (postRequest body) w
      = (Panics "poor validation panic", w, logs') /\
    quiet logs /\ quiet logs'.
Proof.
  intros Hex.
  set (lines := Split body) in *.
  destruct (parseLines_unfit now lines Hex 0 [] [] 0 w) as (logs & Hparse & Hq).
  set (indices := matchedIndices 0 lines).
  set (tail := skipn (List.length indices) (repeat 0 (List.length lines))).
  pose proof (validate_exact lines 0 [] (repeat 0 (List.length lines)) w
                ltac:(rewrite repeat_length; lia)) as Hval.
  cbn [app List.length] in Hval. rewrite Z.add_0_l in Hval.
  fold indices tail in Hval.
  assert (Hdec : Part002.decode now
                   (Truncate now (mul64 sequenceFrequency Second))
                   lines (indices ++ tail) (List.length indices) 0 [] w
                 = (Panics "poor validation panic", w,
                    [Logged "poor validation panic"])).
  { pose proof (decode_lines now
                  (Truncate now (mul64 sequenceFrequency Second))
                  lines indices [] tail (filter matched lines) [] w) as Hd.
    cbn [app List.length Z.of_nat] in Hd. rewrite Hd.
    - apply decodeAll_unfit.
      + apply filter_all.
      + apply filter_Exists; [assumption | apply unfit_matched].
    - eapply Forall2_impl; [|apply (matched_indices_lines lines 0); lia].
      intros l line [Hl Hn]. rewrite Z.sub_0_r in Hn. split; assumption. }
  exists logs, (parseLogs 0 lines ++ [Logged "poor validation panic"])%list.
  split; [|split; [|split]].
  - unfold MainGo.handlerInsert, postRequest. cbn [Method Body].
    change (negb ("POST" =? "POST")%string) with false. cbv iota zeta.
    fold lines. apply bind_panics. assumption.
  - unfold Part002.handlerInsert, postRequest. cbn [Method Body].
    change (negb ("POST" =? "POST")%string) with false. cbv iota zeta.
    fold lines.
    rewrite (bind_returns _ _ w _ w _ Hval).
    rewrite Nat2Z.id.
    rewrite (bind_panics _ _ w _ _ _ Hdec). reflexivity.
  - assumption.
  - apply Forall_app. split; [apply parseLogs_quiet|].
    constructor; [eexists; reflexivity | constructor].
Qed.
End InsertRuns.

(* ================================================================== *)
(** * What an insert request comes to *)
(* ================================================================== *)

Lemma fake_batch_contract : batch_contract (S := Fake.store).
Proof.
  intros st statements. simpl. unfold Fake.batch, failures. simpl.
  rewrite length_map. split; [reflexivity|].
  induction statements as [|s ss IH]; [reflexivity|].
  simpl. unfold Fake.errorOf at 1 3.
  destruct (Fake.mem (Key s) (Fake.refused st)); simpl.
  - destruct (Z.eqb_spec (Z.of_nat (Datatypes.S (List.length
        (filter (fun e : option error =>
                   match e with Some _ => true | None => false end)
           (map (Fake.errorOf st) ss))))) 0); [lia|reflexivity].
  - exact IH.
Qed.

Lemma Split_nonempty body : Split body <> [].
Proof.
  destruct body as [|c rest]; simpl; [discriminate|].
  destruct (Ascii.eqb c LF); [discriminate|].
  destruct (Split rest); discriminate.
Qed.

Lemma Split_length body :
  List.length (Split body) = Datatypes.S (lineFeeds body).
Proof.
  induction body as [|c rest IH]; [reflexivity|].
  simpl. destruct (Ascii.eqb c LF); simpl; [rewrite IH; reflexivity|].
  destruct (Split rest) as [|l ls] eqn:E; [destruct (Split_nonempty _ E)|].
  simpl in *. assumption.
Qed.

Lemma Split_line_feed_last body :
  Split (body ++ String LF EmptyString) = (Split body ++ [EmptyString])%list.
Proof.
  induction body as [|c rest IH]; [reflexivity|].
  simpl. rewrite IH. destruct (Ascii.eqb c LF); [reflexivity|].
  destruct (Split rest) as [|l ls] eqn:E; [destruct (Split_nonempty _ E)|].
  reflexivity.
Qed.

Lemma responses_insertEvents {S Q} `{Store S Q} now body (st : S) :
  responses (insertEvents now body st)
  = [mkResponse 200
       (if Z.of_nat (List.length (batchOf now (Split body)))
             - failures (ErrorVars (fst (Batch st (batchOf now (Split body)))))
           =? Z.of_nat (List.length (Split body))
        then statusOK else statusWarning)
       ("processed "
          ++ itoa (Z.of_nat (List.length (batchOf now (Split body)))
                   - failures (ErrorVars (fst (Batch st (batchOf now (Split body))))))
          ++ "/" ++ itoa (Z.of_nat (List.length (Split body)))
          ++ " statement(s)") None].
Proof.
  unfold insertEvents. cbv zeta.
  rewrite !responses_app.
  rewrite (quiet_responses _ (parseLogs_quiet _ _)).
  assert (Hq : responses
                 (if HasErrors (fst (Batch st (batchOf now (Split body))))
                  then errorLogs (matchedIndices 0 (Split body))
                         (ErrorVars (fst (Batch st (batchOf now (Split body)))))
                  else []) = []).
  { destruct (HasErrors _); [|reflexivity].
    apply quiet_responses, errorLogs_quiet. }
  rewrite Hq. reflexivity.
Qed.

Section InsertRequests.
Context {S Q FS : Type} `{Store S Q} `{Files FS}.

(** X12.  On a body whose timestamps all fit 64 bits the two revisions of
    the insert handler do the same, event by event: the lines that are no
    statements are logged in order with their numbers, one batch with the
    statements of all the other lines is submitted, the errors of the
    batch are logged with the numbers of their lines, and one response is
    written; the store is left as the batch left it. *)
Theorem handlerInsert_revisions_agree
    (now : Time) (body : string) (w : world S FS) :
  batch_contract ->
  Forall (fun l => fits l = true) (Split body) ->
  MainGo.handlerInsert now (postRequest body) w
  = (Returns tt,
     mkWorld (snd (Batch (store w) (batchOf now (Split body)))) (files w),
     insertEvents now body (store w)) /\
  Part002.handlerInsert now (postRequest body) w
  = MainGo.handlerInsert now (postRequest body) w.
Proof.
  intros Hc Hf. split.
  - apply handlerInsert_run; assumption.
  - rewrite handlerInsert_run, handlerInsert_by_offset_run by assumption.
    reflexivity.
Qed.

(** X13.  The count of an insert request.  On a body whose timestamps all
    fit, both revisions answer 200 with "processed X/Y statement(s)",
    where Y is the number of line feeds of the body plus one and X is the
    number of lines that are statements less the number of errors of the
    batch; the status is "ok" when X is Y and "warning" otherwise, and X
    lies between 0 and Y. *)
Theorem handlerInsert_count (now : Time) (body : string) (w : world S FS) :
  batch_contract ->
  Forall (fun l => fits l = true) (Split body) ->
  let y := Z.of_nat (lineFeeds body) + 1 in
  let x := Z.of_nat (List.length (filter matched (Split body)))
           - failures (ErrorVars (fst (Batch (store w)
                                         (batchOf now (Split body))))) in
  0 <= x <= y /\
  responses (events (MainGo.handlerInsert now (postRequest body) w))
    = [mkResponse 200 (if x =? y then statusOK else statusWarning)
         ("processed " ++ itoa x ++ "/" ++ itoa y ++ " statement(s)") None] /\
  responses (events (Part002.handlerInsert now (postRequest body) w))
    = [mkResponse 200 (if x =? y then statusOK else statusWarning)
         ("processed " ++ itoa x ++ "/" ++ itoa y ++ " statement(s)") None].
Proof.
  intros Hc Hf. cbv zeta.
  rewrite handlerInsert_run, handlerInsert_by_offset_run by assumption.
  unfold events. cbn [snd]. rewrite responses_insertEvents.
  rewrite (batchOf_length now _ Hf), Split_length.
  replace (Z.of_nat (Datatypes.S (lineFeeds body)))
    with (Z.of_nat (lineFeeds body) + 1) by lia.
  split; [|split; reflexivity].
  destruct (Hc (store w) (batchOf now (Split body))) as [Hvars _].
  pose proof (filter_length_le matched (Split body)) as Hm.
  rewrite Split_length in Hm.
  split.
  - unfold failures. rewrite <- (batchOf_length now _ Hf), <- Hvars.
    pose proof (filter_length_le
                  (fun e : option error =>
                     match e with Some _ => true | None => false end)
                  (ErrorVars (fst (Batch (store w) (batchOf now (Split body)))))).
    lia.
  - unfold failures. lia.
Qed.

(** X14.  On a body of which some line is a statement with a timestamp
    that does not fit 64 bits, both revisions panic with "poor validation
    panic": no response is written, the store is not called, and the
    store and the files are left as they were, whatever the other lines
    are. *)
Theorem handlerInsert_panics (now : Time) (body : string) (w : world S FS) :
  Exists (fun l => fits l = false) (Split body) ->
  (returned (MainGo.handlerInsert now (postRequest body) w)
     = Panics "poor validation panic" /\
   after (MainGo.handlerInsert now (postRequest body) w) = w /\
   quiet (events (MainGo.handlerInsert now (postRequest body) w))) /\
  (returned (Part002.handlerInsert now (postRequest body) w)
     = Panics "poor validation panic" /\
   after (Part002.handlerInsert now (postRequest body) w) = w /\
   quiet (events (Part002.handlerInsert now (postRequest body) w))).
Proof.
  intros Hex.
  destruct (handlerInsert_unfit now body w Hex)
    as (logs & logs' & E & E' & Hq & Hq').
  rewrite E, E'. repeat split; assumption.
Qed.

(** X15.  A body that ends with a line feed has an empty last line, which
    is no statement: when its timestamps fit, both revisions answer with
    the status "warning", and with fewer statements processed than lines
    counted, even when the store accepts every statement. *)
Theorem handlerInsert_line_feed_last
    (now : Time) (body : string) (w : world S FS) :
  batch_contract ->
  Forall (fun l => fits l = true) (Split body) ->
  exists x,
    x < Z.of_nat (List.length (Split body)) + 1 /\
    responses (events (MainGo.handlerInsert now
                         (postRequest (body ++ String LF EmptyString)) w))
      = [mkResponse 200 statusWarning
           ("processed " ++ itoa x ++ "/"
              ++ itoa (Z.of_nat (List.length (Split body)) + 1)
              ++ " statement(s)") None] /\
    responses (events (Part002.handlerInsert now
                         (postRequest (body ++ String LF EmptyString)) w))
      = [mkResponse 200 statusWarning
           ("processed " ++ itoa x ++ "/"
              ++ itoa (Z.of_nat (List.length (Split body)) + 1)
              ++ " statement(s)") None].
Proof.
  intros Hc Hf.
  assert (Hf' : Forall (fun l => fits l = true)
                  (Split (body ++ String LF EmptyString))).
  { rewrite Split_line_feed_last. apply Forall_app. split; [assumption|].
    constructor; [reflexivity | constructor]. }
  rewrite handlerInsert_run, handlerInsert_by_offset_run by assumption.
  unfold events. cbn [snd]. rewrite responses_insertEvents.
  set (batch := batchOf now (Split (body ++ String LF EmptyString))).
  assert (Hlen : Z.of_nat (List.length batch)
                 <= Z.of_nat (List.length (Split body))).
  { unfold batch. rewrite (batchOf_length now _ Hf'), Split_line_feed_last.
    rewrite filter_app. cbn [filter]. change (matched EmptyString) with false.
    rewrite app_nil_r. apply inj_le, filter_length_le. }
  rewrite Split_line_feed_last, length_app. cbn [List.length].
  replace (Z.of_nat (List.length (Split body) + 1))
    with (Z.of_nat (List.length (Split body)) + 1) by lia.
  set (x := Z.of_nat (List.length batch)
            - failures (ErrorVars (fst (Batch (store w) batch)))).
  assert (Hx : x < Z.of_nat (List.length (Split body)) + 1)
    by (unfold x, failures; lia).
  exists x. split; [assumption|].
  destruct (Z.eqb_spec x (Z.of_nat (List.length (Split body)) + 1)); [lia|].
  split; reflexivity.
Qed.
End InsertRequests.

(* ================================================================== *)
(** * The statements of a batch *)
(* ================================================================== *)

Lemma Truncate_in_range t :
  0 <= nsec t < Second ->
  nsec (Truncate t (15 * Second)) = 0 /\
  Unix (Truncate t (15 * Second)) mod 15 = 0 /\
  Unix (Truncate t (15 * Second)) <= Unix t
    < Unix (Truncate t (15 * Second)) + 15.
Proof.
  intros Ht. rewrite Truncate_grain by assumption.
  unfold Unix, time_Unix. cbn [sec nsec].
  pose proof (Z.div_mod (sec t) 15 ltac:(lia)).
  pose proof (Z.mod_pos_bound (sec t) 15 ltac:(lia)).
  split; [reflexivity|]. split; [apply multiple_mod; lia | lia].
Qed.

Lemma statementOf_creating now line s :
  0 <= nsec now < Second ->
  statementOf now line = Some s ->
  creating s /\ on_grain s /\
  (Timestamp s = now \/ exists x, Timestamp s = time_Unix x).
Proof.
  intros Hn. unfold statementOf.
  destruct (submatch line) as [[[key st] ts]|]; [|discriminate].
  destruct (len ts =? 0).
  - intros [= <-]. unfold creating, on_grain.
    cbn [Type_ CreateIfNotExists CreateWithFrequency CreateWithTimestamp Timestamp].
    split; [repeat split|]. split; [apply (Truncate_in_range now Hn)|].
    left; reflexivity.
  - destruct (Atoi ts) as [x|]; [|discriminate].
    intros [= <-]. unfold creating, on_grain.
    cbn [Type_ CreateIfNotExists CreateWithFrequency CreateWithTimestamp Timestamp].
    split; [repeat split|]. split; [|right; eexists; reflexivity].
    apply Truncate_in_range. unfold Second. cbn [nsec time_Unix]. lia.
Qed.

Lemma batchOf_creating now lines :
  0 <= nsec now < Second ->
  Forall (fun s => creating s /\ on_grain s /\
                   (Timestamp s = now \/ exists x, Timestamp s = time_Unix x))
    (batchOf now lines).
Proof.
  intros Hn. unfold batchOf. induction lines as [|l rest IH]; [constructor|].
  simpl. apply Forall_app. split; [|assumption].
  destruct (statementOf now l) as [s|] eqn:Es; [|constructor].
  constructor; [|constructor].
  apply (statementOf_creating now l s Hn Es).
Qed.

Lemma batchOf_keysAndStates now lines :
  Forall (fun l => fits l = true) lines ->
  map (fun s => (Key s, Value s)) (batchOf now lines) = keysAndStates lines.
Proof.
  unfold batchOf, keysAndStates.
  induction 1 as [|l rest Hl _ IH]; [reflexivity|].
  simpl. rewrite map_app, IH. f_equal.
  unfold fits in Hl. unfold statementOf.
  destruct (submatch l) as [[[key st] ts]|]; [|reflexivity].
  destruct (len ts =? 0); [reflexivity|].
  destruct (Atoi ts); [reflexivity | discriminate].
Qed.

Lemma quiet_not_batch t statements : quiet t -> ~ In (CalledBatch statements) t.
Proof.
  intros Hq Hin. unfold quiet in Hq. rewrite Forall_forall in Hq.
  destruct (Hq _ Hin) as [l E]. discriminate.
Qed.

Lemma In_insertEvents {S Q} `{Store S Q} now body (st : S) statements :
  In (CalledBatch statements) (insertEvents now body st) ->
  statements = batchOf now (Split body).
Proof.
  unfold insertEvents. cbv zeta. intros Hin.
  apply in_app_or in Hin. destruct Hin as [Hin|Hin].
  { destruct (quiet_not_batch _ _ (parseLogs_quiet _ _) Hin). }
  cbn [app In] in Hin.
  destruct Hin as [[= <-]|Hin]; [reflexivity|].
  apply in_app_or in Hin. destruct Hin as [Hin|[Hin|[]]]; [|discriminate].
  destruct (HasErrors _); [|destruct Hin].
  destruct (quiet_not_batch _ _ (errorLogs_quiet _ _) Hin).
Qed.

Section Batches.
Context {S Q FS : Type} `{Store S Q} `{Files FS}.

(** X16.  The batch of an insert request whose timestamps fit, in either
    revision: it holds one statement for each line that is a statement, in
    the order of the lines, with the key and the state of its line.  Each
    statement adds a value at the timestamp of its line, or at the instant
    of the request when the line has none, and creates a missing sequence
    with one value every 15 seconds, from that timestamp truncated to 15
    seconds: for a timestamp that a [time.Time] holds, a whole multiple of
    15 seconds since the epoch, not after the timestamp and less than 15
    seconds before it.  A body without a statement still submits a batch,
    an empty one. *)
Theorem handlerInsert_batch
    (now : Time) (body : string) (w : world S FS) (statements : list Statement) :
  batch_contract ->
  Forall (fun l => fits l = true) (Split body) ->
  0 <= nsec now < Second ->
  In (CalledBatch statements)
     (events (MainGo.handlerInsert now (postRequest body) w))
  \/ In (CalledBatch statements)
        (events (Part002.handlerInsert now (postRequest body) w)) ->
  map (fun s => (Key s, Value s)) statements = keysAndStates (Split body) /\
  Forall creating statements /\
  Forall (fun s => in_range (Timestamp s) -> on_grain s) statements /\
  Forall (fun s => Timestamp s = now \/ exists x, Timestamp s = time_Unix x)
    statements /\
  In (CalledBatch (batchOf now (Split body)))
     (events (MainGo.handlerInsert now (postRequest body) w)) /\
  In (CalledBatch (batchOf now (Split body)))
     (events (Part002.handlerInsert now (postRequest body) w)).
Proof.
  intros Hc Hf Hn.
  rewrite handlerInsert_run, handlerInsert_by_offset_run by assumption.
  unfold events. cbn [snd]. intros Hin.
  assert (E : statements = batchOf now (Split body))
    by (destruct Hin as [Hin|Hin]; apply (In_insertEvents _ _ _ _ Hin)).
  subst statements.
  pose proof (batchOf_creating now (Split body) Hn) as Hall.
  split; [apply batchOf_keysAndStates; assumption|].
  split; [eapply Forall_impl; [|exact Hall]; cbv beta; tauto|].
  split; [eapply Forall_impl; [|exact Hall]; cbv beta; tauto|].
  split; [eapply Forall_impl; [|exact Hall]; cbv beta; tauto|].
  assert (Hb : In (CalledBatch (batchOf now (Split body)))
                 (insertEvents now body (store w))).
  { unfold insertEvents. cbv zeta. apply in_or_app. right. left. reflexivity. }
  split; assumption.
Qed.
End Batches.

Lemma handlerInsert_batch_witness :
  map (fun s => (Key s, Value s))
    [mkStatement "k1" (time_Unix 1692316801) StateActive StatementAdd true
       (time_Unix 1692316800) 15;
     mkStatement "k2" (mkTime 1700000007 5) StateInactive StatementAdd true
       (time_Unix 1699999995) 15]
  = keysAndStates (Split (unlines ["k1 1 1692316801"; "badline"; "k2 0"])) /\
  Forall creating
    [mkStatement "k1" (time_Unix 1692316801) StateActive StatementAdd true
       (time_Unix 1692316800) 15;
     mkStatement "k2" (mkTime 1700000007 5) StateInactive StatementAdd true
       (time_Unix 1699999995) 15] /\
  Forall (fun s => in_range (Timestamp s) -> on_grain s)
    [mkStatement "k1" (time_Unix 1692316801) StateActive StatementAdd true
       (time_Unix 1692316800) 15;
     mkStatement "k2" (mkTime 1700000007 5) StateInactive StatementAdd true
       (time_Unix 1699999995) 15] /\
  Forall (fun s => Timestamp s = mkTime 1700000007 5
                   \/ exists x, Timestamp s = time_Unix x)
    [mkStatement "k1" (time_Unix 1692316801) StateActive StatementAdd true
       (time_Unix 1692316800) 15;
     mkStatement "k2" (mkTime 1700000007 5) StateInactive StatementAdd true
       (time_Unix 1699999995) 15] /\
  In (CalledBatch (batchOf (mkTime 1700000007 5)
                     (Split (unlines ["k1 1 1692316801"; "badline"; "k2 0"]))))
     (events (MainGo.handlerInsert (mkTime 1700000007 5)
                (postRequest (unlines ["k1 1 1692316801"; "badline"; "k2 0"]))
                Fake.empty)) /\
  In (CalledBatch (batchOf (mkTime 1700000007 5)
                     (Split (unlines ["k1 1 1692316801"; "badline"; "k2 0"]))))
     (events (Part002.handlerInsert (mkTime 1700000007 5)
                (postRequest (unlines ["k1 1 1692316801"; "badline"; "k2 0"]))
                Fake.empty)).
Proof.
  apply (handlerInsert_batch (mkTime 1700000007 5)
           (unlines ["k1 1 1692316801"; "badline"; "k2 0"]) Fake.empty).
  - exact fake_batch_contract.
  - repeat constructor.
  - unfold Second. cbn [nsec]. lia.
  - left. vm_compute. right. left. reflexivity.
Defined.

Lemma handlerInsert_revisions_agree_witness :
  MainGo.handlerInsert (mkTime 1700000007 5)
    (postRequest (unlines ["k1 1"; "k2 0"; "badline"; "k3 1"])) Fake.empty
  = (Returns tt,
     mkWorld
       (snd (Batch (store Fake.empty)
               (batchOf (mkTime 1700000007 5)
                  (Split (unlines ["k1 1"; "k2 0"; "badline"; "k3 1"])))))
       (files Fake.empty),
     insertEvents (mkTime 1700000007 5)
       (unlines ["k1 1"; "k2 0"; "badline"; "k3 1"]) (store Fake.empty)) /\
  Part002.handlerInsert (mkTime 1700000007 5)
    (postRequest (unlines ["k1 1"; "k2 0"; "badline"; "k3 1"])) Fake.empty
  = MainGo.handlerInsert (mkTime 1700000007 5)
      (postRequest (unlines ["k1 1"; "k2 0"; "badline"; "k3 1"])) Fake.empty.
Proof.
  apply (handlerInsert_revisions_agree (mkTime 1700000007 5)
           (unlines ["k1 1"; "k2 0"; "badline"; "k3 1"]) Fake.empty).
  - exact fake_batch_contract.
  - repeat constructor.
Defined.

Lemma handlerInsert_count_witness :
  0 <= 1 <= 3 /\
  responses (events (MainGo.handlerInsert (mkTime 1700000007 5)
                       (postRequest (unlines ["k1 1"; "bad"; "k2 0"]))
                       (mkWorld (Fake.mkStore [] ["k2"] false) (Fake.mkDisk [] []))))
    = [mkResponse 200 statusWarning "processed 1/3 statement(s)" None] /\
  responses (events (Part002.handlerInsert (mkTime 1700000007 5)
                       (postRequest (unlines ["k1 1"; "bad"; "k2 0"]))
                       (mkWorld (Fake.mkStore [] ["k2"] false) (Fake.mkDisk [] []))))
    = [mkResponse 200 statusWarning "processed 1/3 statement(s)" None].
Proof.
  exact (handlerInsert_count (mkTime 1700000007 5)
           (unlines ["k1 1"; "bad"; "k2 0"])
           (mkWorld (Fake.mkStore [] ["k2"] false) (Fake.mkDisk [] []))
           fake_batch_contract ltac:(repeat constructor)).
Defined.

Lemma handlerInsert_panics_witness :
  (returned (MainGo.handlerInsert (mkTime 1700000007 5)
               (postRequest (unlines ["k1 1"; "k2 0 99999999999999999999"]))
               Fake.empty)
     = Panics "poor validation panic" /\
   after (MainGo.handlerInsert (mkTime 1700000007 5)
            (postRequest (unlines ["k1 1"; "k2 0 99999999999999999999"]))
            Fake.empty) = Fake.empty /\
   quiet (events (MainGo.handlerInsert (mkTime 1700000007 5)
                    (postRequest (unlines ["k1 1"; "k2 0 99999999999999999999"]))
                    Fake.empty))) /\
  (returned (Part002.handlerInsert (mkTime 1700000007 5)
               (postRequest (unlines ["k1 1"; "k2 0 99999999999999999999"]))
               Fake.empty)
     = Panics "poor validation panic" /\
   after (Part002.handlerInsert (mkTime 1700000007 5)
            (postRequest (unlines ["k1 1"; "k2 0 99999999999999999999"]))
            Fake.empty) = Fake.empty /\
   quiet (events (Part002.handlerInsert (mkTime 1700000007 5)
                    (postRequest (unlines ["k1 1"; "k2 0 99999999999999999999"]))
                    Fake.empty))).
Proof.
  exact (handlerInsert_panics (mkTime 1700000007 5)
           (unlines ["k1 1"; "k2 0 99999999999999999999"]) Fake.empty
           (Exists_cons_tl "k1 1"
              (Exists_cons_hd (fun l => fits l = false)
                 "k2 0 99999999999999999999" [] eq_refl))).
Defined.

Lemma handlerInsert_line_feed_last_witness :
  exists x,
    x < Z.of_nat (List.length (Split "k1 1")) + 1 /\
    responses (events (MainGo.handlerInsert (mkTime 1700000007 5)
                         (postRequest ("k1 1" ++ String LF EmptyString))
                         Fake.empty))
      = [mkResponse 200 statusWarning
           ("processed " ++ itoa x ++ "/"
              ++ itoa (Z.of_nat (List.length (Split "k1 1")) + 1)
              ++ " statement(s)") None] /\
    responses (events (Part002.handlerInsert (mkTime 1700000007 5)
                         (postRequest ("k1 1" ++ String LF EmptyString))
                         Fake.empty))
      = [mkResponse 200 statusWarning
           ("processed " ++ itoa x ++ "/"
              ++ itoa (Z.of_nat (List.length (Split "k1 1")) + 1)
              ++ " statement(s)") None].
Proof.
  apply (handlerInsert_line_feed_last (mkTime 1700000007 5) "k1 1" Fake.empty).
  - exact fake_batch_contract.
  - repeat constructor.
Defined.

(* ================================================================== *)
(** * The lines that are statements *)
(* ================================================================== *)

Lemma append_assoc (a b c : string) : (a ++ b) ++ c = a ++ (b ++ c).
Proof. induction a as [|x a IH]; simpl; [reflexivity|]. rewrite IH. reflexivity. Qed.

Lemma last_byte (s : string) :
  s <> EmptyString ->
  exists pre d, s = pre ++ String d EmptyString.
Proof.
  induction s as [|c s IH]; [congruence|]. intros _.
  destruct s as [|c' s'].
  - exists EmptyString, c. reflexivity.
  - destruct IH as (pre & d & E); [discriminate|].
    exists (String c pre), d. simpl. rewrite <- E. reflexivity.
Qed.

Lemma allb_last p pre d :
  allb p (pre ++ String d EmptyString) = true -> p d = true.
Proof.
  induction pre as [|c pre IH]; simpl.
  - rewrite andb_true_r. auto.
  - intros E. apply andb_true_iff in E. apply IH, E.
Qed.

Lemma append_last_inj a b (x y : ascii) :
  a ++ String x EmptyString = b ++ String y EmptyString -> x = y.
Proof.
  revert b. induction a as [|c a IH]; intros [|c' b]; simpl; intros E.
  - congruence.
  - injection E as _ E. destruct b; discriminate.
  - injection E as _ E. destruct a; discriminate.
  - injection E as _ E. apply (IH b E).
Qed.

Lemma is012_isDigit c : is012 c = true -> isDigit c = true.
Proof.
  unfold is012. intros E.
  destruct (Ascii.eqb_spec c "0") as [E0|_]; [subst c; reflexivity|].
  destruct (Ascii.eqb_spec c "1") as [E1|_]; [subst c; reflexivity|].
  destruct (Ascii.eqb_spec c "2") as [E2|_]; [subst c; reflexivity|discriminate].
Qed.

(** A statement ends with a digit. *)
Lemma statement_last line key st ts :
  statement line key st ts ->
  exists pre d, line = pre ++ String d EmptyString /\ isDigit d = true.
Proof.
  intros (c & -> & Hc & _ & _ & Hts & ->).
  destruct ts as [|t ts'].
  - exists (key ++ " "), c. split; [|apply is012_isDigit; assumption].
    rewrite append_assoc. reflexivity.
  - destruct (last_byte (String t ts')) as (pre & d & E); [discriminate|].
    rewrite E in *.
    exists (key ++ String " " (String c (String " " pre))), d.
    split; [|apply (allb_last _ _ _ Hts)].
    rewrite append_assoc.
    replace (len (pre ++ String d EmptyString) =? 0) with false.
    + reflexivity.
    + symmetry. apply Z.eqb_neq. unfold len. rewrite length_append. simpl. lia.
Qed.

(** X17.  The lines that the insert handlers take for statements.  The
    pattern of either revision matches a line exactly when the line is a
    key of one word byte or more, a space, one of the digits 0, 1 and 2,
    and, optionally, a space and one decimal digit or more, with nothing
    before or after; the groups that [FindSubmatch] returns are the key,
    the state digit and the timestamp, the last one empty when there is
    none.  A line that ends with a byte that is no digit, a carriage
    return or a space for one, is no statement. *)
Theorem validStatement_grammar (line : string) :
  (Regexp_Match MainGo.validStatement line = true
   <-> exists key st ts, statement line key st ts) /\
  Part002.Match line = Regexp_Match MainGo.validStatement line /\
  (forall key st ts,
     MainGo.FindSubmatch line = Some (key, st, ts) <-> statement line key st ts) /\
  (forall c, isDigit c = false ->
     Part002.Match (line ++ String c EmptyString) = false).
Proof.
  split; [|split; [|split]].
  - rewrite Regexp_Match_lang. apply lang_validStatement.
  - reflexivity.
  - intros key st ts. apply submatch_statement.
  - intros c Hc.
    destruct (Part002.Match (line ++ String c EmptyString)) eqn:E; [|reflexivity].
    unfold Part002.Match in E.
    apply Regexp_Match_lang in E.
    apply (lang_validStatement (line ++ String c EmptyString)) in E.
    destruct E as (key & st & ts & Hst).
    destruct (statement_last _ _ _ _ Hst) as (pre & d & E & Hd).
    apply append_last_inj in E. congruence.
Qed.

(* ================================================================== *)
(** * The timestamps that fit *)
(* ================================================================== *)

Lemma isDigit_digitVal c : isDigit c = true -> 0 <= digitVal c <= 9.
Proof.
  unfold isDigit, digitVal. intros E. apply andb_true_iff in E.
  destruct E as [E1 E2]. apply N.leb_le in E1, E2. lia.
Qed.

Lemma digits_bound s :
  forall acc, allb isDigit s = true -> 0 <= acc ->
  exists n, digits acc s = Some n /\ n < (acc + 1) * 10 ^ len s.
Proof.
  induction s as [|c s IH]; intros acc Hall Hacc.
  - exists acc. split; [reflexivity|]. unfold len. simpl. lia.
  - simpl in Hall. apply andb_true_iff in Hall. destruct Hall as [Hc Hs].
    cbn [digits]. rewrite Hc. pose proof (isDigit_digitVal c Hc) as Hd.
    destruct (IH (acc * 10 + digitVal c) Hs ltac:(lia)) as (n & E & Hn).
    exists n. split; [assumption|].
    assert (Hl : len (String c s) = len s + 1)
      by (unfold len; simpl; lia).
    rewrite Hl, Z.pow_add_r by (unfold len; lia).
    assert (Hp : 0 < 10 ^ len s) by (apply Z.pow_pos_nonneg; unfold len; lia).
    nia.
Qed.

Section TimestampsThatFit.
Context {S Q FS : Type} `{Store S Q} `{Files FS}.

(** X18.  The statements that make the decoders panic.  For a line that
    is a statement, the decoder of either revision returns when the line
    has no timestamp or its timestamp denotes a number up to
    9223372036854775807, and only then; otherwise it logs "poor
    validation panic" and panics.  A timestamp of 18 digits or fewer
    never makes it panic. *)
Theorem timestamp_decoded
    (dv ds : Time) (line key st ts : string) (w : world S FS) :
  statement line key st ts ->
  (fits line = true <-> len ts = 0 \/ decimal ts <= MaxInt64) /\
  ((exists s, Part002.decodeLine dv ds line w = (Returns s, w, []))
   <-> len ts = 0 \/ decimal ts <= MaxInt64) /\
  ((exists tv, MainGo.timestamps dv ds ts w = (Returns tv, w, []))
   <-> len ts = 0 \/ decimal ts <= MaxInt64) /\
  (~ (len ts = 0 \/ decimal ts <= MaxInt64) ->
   Part002.decodeLine dv ds line w
     = (Panics "poor validation panic", w, [Logged "poor validation panic"]) /\
   MainGo.timestamps dv ds ts w
     = (Panics "poor validation panic", w, [Logged "poor validation panic"])) /\
  (len ts <= 18 -> len ts = 0 \/ decimal ts <= MaxInt64).
Proof.
  intros Hst. pose proof Hst as Hsub. apply submatch_statement in Hsub.
  pose proof (decodeLine_groups dv ds line key st ts w Hst) as Hdec.
  destruct Hst as (c & -> & Hc & _ & _ & Hts & _).
  assert (Hlen : 0 <= len ts) by (unfold len; lia).
  assert (Hstate : exists v, MainGo.stateOf c w = (Returns v, w, []))
    by (apply stateOf_012; assumption).
  destruct Hstate as [v Hstate].
  rewrite (bind_pure _ _ w c eq_refl) in Hdec.
  rewrite (bind_pure _ _ w _ Hstate) in Hdec.
  assert (Htime :
            MainGo.timestamps dv ds ts w
            = if (len ts =? 0) || (decimal ts <=? MaxInt64)
              then (Returns (if len ts =? 0 then (dv, ds)
                             else (time_Unix (decimal ts),
                                   Truncate (time_Unix (decimal ts))
                                     (mul64 sequenceFrequency Second))),
                    w, [])
              else (Panics "poor validation panic", w,
                    [Logged "poor validation panic"])).
  { unfold MainGo.timestamps.
    destruct (Z.ltb_spec 0 (len ts)); destruct (Z.eqb_spec (len ts) 0);
      try lia; cbn [orb]; [|reflexivity].
    rewrite (Atoi_timestamp ts Hts) by lia.
    destruct (decimal ts <=? MaxInt64); reflexivity. }
  assert (Hb : (len ts =? 0) || (decimal ts <=? MaxInt64) = true
               <-> len ts = 0 \/ decimal ts <= MaxInt64).
  { rewrite orb_true_iff, Z.eqb_eq, Z.leb_le. reflexivity. }
  split; [|split; [|split; [|split]]].
  - unfold fits. rewrite Hsub, <- Hb.
    destruct (Z.eqb_spec (len ts) 0) as [E0|E0]; cbn [orb]; [reflexivity|].
    rewrite (Atoi_timestamp ts Hts) by lia.
    destruct (decimal ts <=? MaxInt64); split; congruence.
  - rewrite <- Hb, Hdec.
    destruct ((len ts =? 0) || (decimal ts <=? MaxInt64)).
    + rewrite (bind_pure _ _ w _ Htime).
      split; [reflexivity | intros _; eexists; reflexivity].
    + rewrite (bind_panics _ _ w _ _ _ Htime).
      split; [intros [s [=]] | discriminate].
  - rewrite <- Hb, Htime.
    destruct ((len ts =? 0) || (decimal ts <=? MaxInt64)).
    + split; [reflexivity | intros _; eexists; reflexivity].
    + split; [intros [tv [=]] | discriminate].
  - intros Hno. rewrite <- Hb in Hno.
    destruct ((len ts =? 0) || (decimal ts <=? MaxInt64)); [congruence|].
    split; [|assumption].
    rewrite Hdec. apply bind_panics. assumption.
  - intros H18. right.
    destruct (digits_bound ts 0 Hts ltac:(lia)) as (n & En & Hn).
    unfold decimal. rewrite En.
    assert (10 ^ len ts <= 10 ^ 18) by (apply Z.pow_le_mono_r; lia).
    unfold MaxInt64. lia.
Qed.
End TimestampsThatFit.

Lemma timestamp_decoded_witness :
  (fits "k1 1 9223372036854775807" = true
   <-> len "9223372036854775807" = 0
       \/ decimal "9223372036854775807" <= MaxInt64) /\
  ((exists s,
      Part002.decodeLine (mkTime 1700000007 5) (mkTime 1699999995 0)
        "k1 1 9223372036854775807" Fake.empty = (Returns s, Fake.empty, []))
   <-> len "9223372036854775807" = 0
       \/ decimal "9223372036854775807" <= MaxInt64) /\
  ((exists tv,
      MainGo.timestamps (mkTime 1700000007 5) (mkTime 1699999995 0)
        "9223372036854775807" Fake.empty = (Returns tv, Fake.empty, []))
   <-> len "9223372036854775807" = 0
       \/ decimal "9223372036854775807" <= MaxInt64) /\
  (~ (len "9223372036854775807" = 0
      \/ decimal "9223372036854775807" <= MaxInt64) ->
   Part002.decodeLine (mkTime 1700000007 5) (mkTime 1699999995 0)
     "k1 1 9223372036854775807" Fake.empty
     = (Panics "poor validation panic", Fake.empty,
        [Logged "poor validation panic"]) /\
   MainGo.timestamps (mkTime 1700000007 5) (mkTime 1699999995 0)
     "9223372036854775807" Fake.empty
     = (Panics "poor validation panic", Fake.empty,
        [Logged "poor validation panic"])) /\
  (len "9223372036854775807" <= 18 ->
   len "9223372036854775807" = 0 \/ decimal "9223372036854775807" <= MaxInt64).
Proof.
  apply (timestamp_decoded (mkTime 1700000007 5) (mkTime 1699999995 0)
           "k1 1 9223372036854775807" "k1" "1" "9223372036854775807" Fake.empty).
  apply submatch_statement. reflexivity.
Defined.

(* ================================================================== *)
(** * The statement of a line with a timestamp *)
(* ================================================================== *)

Section ExplicitTimestamp.
Context {S Q FS : Type} `{Store S Q} `{Files FS}.

(** C4, as amended.  A line that is a statement with a timestamp [x] that
    a [time.Time] holds gives, in both revisions, a statement whose value
    timestamp is [x] itself, on the grain only when [x] is, and whose
    sequence timestamp is [x] rounded down to the grain: the sequence
    timestamp is a multiple of 15 seconds, not after the value timestamp
    and less than 15 seconds before it. *)
Theorem explicit_timestamp_floored
    (dv ds : Time) (line key st ts : string) (x i : Z)
    (statements : list Statement) (indexMapping : list Z) (skipped : Z)
    (w : world S FS) :
  statement line key st ts ->
  0 < len ts -> Atoi ts = Some x ->
  in_range (time_Unix x) ->
  exists s,
    s = mkStatement key (time_Unix x) (stateValue st) StatementAdd true
          (time_Unix (sequenceFrequency * (x / sequenceFrequency)))
          sequenceFrequency /\
    MainGo.timestamps dv ds ts w
      = (Returns (Timestamp s, CreateWithTimestamp s), w, []) /\
    MainGo.parseLines dv ds i [line] statements indexMapping skipped w
      = (Returns ((statements ++ [s])%list, (indexMapping ++ [i])%list, skipped),
         w, []) /\
    Part002.decodeLine dv ds line w = (Returns s, w, []) /\
    Unix (CreateWithTimestamp s) <= Unix (Timestamp s) /\
    Unix (Timestamp s) - Unix (CreateWithTimestamp s) < sequenceFrequency /\
    Unix (CreateWithTimestamp s) mod sequenceFrequency = 0 /\
    Unix (Timestamp s) mod sequenceFrequency = x mod sequenceFrequency /\
    After (CreateWithTimestamp s) (Timestamp s) = false.
Proof.
  intros Hst Hl Hx _.
  pose proof Hst as Hsub. apply submatch_statement in Hsub.
  pose proof (decodeLine_groups dv ds line key st ts w Hst) as Hdec.
  destruct (groups_decoded (S := S) (FS := FS) dv line key st ts Hsub)
    as (c & Hc & Hstate & _ & _).
  assert (Htime : MainGo.timestamps dv ds ts w
                  = (Returns (time_Unix x,
                              time_Unix (sequenceFrequency
                                         * (x / sequenceFrequency))), w, [])).
  { unfold MainGo.timestamps.
    destruct (Z.ltb_spec 0 (len ts)); [|lia].
    rewrite Hx, grain, Truncate_time_Unix. reflexivity. }
  eexists. split; [reflexivity|].
  cbn [Timestamp CreateWithTimestamp].
  split; [exact Htime|]. split; [|split].
  - cbn [MainGo.parseLines]. unfold MainGo.FindSubmatch. rewrite Hsub, Hc.
    rewrite (bind_pure _ _ w c eq_refl).
    rewrite (bind_pure _ _ w _ (Hstate w)).
    rewrite (bind_pure _ _ w _ Htime).
    reflexivity.
  - rewrite Hdec, Hc.
    rewrite (bind_pure _ _ w c eq_refl).
    rewrite (bind_pure _ _ w _ (Hstate w)).
    rewrite (bind_pure _ _ w _ Htime).
    reflexivity.
  - rewrite After_time_Unix.
    unfold sequenceFrequency, Unix, time_Unix. cbn [sec].
    pose proof (Z.div_mod x 15 ltac:(lia)).
    pose proof (Z.mod_pos_bound x 15 ltac:(lia)).
    repeat split; try lia.
    rewrite Z.mul_comm. apply Z.mod_mul. lia.
Qed.
End ExplicitTimestamp.

Lemma explicit_timestamp_floored_witness :
  exists s,
    s = mkStatement "k1" (time_Unix 1692316801) (stateValue "1") StatementAdd true
          (time_Unix (sequenceFrequency * (1692316801 / sequenceFrequency)))
          sequenceFrequency /\
    MainGo.timestamps (mkTime 1700000007 5) (mkTime 1699999995 0)
      "1692316801" Fake.empty
      = (Returns (Timestamp s, CreateWithTimestamp s), Fake.empty, []) /\
    MainGo.parseLines (mkTime 1700000007 5) (mkTime 1699999995 0) 0
      ["k1 1 1692316801"] [] [] 0 Fake.empty
      = (Returns (([] ++ [s])%list, ([] ++ [0])%list, 0), Fake.empty, []) /\
    Part002.decodeLine (mkTime 1700000007 5) (mkTime 1699999995 0)
      "k1 1 1692316801" Fake.empty = (Returns s, Fake.empty, []) /\
    Unix (CreateWithTimestamp s) <= Unix (Timestamp s) /\
    Unix (Timestamp s) - Unix (CreateWithTimestamp s) < sequenceFrequency /\
    Unix (CreateWithTimestamp s) mod sequenceFrequency = 0 /\
    Unix (Timestamp s) mod sequenceFrequency = 1692316801 mod sequenceFrequency /\
    After (CreateWithTimestamp s) (Timestamp s) = false.
Proof.
  apply (explicit_timestamp_floored (mkTime 1700000007 5) (mkTime 1699999995 0)
           "k1 1 1692316801" "k1" "1" "1692316801" 1692316801 0 [] [] 0
           Fake.empty).
  - apply submatch_statement. reflexivity.
  - reflexivity.
  - reflexivity.
  - unfold in_range, MinInt64, MaxInt64, unixToInternal. cbn [sec time_Unix]. lia.
Defined.

(* ================================================================== *)
(** * The insert buttons of the page *)
(* ================================================================== *)

Lemma isKeyByte_isWord c : BaseJs.isKeyByte c = isWord c.
Proof.
  unfold BaseJs.isKeyByte, isWord. cbv zeta.
  destruct ((48 <=? N_of_ascii c)%N && (N_of_ascii c <=? 57)%N),
           ((65 <=? N_of_ascii c)%N && (N_of_ascii c <=? 90)%N),
           ((97 <=? N_of_ascii c)%N && (N_of_ascii c <=? 122)%N);
    reflexivity.
Qed.

Lemma allb_ext p q s :
  (forall c, p c = q c) -> allb p s = allb q s.
Proof.
  intros E. induction s as [|c s IH]; simpl; [reflexivity|].
  rewrite E, IH. reflexivity.
Qed.

Lemma lineFeeds_append a b :
  lineFeeds (a ++ b) = (lineFeeds a + lineFeeds b)%nat.
Proof.
  induction a as [|c a IH]; simpl; [reflexivity|].
  destruct (Ascii.eqb c LF); rewrite IH; reflexivity.
Qed.

Lemma lineFeeds_word key : allb isWord key = true -> lineFeeds key = O.
Proof.
  induction key as [|c key IH]; simpl; [reflexivity|].
  intros E. apply andb_true_iff in E. destruct E as [Hc Hk].
  destruct (Ascii.eqb_spec c LF) as [->|_]; [discriminate|].
  apply IH, Hk.
Qed.

Lemma Split_one_line body : lineFeeds body = O -> Split body = [body].
Proof.
  induction body as [|c rest IH]; simpl; [reflexivity|].
  destruct (Ascii.eqb c LF); [discriminate|].
  intros E. rewrite (IH E). reflexivity.
Qed.

Section Page.
Context {S Q FS : Type} `{Store S Q} `{Files FS}.

(** X19.  What the insert buttons of the page send.  When
    [eventHandlerInsert] issues a request, it is a POST to [/insert/]
    whose body is one line, the key of the input field, a space and 0 or
    1: a statement of the server's grammar without a timestamp.  The
    insert handler of the server answers it without a panic, with
    "processed 1/1 statement(s)" and "ok", or, when the store refuses the
    statement, with "processed 0/1 statement(s)" and "warning". *)
Theorem eventHandlerInsert_statement
    (now : Time) (key target_id url method body text : string)
    (w : world S FS) :
  batch_contract ->
  BaseJs.eventHandlerInsert key target_id = BaseJs.Fetch url method body text ->
  url = "/insert/" /\ method = "POST" /\
  (exists st, (st = "0" \/ st = "1") /\ statement body key st EmptyString) /\
  Split body = [body] /\
  returned (Part002.handlerInsert now (postRequest body) w) = Returns tt /\
  (responses (events (Part002.handlerInsert now (postRequest body) w))
     = [mkResponse 200 statusOK "processed 1/1 statement(s)" None]
   \/ responses (events (Part002.handlerInsert now (postRequest body) w))
        = [mkResponse 200 statusWarning "processed 0/1 statement(s)" None]).
Proof.
  intros Hc Hfetch. unfold BaseJs.eventHandlerInsert in Hfetch.
  destruct (Regexp_Match BaseJs.validKey key) eqn:Hkey; cbn [negb] in Hfetch;
    [|discriminate].
  apply Regexp_Match_lang in Hkey. unfold BaseJs.validKey in Hkey.
  apply lang_Plus_Class in Hkey. destruct Hkey as [Hne Hall].
  rewrite (allb_ext _ _ _ isKeyByte_isWord) in Hall.
  assert (Hbody : exists c,
            (c = "0"%char \/ c = "1"%char) /\
            body = key ++ String " " (String c EmptyString) /\
            url = "/insert/" /\ method = "POST").
  { destruct (target_id =? "insert-zero")%string.
    - injection Hfetch as <- <- <- _. exists "0"%char. auto.
    - destruct (target_id =? "insert-one")%string; [|discriminate].
      injection Hfetch as <- <- <- _. exists "1"%char. auto. }
  destruct Hbody as (c & Hc01 & -> & -> & ->).
  assert (Hst : statement (key ++ String " " (String c EmptyString)) key
                  (String c EmptyString) EmptyString).
  { exists c. repeat split; try assumption.
    destruct Hc01 as [-> | ->]; reflexivity. }
  assert (Hone : Split (key ++ String " " (String c EmptyString))
                 = [key ++ String " " (String c EmptyString)]).
  { apply Split_one_line. rewrite lineFeeds_append, (lineFeeds_word key Hall).
    destruct Hc01 as [-> | ->]; reflexivity. }
  pose proof Hst as Hsub. apply submatch_statement in Hsub.
  assert (Hf : Forall (fun l => fits l = true)
                 (Split (key ++ String " " (String c EmptyString)))).
  { rewrite Hone. constructor; [|constructor].
    unfold fits. rewrite Hsub. reflexivity. }
  split; [reflexivity|]. split; [reflexivity|].
  split.
  { exists (String c EmptyString). split; [|assumption].
    destruct Hc01 as [-> | ->]; auto. }
  split; [assumption|].
  rewrite (handlerInsert_by_offset_run now _ w Hc Hf).
  unfold returned, events. cbn [fst snd]. split; [reflexivity|].
  rewrite responses_insertEvents, Hone.
  set (batch := batchOf now [key ++ String " " (String c EmptyString)]).
  assert (Hlen : List.length batch = 1%nat).
  { unfold batch, batchOf, statementOf. cbn [flat_map].
    rewrite Hsub. reflexivity. }
  destruct (Hc (store w) batch) as [Hvars _].
  rewrite Hlen in *.
  assert (Hfail : failures (ErrorVars (fst (Batch (store w) batch))) = 0
                  \/ failures (ErrorVars (fst (Batch (store w) batch))) = 1).
  { unfold failures.
    pose proof (filter_length_le
                  (fun e : option error =>
                     match e with Some _ => true | None => false end)
                  (ErrorVars (fst (Batch (store w) batch)))).
    lia. }
  destruct Hfail as [-> | ->]; [left | right]; reflexivity.
Qed.
End Page.

Lemma eventHandlerInsert_statement_witness :
  "/insert/" = "/insert/" /\ "POST" = "POST" /\
  (exists st, (st = "0" \/ st = "1") /\ statement "k1 1" "k1" st EmptyString) /\
  Split "k1 1" = ["k1 1"] /\
  returned (Part002.handlerInsert (mkTime 1700000007 5) (postRequest "k1 1")
              Fake.empty) = Returns tt /\
  (responses (events (Part002.handlerInsert (mkTime 1700000007 5)
                        (postRequest "k1 1") Fake.empty))
     = [mkResponse 200 statusOK "processed 1/1 statement(s)" None]
   \/ responses (events (Part002.handlerInsert (mkTime 1700000007 5)
                           (postRequest "k1 1") Fake.empty))
        = [mkResponse 200 statusWarning "processed 0/1 statement(s)" None]).
Proof.
  exact (eventHandlerInsert_statement (mkTime 1700000007 5) "k1" "insert-one"
           "/insert/" "POST" "k1 1"
           (String.append "Key:   k1"
              (String LF (String.append "Value: 1"
                 (String LF (String.append "Raw:   POST /insert/"
                    (String LF "Body:  k1 1"))))))
           Fake.empty fake_batch_contract eq_refl).
Defined.

(* ================================================================== *)
(** * Longer ranges, coarser intervals *)
(* ================================================================== *)

Lemma firstAggregation_in scope table :
  firstAggregation scope table = 0 \/ In (firstAggregation scope table) table.
Proof.
  induction table as [|v rest IH]; simpl; [left; reflexivity|].
  destruct (quo64 scope v <=? maxNumberOfPoints); [right; left; reflexivity|].
  destruct IH; [left | right; right]; assumption.
Qed.

Lemma firstAggregation_monotone table :
  Forall (fun u => 0 < u) table -> ForallOrdPairs Z.le table ->
  forall s1 s2,
    0 <= s1 <= s2 -> s2 <= MaxInt64 ->
    firstAggregation s2 table <> 0 ->
    0 < firstAggregation s1 table <= firstAggregation s2 table.
Proof.
  intros Hpos Hsorted s1 s2 Hs Hmax.
  assert (H1 : int64 s1) by (unfold int64, MinInt64, MaxInt64 in *; lia).
  assert (H2 : int64 s2) by (unfold int64, MinInt64, MaxInt64 in *; lia).
  induction table as [|v rest IH]; simpl; [congruence|].
  inversion Hpos as [|? ? Hv Hrest]; subst.
  inversion Hsorted as [|? ? Hle Hsr]; subst.
  rewrite !quo64_quot by assumption.
  rewrite !Z.quot_div_nonneg by lia.
  assert (Hq : s1 / v <= s2 / v) by (apply Z.div_le_mono; lia).
  destruct (Z.leb_spec (s2 / v) maxNumberOfPoints) as [Hfit|Hnot].
  - destruct (Z.leb_spec (s1 / v) maxNumberOfPoints); [lia|lia].
  - intros Hne.
    destruct (Z.leb_spec (s1 / v) maxNumberOfPoints) as [Hfit1|Hnot1].
    + split; [assumption|].
      destruct (firstAggregation_in s2 rest) as [E|Hin]; [congruence|].
      rewrite Forall_forall in Hle. apply Hle. assumption.
    + apply IH; assumption.
Qed.

Lemma aggregations_sorted : ForallOrdPairs Z.le aggregations.
Proof.
  unfold aggregations. repeat (constructor; try lia).
Qed.

(** X20.  Of two ranges that [newQueryArgs] can take, neither negative
    and both within 64 bits, the longer one never gets the finer
    interval: when the table has an interval for the longer range, it has
    one for the shorter range as well, and not a coarser one. *)
Theorem firstAggregation_coarser (s1 s2 : Z) :
  0 <= s1 <= s2 -> s2 <= MaxInt64 ->
  firstAggregation s2 aggregations <> 0 ->
  0 < firstAggregation s1 aggregations <= firstAggregation s2 aggregations.
Proof.
  apply firstAggregation_monotone;
    [apply aggregations_positive | apply aggregations_sorted].
Qed.

Lemma firstAggregation_coarser_witness :
  0 < firstAggregation 5714 aggregations <= firstAggregation 5715 aggregations.
Proof.
  apply (firstAggregation_coarser 5714 5715); unfold MaxInt64;
    [lia | lia | discriminate].
Defined.

(* ================================================================== *)
(** * What newQueryArgs returns, dates in the mask *)
(* ================================================================== *)

Section QueryDatesAccepted.
Variable time_Parse : string -> string -> result Time.

(** X21.  The arguments that [newQueryArgs] of [src/cmd/server/main.go]
    accepts: the start and the end are the two dates as [time.Parse] reads
    them, neither of them rounded, the start is not after the end, and
    the interval is an entry of the aggregation table, in seconds, and the
    first one that keeps the range, in whole seconds, within 380
    intervals; unless the range exceeds 64 bits it holds 380 intervals at
    most and is shorter than 381 days. *)
Theorem dates_newQueryArgs_accepted (start_ end' : string) (args : queryArgs) :
  MainGo.newQueryArgs time_Parse start_ end' = Ok args ->
  exists i,
    time_Parse maskTime start_ = Ok (start args) /\
    time_Parse maskTime end' = Ok (end_ args) /\
    After (start args) (end_ args) = false /\
    In i aggregations /\ interval args = i * Second /\
    first_fitting (sub64 (Unix (end_ args)) (Unix (start args))) i /\
    (Unix (end_ args) - Unix (start args) <= MaxInt64 ->
     (Unix (end_ args) - Unix (start args)) / i <= maxNumberOfPoints /\
     Unix (end_ args) - Unix (start args) < 32918400).
Proof.
  unfold MainGo.newQueryArgs.
  destruct (time_Parse maskTime start_) as [x|] eqn:Ex; [|discriminate].
  destruct (time_Parse maskTime end') as [y|] eqn:Ey; [|discriminate].
  destruct (After x y) eqn:Ea; [discriminate|]. cbv zeta.
  set (scope := sub64 (Unix y) (Unix x)).
  destruct (firstAggregation_aggregations scope (wrap64_int64 _))
    as [[E0 _]|[Hff Hin]].
  - rewrite E0. discriminate.
  - destruct (Z.eqb_spec (firstAggregation scope aggregations) 0) as [E0|E0];
      [discriminate|].
    intros [= <-]. cbn [start end_ interval].
    set (i := firstAggregation scope aggregations) in *.
    pose proof (aggregations_bounds _ Hin) as Hb.
    exists i. repeat split; try assumption.
    + apply mul64_Second. assumption.
    + destruct Hff as (pre & post & _ & _ & Hq).
      assert (Hle : Unix x <= Unix y).
      { unfold After, Unix in *. apply orb_false_iff in Ea.
        destruct Ea as [Ea _]. apply Z.ltb_ge in Ea. assumption. }
      unfold scope, sub64 in Hq. rewrite wrap64_small in Hq
        by (unfold int64, MinInt64, MaxInt64 in *; lia).
      rewrite Z.quot_div_nonneg in Hq by lia. assumption.
    + assert (Hle : Unix x <= Unix y).
      { unfold After, Unix in *. apply orb_false_iff in Ea.
        destruct Ea as [Ea _]. apply Z.ltb_ge in Ea. assumption. }
      assert (Hs : scope = Unix y - Unix x).
      { unfold scope, sub64. apply wrap64_small.
        unfold int64, MinInt64, MaxInt64 in *. lia. }
      destruct (Z_lt_le_dec (Unix y - Unix x) 32918400) as [|Hge];
        [assumption|].
      assert (Hn : none_fitting scope)
        by (rewrite Hs; apply none_fitting_threshold; lia).
      apply firstAggregation_zero in Hn; [|apply wrap64_int64].
      fold i in Hn. lia.
Qed.
End QueryDatesAccepted.

Lemma dates_newQueryArgs_accepted_witness :
  exists i,
    Fake.parseDate maskTime "2023-08-18 00:00:00" = Ok (mkTime 1692316800 0) /\
    Fake.parseDate maskTime "2023-08-18 23:59:59" = Ok (mkTime 1692403199 0) /\
    After (mkTime 1692316800 0) (mkTime 1692403199 0) = false /\
    In i aggregations /\ 300 * Second = i * Second /\
    first_fitting (sub64 1692403199 1692316800) i /\
    (1692403199 - 1692316800 <= MaxInt64 ->
     (1692403199 - 1692316800) / i <= maxNumberOfPoints /\
     1692403199 - 1692316800 < 32918400).
Proof.
  exact (dates_newQueryArgs_accepted Fake.parseDate
           "2023-08-18 00:00:00" "2023-08-18 23:59:59"
           (mkQueryArgs (mkTime 1692316800 0) (mkTime 1692403199 0)
              (300 * Second))
           eq_refl).
Defined.
